(** * ColorGG: the moderation decision-and-enforcement pipeline

    A shallow embedding of [src/bot/ai-engine.js] (class [AIEngine]) and
    [src/bot/mod-bot.js] (class [ModBot]), together with the properties of
    the pipeline: verdict normalisation, rule override, escalation
    softening, message deletion, the ban-request protocol and its
    approve / deny resolution.

    JavaScript values are kept dynamically typed where the source leaves
    them so (everything that comes out of [JSON.parse]); the configuration
    (rules, settings) and the platform objects (messages, members,
    channels) are records.  Every [await] on the platform or on the
    classifier is an event: it is appended to the trace of the world and its
    outcome, success or a thrown error, is read from a [Platform] record,
    so that a failure can be injected at every call site. *)

From Stdlib Require Import ZArith Ascii String List Bool Lia.
From Stdlib Require Import Floats.SpecFloat.
From stdpp Require Import base option list gmap strings.

#[local] Set Warnings "-register-all".
Local Open Scope string_scope.
Local Open Scope Z_scope.
Local Open Scope list_scope.
Local Open Scope stdpp_scope.

(** ** Results: a value or a thrown error carrying [error.message] *)

Inductive Res (A : Type) : Type :=
| Ok (a : A)
| Throw (msg : string).
Arguments Ok {A} a.
Arguments Throw {A} msg.

Definition res_bind {A B} (r : Res A) (k : A -> Res B) : Res B :=
  match r with
  | Ok a => k a
  | Throw e => Throw e
  end.

Definition is_ok {A} (r : Res A) : bool :=
  match r with Ok _ => true | Throw _ => false end.

(** ** JavaScript values *)

Module JS.

(** A JS number is an IEEE 754 binary64. *)
Definition number := spec_float.
Definition prec : Z := 53.
Definition emax : Z := 1024.

Definition NaN : number := S754_nan.
Definition zero : number := S754_zero false.
Definition num_of_Z (z : Z) : number := binary_normalize prec emax z 0 false.
Definition one : number := num_of_Z 1.

(** The literal [0.7]: 0x3FE6666666666666. *)
Definition c0_7 : number := S754_finite false 6305039478318694 (-53).

(** [a < b] on numbers; false as soon as one side is NaN. *)
Definition lt (a b : number) : bool := SFltb a b.

Definition num_truthy (n : number) : bool :=
  match n with
  | S754_zero _ | S754_nan => false
  | _ => true
  end.

(** What [JSON.parse] can return, and [undefined] for an absent property. *)
Inductive value : Type :=
| VUndefined
| VNull
| VBool (b : bool)
| VNum (n : number)
| VStr (s : string)
| VArr (items : list value)
| VObj (fields : list (string * value)).

(** ToBoolean. *)
Definition truthy (v : value) : bool :=
  match v with
  | VUndefined | VNull => false
  | VBool b => b
  | VNum n => num_truthy n
  | VStr s => negb (String.eqb s "")
  | VArr _ | VObj _ => true
  end.

(** [a || b]. *)
Definition or_else (a b : value) : value := if truthy a then a else b.

(** [s || d] on a string. *)
Definition str_or (s d : string) : string := if String.eqb s "" then d else s.

(** [v === true]. *)
Definition is_true (v : value) : bool :=
  match v with VBool true => true | _ => false end.

(** [v === s] for a string [s]: no coercion. *)
Definition is_str (v : value) (s : string) : bool :=
  match v with VStr t => String.eqb t s | _ => false end.

(** [typeof v === 'number']. *)
Definition is_number (v : value) : bool :=
  match v with VNum _ => true | _ => false end.

(** What [JSON.parse(JSON.stringify(..))] makes of a value that stands in an
    array or under a property: a number that is not finite becomes [null],
    [-0] becomes [0], [undefined] in an array becomes [null], and a property
    whose value is [undefined] is left out.  [fields] is read as [get] reads
    it: of two entries under one key the first is the property. *)
Fixpoint json (v : value) : value :=
  match v with
  | VUndefined | VNull => VNull
  | VBool b => VBool b
  | VNum n =>
      match n with
      | S754_zero _ => VNum zero
      | S754_finite _ _ _ => VNum n
      | S754_infinity _ | S754_nan => VNull
      end
  | VStr s => VStr s
  | VArr items => VArr (map json items)
  | VObj fields =>
      VObj ((fix properties (seen : list string) (fields : list (string * value)) :=
               match fields with
               | [] => []
               | (k, x) :: rest =>
                   if existsb (String.eqb k) seen then properties seen rest
                   else match x with
                        | VUndefined => properties (k :: seen) rest
                        | _ => (k, json x) :: properties (k :: seen) rest
                        end
               end) [] fields)
  end.

(** The values JSON text carries as they are: no [undefined], no number
    that is not finite, no [-0], each property listed once. *)
Fixpoint storable (v : value) : bool :=
  match v with
  | VUndefined => false
  | VNull | VBool _ | VStr _ => true
  | VNum n =>
      match n with
      | S754_zero sign => negb sign
      | S754_finite _ _ _ => true
      | S754_infinity _ | S754_nan => false
      end
  | VArr items => forallb storable items
  | VObj fields =>
      (fix properties (seen : list string) (fields : list (string * value)) :=
         match fields with
         | [] => true
         | (k, x) :: rest =>
             negb (existsb (String.eqb k) seen) && storable x &&
             properties (k :: seen) rest
         end) [] fields
  end.

(** Own property lookup on a parsed object; [undefined] when absent. *)
Fixpoint get (fields : list (string * value)) (k : string) : value :=
  match fields with
  | [] => VUndefined
  | (k', v) :: rest => if String.eqb k' k then v else get rest k
  end.

Definition has_own (fields : list (string * value)) (k : string) : bool :=
  existsb (fun kv => String.eqb (fst kv) k) fields.

Fixpoint join_with (sep : string) (parts : list string) : string :=
  match parts with
  | [] => ""
  | [p] => p
  | p :: rest => p +:+ sep +:+ join_with sep rest
  end.

(** The two conversions between numeric literals and numbers are those of
    ECMAScript (StringToNumber, Number::toString); the pipeline is
    verified for any implementation of them. *)
Section Coercions.
Variable StringToNumber : string -> number.
Variable NumberToString : number -> string.

(** ToString.  A parsed array has [Array.prototype.join] behind its
    [toString] ([undefined] and [null] elements give the empty string); a
    parsed object gives "[object Object]", unless it has an own property
    named [toString]: that one is not callable, [valueOf] returns the
    object itself, and the conversion throws a TypeError. *)
Fixpoint ToString (v : value) : Res string :=
  match v with
  | VUndefined => Ok "undefined"
  | VNull => Ok "null"
  | VBool true => Ok "true"
  | VBool false => Ok "false"
  | VNum n => Ok (NumberToString n)
  | VStr s => Ok s
  | VArr items =>
      let fix parts (l : list value) : Res (list string) :=
        match l with
        | [] => Ok []
        | x :: rest =>
            res_bind (match x with
                      | VUndefined | VNull => Ok ""
                      | _ => ToString x
                      end)
              (fun s => res_bind (parts rest) (fun ss => Ok (s :: ss)))
        end in
      res_bind (parts items) (fun ss => Ok (join_with "," ss))
  | VObj fields =>
      if has_own fields "toString"
      then Throw "Cannot convert object to primitive value"
      else Ok "[object Object]"
  end.

(** ToNumber; arrays and objects go through ToPrimitive, which yields the
    same string as ToString for them. *)
Definition ToNumber (v : value) : Res number :=
  match v with
  | VUndefined => Ok NaN
  | VNull => Ok zero
  | VBool true => Ok one
  | VBool false => Ok zero
  | VNum n => Ok n
  | VStr s => Ok (StringToNumber s)
  | VArr _ | VObj _ => res_bind (ToString v) (fun s => Ok (StringToNumber s))
  end.

(** [v > c] for a number [c]: the left operand is converted to a number and
    the comparison is false when it is NaN. *)
Definition gt_num (v : value) (c : number) : Res bool :=
  res_bind (ToNumber v) (fun n => Ok (lt c n)).
End Coercions.

End JS.

(** ** Configuration: what [ConfigManager.getRules] and [getSettings] return *)

Record Rule := {
  r_id : string;
  r_name : string;
  r_severity : string;
  r_action : string;
  r_timeoutDuration : JS.number;
  r_enabled : bool;
}.

(** [warningsBeforeAction] is the stored threshold, an integer, and [None]
    when the field is missing or [null]; [banRequestUser] is the empty
    string then.  The three id lists are the JSON values the settings hold,
    whatever they are ([undefined] for a missing one): [updateSettings]
    stores what it is given. *)
Record Settings := {
  warningsBeforeAction : option Z;
  banRequestUser : string;
  dmOnAction : bool;
  ignoredChannels : JS.value;
  ignoredRoles : JS.value;
  trustedRoles : JS.value;
}.

Record Config := {
  rules : list Rule;
  settings : Settings;
}.

(** ** Platform objects *)

Record User := {
  u_id : string;
  u_tag : string;
  u_username : string;
  u_displayName : option string;
  u_globalName : option string;
  u_bot : bool;
}.

Record Member := {
  m_user : User;
  m_kickable : bool;
  m_bannable : bool;
  m_roles : list string;
}.

Record Guild := {
  g_id : string;
  g_name : string;
}.

(** [c_text] is [c.isTextBased() && !c.isVoiceBased()]; [c_sendable] is
    [c.permissionsFor(guild.members.me)?.has('SendMessages')]. *)
Record Channel := {
  c_id : string;
  c_name : string;
  c_text : bool;
  c_sendable : bool;
}.

Record Message := {
  author : User;
  system : bool;
  guild : option Guild;
  channel : Channel;
  content : string;
  member : option Member;
}.

Record Interaction := {
  isButton : bool;
  customId : string;
}.

(** ** The verdict of the classifier client *)

Record Verdict := {
  flagged : bool;
  violations : list JS.value;
  confidence : JS.number;
  reasoning : JS.value;
  suggestedAction : JS.value;
  suggestedDuration : JS.value;
  replyMessage : JS.value;
}.

(** What lines 220-245 of [analyzeMessage] end in: the awaited request
    throws (a timeout, a network error, an error status; the message is the
    one of the error), the body holds no [{...}] span, [JSON.parse] throws, or
    an object comes out (the matched text starts with an opening brace, so
    nothing else can). *)
Inductive ClassifierOutcome :=
| RequestFailed (msg : string)
| NoJsonObject
| MalformedJson (msg : string)
| Parsed (fields : list (string * JS.value)).

(** ** Events: what a handler awaits *)

(** The three arguments [member.timeout] is called with: [duration * 1000]
    for a [duration] in seconds, a number of milliseconds, and [null]. *)
Inductive Mute :=
| MuteSeconds (duration : JS.value)
| MuteMs (ms : Z)
| MuteLift.

Inductive Announcement := AnnTimeout | AnnKick | AnnKickPendingBan.

(** The four stages of the delivery of a ban request. *)
Inductive Stage :=
| ViaDM (reviewerId : string)
| ViaModChannel (channelId : string)
| ViaViolationChannel
| ViaAnyChannel (channelId : string).

(** The six texts [interaction.update] is called with. *)
Inductive UpdateKind :=
| UBanApproved
| UBanApprovedById
| UCouldNotBan (err : string)
| UBanFailed (err : string)
| UBanDenied
| UDenyFailed (err : string).

(** [EClassify]: [axios.post] and the extraction of the JSON object;
    [EStatus]: [_emitStatus]; [EReply]: [message.reply]; [EDelete]:
    [message.delete]; [EFetchMember]: [guild.members.fetch(id)]; [ETimeout]:
    [member.timeout]; [EKick]: [member.kick]; [EAnnounce]: the
    [message.channel.send] that announces a mute or a kick; [EDmOffender]:
    [author.createDM] and [dm.send] of the moderation notice; [EFetchMembers]:
    [guild.members.fetch()]; [EBuildEmbed]: the construction of the embed and
    of the two buttons of a ban request, lines 396-425 ([violations.join], the
    validation of the builders); [EDeliver]: one send of the ban request;
    [EFetchGuild]: [client.guilds.fetch]; [EBanMember]: [member.ban];
    [EBanById]: [guild.bans.create]; [EUpdate]: [interaction.update]. *)
Inductive Event :=
| EClassify
| EStatus (event : string)
| EReply
| EDelete
| EFetchMember (guildId userId : string)
| ETimeout (userId : string) (m : Mute)
| EKick (userId : string)
| EAnnounce (a : Announcement)
| EDmOffender
| EFetchMembers (guildId : string)
| EBuildEmbed
| EDeliver (s : Stage)
| EFetchGuild (guildId : string)
| EBanMember (userId : string)
| EBanById (userId : string)
| EUpdate (k : UpdateKind).

(** The platform as one handler run sees it.  [respond e] is [None] when
    the awaited statement [e] completes and [Some msg] when it throws [msg],
    be it a rejection by the platform or an exception raised while its
    arguments are built; the other fields are what the lookups return.
    [toLowerCase] is [String.prototype.toLowerCase], the case folding of the
    runtime: the handlers are verified for any. *)
Record Platform := {
  respond : Event -> option string;
  toLowerCase : string -> string;
  classifier : ClassifierOutcome;
  members_fetch : string -> string -> Res Member;
  members_fetch_all : string -> Res (list Member);
  guilds_cache : list Guild;
  guilds_fetch : string -> Res Guild;
  users_cache : list User;
  channels_cache : list Channel;
}.

(** ** The audit sink: the entry shapes of [Logger] *)

Inductive LogEntry :=
| LModAction (action : string) (userId : string) (ruleId : JS.value)
    (severity : string) (duration : JS.value)
| LAiAnalysis (userId : string) (flagged : bool) (confidence : JS.number)
| LBotEvent (event : string)
| LError (error : string) (context : string).

(** ** The state of the process *)

Record ContextMsg := {
  cm_author : string;
  cm_content : string;
}.

Record PendingBan := {
  pb_userId : string;
  pb_username : string;
  pb_guildId : string;
  pb_guildName : string;
  pb_reason : JS.value;
  pb_violations : list JS.value;
  pb_confidence : JS.number;
  pb_kicked : bool;
  pb_delivered : bool;
}.

(** [userWarnings] and [recentMessages] belong to [AIEngine], [pendingBans]
    and the two counters to [ModBot]; [audit] is what [Logger.log] was given
    and [trace] the events that took place, both oldest first. *)
Record World := {
  userWarnings : gmap string nat;
  recentMessages : gmap string (list ContextMsg);
  pendingBans : gmap string PendingBan;
  messageCount : nat;
  actionCount : nat;
  audit : list LogEntry;
  trace : list Event;
}.

Definition set_userWarnings (f : gmap string nat -> gmap string nat) (w : World) : World :=
  {| userWarnings := f (userWarnings w); recentMessages := recentMessages w;
     pendingBans := pendingBans w; messageCount := messageCount w;
     actionCount := actionCount w; audit := audit w; trace := trace w |}.

Definition set_recentMessages
    (f : gmap string (list ContextMsg) -> gmap string (list ContextMsg)) (w : World) : World :=
  {| userWarnings := userWarnings w; recentMessages := f (recentMessages w);
     pendingBans := pendingBans w; messageCount := messageCount w;
     actionCount := actionCount w; audit := audit w; trace := trace w |}.

Definition set_pendingBans
    (f : gmap string PendingBan -> gmap string PendingBan) (w : World) : World :=
  {| userWarnings := userWarnings w; recentMessages := recentMessages w;
     pendingBans := f (pendingBans w); messageCount := messageCount w;
     actionCount := actionCount w; audit := audit w; trace := trace w |}.

Definition set_messageCount (f : nat -> nat) (w : World) : World :=
  {| userWarnings := userWarnings w; recentMessages := recentMessages w;
     pendingBans := pendingBans w; messageCount := f (messageCount w);
     actionCount := actionCount w; audit := audit w; trace := trace w |}.

Definition set_actionCount (f : nat -> nat) (w : World) : World :=
  {| userWarnings := userWarnings w; recentMessages := recentMessages w;
     pendingBans := pendingBans w; messageCount := messageCount w;
     actionCount := f (actionCount w); audit := audit w; trace := trace w |}.

Definition set_audit (f : list LogEntry -> list LogEntry) (w : World) : World :=
  {| userWarnings := userWarnings w; recentMessages := recentMessages w;
     pendingBans := pendingBans w; messageCount := messageCount w;
     actionCount := actionCount w; audit := f (audit w); trace := trace w |}.

Definition set_trace (f : list Event -> list Event) (w : World) : World :=
  {| userWarnings := userWarnings w; recentMessages := recentMessages w;
     pendingBans := pendingBans w; messageCount := messageCount w;
     actionCount := actionCount w; audit := audit w; trace := f (trace w) |}.

Definition empty_world : World :=
  {| userWarnings := ∅; recentMessages := ∅; pendingBans := ∅;
     messageCount := 0; actionCount := 0; audit := []; trace := [] |}.

(** ** The handler monad: state, and exceptions that keep the state *)

Definition M (A : Type) : Type := World -> Res A * World.

#[global] Instance M_ret : MRet M := fun A a w => (Ok a, w).

#[global] Instance M_bind : MBind M := fun A B k m w =>
  match m w with
  | (Ok a, w') => k a w'
  | (Throw e, w') => (Throw e, w')
  end.

Definition throw {A} (msg : string) : M A := fun w => (Throw msg, w).

(** [try { m } catch (error) { h error.message }] *)
Definition try_catch {A} (m : M A) (h : string -> M A) : M A := fun w =>
  match m w with
  | (Ok a, w') => (Ok a, w')
  | (Throw e, w') => h e w'
  end.

(** [try { m } catch (e) {}] *)
Definition attempt (m : M unit) : M unit := try_catch m (fun _ => mret tt).

(** [p.catch(() => null)] *)
Definition catch_null {A} (m : M A) : M (option A) := fun w =>
  match m w with
  | (Ok a, w') => (Ok (Some a), w')
  | (Throw _, w') => (Ok None, w')
  end.

Definition lift {A} (r : Res A) : M A := fun w => (r, w).

Definition modify (f : World -> World) : M unit := fun w => (Ok tt, f w).

Definition reads {A} (f : World -> A) : M A := fun w => (Ok (f w), w).

Definition emit (e : Event) : M unit := modify (set_trace (fun t => t ++ [e])).

(** An awaited statement: recorded, then completed or thrown. *)
Definition call (P : Platform) (e : Event) : M unit :=
  emit e ;;
  match respond P e with
  | None => mret tt
  | Some msg => throw msg
  end.

(** An awaited lookup: recorded, then its result. *)
Definition fetch {A} (e : Event) (r : Res A) : M A := emit e ;; lift r.

Definition when (b : bool) (m : M unit) : M unit := if b then m else mret tt.

(** [Logger.log]: it never throws (the file write is guarded, the listeners
    are guarded). *)
Definition log (entry : LogEntry) : M unit :=
  modify (set_audit (fun l => l ++ [entry])).

Definition log_error (error context : string) : M unit := log (LError error context).

(** ** [AIEngine]: the classifier client and the warning ledger *)

Module AIEngine.

Definition maxContext : nat := 10.

(** [_trackMessage]: push, then drop the oldest entry when the channel holds
    more than [maxContext]. *)
Definition _trackMessage (channelId : string) (message : Message) : M unit :=
  modify (set_recentMessages (fun rm =>
    let msgs := default [] (rm !! channelId) ++
                [ {| cm_author := JS.str_or (u_username (author message)) "Unknown";
                     cm_content := content message |} ] in
    <[ channelId := if (maxContext <? length msgs)%nat then tail msgs else msgs ]> rm)).

(** [this.userWarnings.get(userId) || 0] *)
Definition getWarningCount (userId : string) : M nat :=
  reads (fun w => default 0%nat (userWarnings w !! userId)).

Definition addWarning (userId : string) : M nat :=
  n ← getWarningCount userId ;
  let count := (n + 1)%nat in
  modify (set_userWarnings (fun uw => <[ userId := count ]> uw)) ;;
  mret count.

Definition resetWarnings (userId : string) : M unit :=
  modify (set_userWarnings (fun uw => delete userId uw)).

(** [rules.filter(r => r.enabled)] *)
Definition enabledRules (cfg : Config) : list Rule :=
  List.filter r_enabled (rules cfg).

Definition no_rules_verdict : Verdict :=
  {| flagged := false; violations := []; confidence := JS.zero;
     reasoning := JS.VStr "No rules enabled";
     suggestedAction := JS.VUndefined; suggestedDuration := JS.VUndefined;
     replyMessage := JS.VUndefined |}.

(** The verdict returned from the [catch] block. *)
Definition failure_verdict (msg : string) : Verdict :=
  {| flagged := false; violations := []; confidence := JS.zero;
     reasoning := JS.VStr ("AI analysis failed: " +:+ msg);
     suggestedAction := JS.VStr "none"; suggestedDuration := JS.VNum JS.zero;
     replyMessage := JS.VNull |}.

(** The awaited request and the extraction of the JSON object. *)
Definition request (P : Platform) : M (list (string * JS.value)) :=
  fetch EClassify
    match classifier P with
    | RequestFailed msg => Throw msg
    | NoJsonObject => Throw "No JSON found in AI response"
    | MalformedJson msg => Throw msg
    | Parsed fields => Ok fields
    end.

Section Normalisation.
Variable StringToNumber : string -> JS.number.
Variable NumberToString : JS.number -> string.

(** "Validate and normalize": the six assignments, in the order of the
    source.  [flagged] is computed from the raw [confidence] before the
    latter is replaced; [&&] does not evaluate its right operand when
    [result.flagged === true] is false. *)
Definition normalize (result : list (string * JS.value)) : Res Verdict :=
  let raw_confidence := JS.get result "confidence" in
  res_bind
    (if JS.is_true (JS.get result "flagged")
     then JS.gt_num StringToNumber NumberToString
            (JS.or_else raw_confidence (JS.VNum JS.zero)) JS.c0_7
     else Ok false)
    (fun flagged' =>
       Ok {| flagged := flagged';
             violations := match JS.get result "violations" with
                           | JS.VArr items => items
                           | _ => []
                           end;
             confidence := match raw_confidence with
                           | JS.VNum n => n
                           | _ => JS.zero
                           end;
             reasoning := JS.or_else (JS.get result "reasoning")
                            (JS.VStr "No reasoning provided");
             suggestedAction := JS.or_else (JS.get result "suggestedAction")
                                  (JS.VStr "none");
             suggestedDuration := JS.or_else (JS.get result "suggestedDuration")
                                    (JS.VNum JS.zero);
             replyMessage := JS.get result "replyMessage" |}).

Definition analyzeMessage (cfg : Config) (P : Platform) (message : Message) : M Verdict :=
  if (length (enabledRules cfg) =? 0)%nat then mret no_rules_verdict
  else
    _trackMessage (JS.str_or (c_id (channel message)) "unknown") message ;;
    try_catch
      (result ← request P ;
       v ← lift (normalize result) ;
       log (LAiAnalysis (u_id (author message)) (flagged v) (confidence v)) ;;
       mret v)
      (fun msg =>
         log_error msg "AI analysis failed" ;;
         mret (failure_verdict msg)).
End Normalisation.

End AIEngine.

(** ** String helpers of the handlers *)

(** The case folding of ASCII text: the capitals A to Z are folded and
    every other byte is kept.  It stands in for the [toLowerCase] of the
    runtime in the scenarios, whose names are ASCII, and nowhere else. *)
Definition lower_ascii (c : ascii) : ascii :=
  let n := nat_of_ascii c in
  if ((65 <=? n) && (n <=? 90))%nat then ascii_of_nat (n + 32) else c.

Fixpoint asciiLowerCase (s : string) : string :=
  match s with
  | EmptyString => EmptyString
  | String c rest => String (lower_ascii c) (asciiLowerCase rest)
  end.

(** [s.split(sep)] for a one-character separator. *)
Fixpoint split_on (sep : ascii) (s : string) : list string :=
  match s with
  | EmptyString => [EmptyString]
  | String c rest =>
      if Ascii.eqb c sep then EmptyString :: split_on sep rest
      else match split_on sep rest with
           | [] => [String c EmptyString]
           | hd :: tl => String c hd :: tl
           end
  end.

(** An optional component inside a template literal: [undefined] prints as
    "undefined". *)
Definition in_template (o : option string) : string := default "undefined" o.

(** ** [ModBot] *)

Module ModBot.

Definition _emitStatus (event : string) : M unit := emit (EStatus event).

(** *** The decision of [_takeAction], lines 141-154 *)

(** [analysis.violations[0]] *)
Definition primaryViolation (analysis : Verdict) : JS.value :=
  default JS.VUndefined (violations analysis !! 0%nat).

(** [primaryViolation ? rules.find(r => r.id === primaryViolation) : null] *)
Definition primaryRule (cfg : Config) (analysis : Verdict) : option Rule :=
  let pv := primaryViolation analysis in
  if JS.truthy pv then List.find (fun r => JS.is_str pv (r_id r)) (rules cfg) else None.

Definition resolvedAction (cfg : Config) (analysis : Verdict) : JS.value :=
  match primaryRule cfg analysis with
  | Some rule => JS.VStr (r_action rule)
  | None => suggestedAction analysis
  end.

(** [if (rule.timeoutDuration) duration = rule.timeoutDuration] *)
Definition resolvedDuration (cfg : Config) (analysis : Verdict) : JS.value :=
  match primaryRule cfg analysis with
  | Some rule =>
      if JS.num_truthy (r_timeoutDuration rule)
      then JS.VNum (r_timeoutDuration rule)
      else suggestedDuration analysis
  | None => suggestedDuration analysis
  end.

(** [settings.warningsBeforeAction || 2] *)
Definition maxWarnings (s : Settings) : Z :=
  match warningsBeforeAction s with
  | Some n => if n =? 0 then 2 else n
  | None => 2
  end.

(** The test of line 157. *)
Definition warns (action : JS.value) (warningCount : nat) (s : Settings) : bool :=
  JS.is_str action "warn" ||
  (JS.is_str action "timeout" && (Z.of_nat warningCount <? maxWarnings s)).

(** [rule?.severity || d] *)
Definition severity_or (rule : option Rule) (d : string) : string :=
  match rule with
  | Some r => JS.str_or (r_severity r) d
  | None => d
  end.

(** *** The executors *)

(** [message.member || await message.guild.members.fetch(message.author.id)] *)
Definition resolveMember (P : Platform) (g : Guild) (message : Message) : M Member :=
  match member message with
  | Some m => mret m
  | None =>
      fetch (EFetchMember (g_id g) (u_id (author message)))
            (members_fetch P (g_id g) (u_id (author message)))
  end.

Definition _timeoutUser (P : Platform) (g : Guild) (message : Message)
    (analysis : Verdict) (duration : JS.value) (rule : option Rule) : M unit :=
  try_catch
    (m ← resolveMember P g message ;
     call P (ETimeout (u_id (m_user m)) (MuteSeconds duration)) ;;
     when (JS.truthy (replyMessage analysis)) (attempt (call P (EAnnounce AnnTimeout))) ;;
     log (LModAction "timeout" (u_id (author message)) (primaryViolation analysis)
            (severity_or rule "medium") (JS.or_else duration JS.VNull)))
    (fun msg => log_error msg "Timeout failed").

Definition _kickUser (P : Platform) (g : Guild) (message : Message)
    (analysis : Verdict) (rule : option Rule) : M unit :=
  try_catch
    (m ← resolveMember P g message ;
     if m_kickable m then
       call P (EKick (u_id (m_user m))) ;;
       attempt (call P (EAnnounce AnnKick)) ;;
       log (LModAction "kick" (u_id (author message)) (primaryViolation analysis)
              (severity_or rule "high") JS.VNull)
     else mret tt)
    (fun msg => log_error msg "Kick failed").

(** *** The ban-request protocol: [_requestBan] *)

(** Step 1, lines 311-347: kick, or mute for seven days when the member is
    not kickable; the result is the variable [kicked]. *)
Definition restrain (P : Platform) (g : Guild) (message : Message)
    (analysis : Verdict) : M bool :=
  try_catch
    (m ← resolveMember P g message ;
     if m_kickable m then
       call P (EKick (u_id (m_user m))) ;;
       log (LModAction "kick" (u_id (author message)) (primaryViolation analysis)
              "critical" JS.VNull) ;;
       attempt (call P (EAnnounce AnnKickPendingBan)) ;;
       mret true
     else
       attempt (call P (ETimeout (u_id (m_user m)) (MuteMs (7 * 24 * 60 * 60 * 1000)))) ;;
       mret false)
    (fun msg =>
       log_error msg "Failed to kick user before ban request" ;;
       mret false).

(** [o?.toLowerCase() === target], with [lower] for the folding. *)
Definition same_name (lower : string -> string) (o : option string) (target : string)
    : bool :=
  match o with
  | Some s => String.eqb (lower s) target
  | None => false
  end.

(** [matchesName], on the user behind a member or on a cached user. *)
Definition matchesName (lower : string -> string) (banRequestUser : string) (u : User)
    : bool :=
  let target := lower banRequestUser in
  String.eqb (lower (u_username u)) target
  || same_name lower (u_displayName u) target
  || same_name lower (u_globalName u) target.

Definition find_member (lower : string -> string) (name : string) (ms : list Member)
    : option User :=
  m_user <$> List.find (fun m => matchesName lower name (m_user m)) ms.

(** The loop over [this.client.guilds.cache], lines 373-380. *)
Fixpoint searchGuilds (P : Platform) (name current : string) (gs : list Guild)
    : M (option User) :=
  match gs with
  | [] => mret None
  | g' :: rest =>
      if String.eqb (g_id g') current then searchGuilds P name current rest
      else
        found ← try_catch
                  (ms ← fetch (EFetchMembers (g_id g')) (members_fetch_all P (g_id g')) ;
                   mret (find_member (toLowerCase P) name ms))
                  (fun _ => mret None) ;
        match found with
        | Some a => mret (Some a)
        | None => searchGuilds P name current rest
        end
  end.

(** Step 2, lines 349-394: the reviewer, as the user [admin.user || admin]. *)
Definition locateReviewer (P : Platform) (g : Guild) (name : string) : M (option User) :=
  here ← try_catch
           (ms ← fetch (EFetchMembers (g_id g)) (members_fetch_all P (g_id g)) ;
            mret (find_member (toLowerCase P) name ms))
           (fun msg =>
              log_error msg "Failed to fetch guild members for ban request" ;;
              mret None) ;
  elsewhere ← match here with
              | Some a => mret (Some a)
              | None => searchGuilds P name (g_id g) (guilds_cache P)
              end ;
  match elsewhere with
  | Some a => mret (Some a)
  | None => mret (List.find (matchesName (toLowerCase P) name) (users_cache P))
  end.

Definition modChannelNames : list string :=
  ["mod-log"; "mod-logs"; "modlog"; "modlogs"; "admin"; "admin-log"; "admin-logs";
   "staff"; "staff-chat"; "moderator"; "mod-chat"; "ban-requests"; "log"; "logs";
   "bot-logs"].

(** The loop of lines 449-452: the first name of the list some text channel
    bears. *)
Fixpoint findModChannel (lower : string -> string) (names : list string)
    (textChannels : list Channel) : option Channel :=
  match names with
  | [] => None
  | name :: rest =>
      match List.find (fun c => String.eqb (lower (c_name c)) name) textChannels with
      | Some c => Some c
      | None => findModChannel lower rest textChannels
      end
  end.

Definition modChannel (P : Platform) : option Channel :=
  findModChannel (toLowerCase P) modChannelNames (List.filter c_text (channels_cache P)).

Definition anyChannel (P : Platform) : option Channel :=
  List.find (fun c => c_text c && c_sendable c) (channels_cache P).

(** Step 4, lines 427-495: the result is the variable [delivered]. *)
Definition deliver (P : Platform) (admin : option User) : M bool :=
  d1 ← match admin with
       | Some a =>
           try_catch
             (call P (EDeliver (ViaDM (u_id a))) ;;
              log (LBotEvent "ban_request_dm_sent") ;;
              mret true)
             (fun _ => log (LBotEvent "ban_request_dm_failed") ;; mret false)
       | None => mret false
       end ;
  d2 ← (if d1 : bool then mret true
        else match modChannel P with
             | Some c =>
                 try_catch
                   (call P (EDeliver (ViaModChannel (c_id c))) ;;
                    log (LBotEvent "ban_request_channel") ;;
                    mret true)
                   (fun _ => mret false)
             | None => mret false
             end) ;
  d3 ← (if d2 : bool then mret true
        else try_catch
               (call P (EDeliver ViaViolationChannel) ;;
                log (LBotEvent "ban_request_violation_channel") ;;
                mret true)
               (fun msg =>
                  log_error msg "Failed to send ban request in violation channel" ;;
                  mret false)) ;
  if d3 : bool then mret true
  else match anyChannel P with
       | Some c =>
           try_catch
             (call P (EDeliver (ViaAnyChannel (c_id c))) ;; mret true)
             (fun _ => mret false)
       | None => mret false
       end.

(** The key of [pendingBans]: [`${userId}_${guildId}`]. *)
Definition pendingKey (userId guildId : string) : string :=
  userId +:+ "_" +:+ guildId.

Definition _requestBan (cfg : Config) (P : Platform) (g : Guild) (message : Message)
    (analysis : Verdict) : M unit :=
  let name := JS.str_or (banRequestUser (settings cfg)) "devloafyt" in
  kicked ← restrain P g message analysis ;
  try_catch
    (admin ← locateReviewer P g name ;
     call P EBuildEmbed ;;
     delivered ← deliver P admin ;
     modify (set_pendingBans (fun pb =>
       <[ pendingKey (u_id (author message)) (g_id g) :=
            {| pb_userId := u_id (author message);
               pb_username := u_tag (author message);
               pb_guildId := g_id g;
               pb_guildName := g_name g;
               pb_reason := reasoning analysis;
               pb_violations := violations analysis;
               pb_confidence := confidence analysis;
               pb_kicked := kicked;
               pb_delivered := delivered |} ]> pb)) ;;
     when (negb delivered)
       (log_error ("All delivery methods failed for ban request (user: "
                   +:+ u_tag (author message) +:+ ")")
          "Ban request delivery exhausted") ;;
     log (LModAction "request_ban" (u_id (author message)) (primaryViolation analysis)
            "critical" JS.VNull))
    (fun msg => log_error msg "Ban request failed").

(** *** [_takeAction] *)

(** The [switch] of lines 197-210. *)
Definition perform (cfg : Config) (P : Platform) (g : Guild) (message : Message)
    (analysis : Verdict) (action duration : JS.value) (rule : option Rule) : M unit :=
  if JS.is_str action "timeout" then _timeoutUser P g message analysis duration rule
  else if JS.is_str action "kick" then _kickUser P g message analysis rule
  else if JS.is_str action "request_ban" then _requestBan cfg P g message analysis
  else mret tt.

(** Lines 158-186: the warning. *)
Definition warnUser (P : Platform) (message : Message) (analysis : Verdict)
    (rule : option Rule) : M unit :=
  AIEngine.addWarning (u_id (author message)) ;;
  when (JS.truthy (replyMessage analysis)) (attempt (call P EReply)) ;;
  log (LModAction "warn" (u_id (author message)) (primaryViolation analysis)
         (severity_or rule "low") JS.VNull) ;;
  modify (set_actionCount S) ;;
  _emitStatus "action".

(** Lines 196-238: the action proper, the notice to the offender, the
    counter. *)
Definition afterDelete (cfg : Config) (P : Platform) (g : Guild) (message : Message)
    (analysis : Verdict) (action duration : JS.value) (rule : option Rule) : M unit :=
  perform cfg P g message analysis action duration rule ;;
  when (dmOnAction (settings cfg) && negb (JS.is_str action "warn"))
    (attempt (call P EDmOffender)) ;;
  modify (set_actionCount S) ;;
  _emitStatus "action".

Definition _takeAction (cfg : Config) (P : Platform) (g : Guild) (message : Message)
    (analysis : Verdict) : M unit :=
  let action := resolvedAction cfg analysis in
  let duration := resolvedDuration cfg analysis in
  let rule := primaryRule cfg analysis in
  warningCount ← AIEngine.getWarningCount (u_id (author message)) ;
  if warns action warningCount (settings cfg) then warnUser P message analysis rule
  else
    try_catch (call P EDelete)
      (fun msg => log_error msg "Failed to delete message") ;;
    afterDelete cfg P g message analysis action duration rule.

(** *** [_handleInteraction] *)

(** [this.client.guilds.cache.get(guildId) || await this.client.guilds.fetch(guildId)] *)
Definition lookupGuild (P : Platform) (guildId : string) : M Guild :=
  match List.find (fun g => String.eqb (g_id g) guildId) (guilds_cache P) with
  | Some g => mret g
  | None => fetch (EFetchGuild guildId) (guilds_fetch P guildId)
  end.

(** [await guild.members.fetch(userId).catch(() => null)] *)
Definition fetchMemberOrNull (P : Platform) (g : Guild) (userId : string) : M (option Member) :=
  catch_null (fetch (EFetchMember (g_id g) userId) (members_fetch P (g_id g) userId)).

Definition ban_entry (userId : string) : LogEntry :=
  LModAction "ban" userId JS.VUndefined "critical" JS.VNull.

(** The [else] branch of the approval, lines 561-584. *)
Definition banById (P : Platform) (userId : string) : M unit :=
  try_catch
    (call P (EBanById userId) ;;
     call P (EUpdate UBanApprovedById) ;;
     log (ban_entry userId))
    (fun banErr => call P (EUpdate (UCouldNotBan banErr))).

Definition approve (P : Platform) (userId guildId : string) : M unit :=
  try_catch
    (g ← lookupGuild P guildId ;
     m ← fetchMemberOrNull P g userId ;
     match m with
     | Some mem =>
         if m_bannable mem then
           call P (EBanMember (u_id (m_user mem))) ;;
           call P (EUpdate UBanApproved) ;;
           log (ban_entry userId)
         else banById P userId
     | None => banById P userId
     end ;;
     modify (set_pendingBans (fun pb => delete (pendingKey userId guildId) pb)))
    (fun msg => call P (EUpdate (UBanFailed msg))).

Definition deny (P : Platform) (userId guildId : string) : M unit :=
  try_catch
    (g ← lookupGuild P guildId ;
     m ← fetchMemberOrNull P g userId ;
     match m with
     | Some mem => call P (ETimeout (u_id (m_user mem)) MuteLift)
     | None => mret tt
     end ;;
     call P (EUpdate UBanDenied) ;;
     modify (set_pendingBans (fun pb => delete (pendingKey userId guildId) pb)))
    (fun msg => call P (EUpdate (UDenyFailed msg))).

Definition _handleInteraction (P : Platform) (interaction : Interaction) : M unit :=
  if negb (isButton interaction) then mret tt
  else
    let parts := split_on "_"%char (customId interaction) in
    let action := parts !! 0%nat in
    let type := parts !! 1%nat in
    let userId := in_template (parts !! 2%nat) in
    let guildId := in_template (parts !! 3%nat) in
    if negb (bool_decide (action = Some "ban")) then mret tt
    else if bool_decide (type = Some "approve") then approve P userId guildId
    else if bool_decide (type = Some "deny") then deny P userId guildId
    else mret tt.

(** *** [_handleMessage] *)

(** [s.includes(needle)] on strings: [needle] occurs in [s]. *)
Fixpoint occurs (needle s : string) : bool :=
  String.prefix needle s ||
  match s with
  | EmptyString => false
  | String _ rest => occurs needle rest
  end.

(** [ids.includes(id)] for the stored value [ids] and a string [id].  An
    array holds [id] when one of its elements is that string; a string has
    the [includes] of strings; a number, a boolean or an object has no such
    method, and the call throws a TypeError (the message is the one of V8,
    [name] the property of the settings). *)
Definition includes (name : string) (ids : JS.value) (id : string) : Res bool :=
  match ids with
  | JS.VArr items => Ok (existsb (fun x => JS.is_str x id) items)
  | JS.VStr s => Ok (occurs id s)
  | _ => Throw ("settings." +:+ name +:+ ".includes is not a function")
  end.

(** [roles.cache.some(r => ids.includes(r.id))]: the roles in their order,
    up to the first one on the list. *)
Fixpoint someIncluded (name : string) (ids : JS.value) (roles : list string) : Res bool :=
  match roles with
  | [] => Ok false
  | r :: rest =>
      res_bind (includes name ids r)
        (fun found => if found : bool then Ok true else someIncluded name ids rest)
  end.

(** Line 113: [settings.ignoredChannels && settings.ignoredChannels.includes(id)] *)
Definition inIgnoredChannel (s : Settings) (message : Message) : Res bool :=
  if JS.truthy (ignoredChannels s)
  then includes "ignoredChannels" (ignoredChannels s) (c_id (channel message))
  else Ok false.

(** Lines 116-119 and 121-124: the test of a list of roles; nothing is
    looked up when the list is falsy or the message has no member. *)
Definition hasRole (name : string) (ids : JS.value) (message : Message) : Res bool :=
  match member message with
  | Some m => if JS.truthy ids then someIncluded name ids (m_roles m) else Ok false
  | None => Ok false
  end.

Section Handler.
Variable StringToNumber : string -> JS.number.
Variable NumberToString : JS.number -> string.

Definition _handleMessage (cfg : Config) (P : Platform) (message : Message) : M unit :=
  if u_bot (author message) || system message then mret tt
  else match guild message with
  | None => mret tt
  | Some g =>
      modify (set_messageCount S) ;;
      _emitStatus "message" ;;
      let s := settings cfg in
      ignoredChannel ← lift (inIgnoredChannel s message) ;
      if ignoredChannel : bool then mret tt
      else
      hasIgnoredRole ← lift (hasRole "ignoredRoles" (ignoredRoles s) message) ;
      if hasIgnoredRole : bool then mret tt
      else
      hasTrustedRole ← lift (hasRole "trustedRoles" (trustedRoles s) message) ;
      if hasTrustedRole : bool then mret tt
      else
        try_catch
          (analysis ← AIEngine.analyzeMessage StringToNumber NumberToString cfg P message ;
           when (flagged analysis && JS.lt JS.c0_7 (confidence analysis))
             (_takeAction cfg P g message analysis))
          (fun msg => log_error msg "Message handling failed")
  end.
End Handler.

End ModBot.

(** ** The ids of the two buttons of a ban request, lines 416 and 421 *)



(** ** Objects read as maps *)

(** [o[k]]: [undefined] when the object has no such property. *)
Definition property (o : gmap string JS.value) (k : string) : JS.value :=
  default JS.VUndefined (o !! k).

(** [{ ...a, ...b }]: the properties of [b], and those of [a] that [b]
    lacks. *)
Definition spread (a b : gmap string JS.value) : gmap string JS.value := b ∪ a.

(** [arr.findIndex(p)], [None] for -1. *)
Fixpoint findIndex {A} (p : A -> bool) (l : list A) : option nat :=
  match l with
  | [] => None
  | x :: rest => if p x then Some 0%nat else S <$> findIndex p rest
  end.

(** ** [ConfigManager], lines 1-123 of the configuration module

    The configuration lives in the variable [config] and in the file
    [config.json], which holds its JSON text.  Rules and settings are JSON
    objects, as they come from the file and from the bodies of requests. *)

Module ConfigManager.

Record Store := {
  rules : list (gmap string JS.value);
  settings : gmap string JS.value;
  botToken : string;
  pollinationsKey : string;
}.

(** What [JSON.parse] finds in the file: each of the four properties may be
    missing; a missing string is [""], which [||] treats alike. *)
Record Saved := {
  saved_rules : option (list (gmap string JS.value));
  saved_settings : option (gmap string JS.value);
  saved_botToken : string;
  saved_pollinationsKey : string;
}.

(** The file: absent, unreadable as an object (the [catch] of [loadConfig]),
    or holding an object. *)
Inductive File :=
| Missing
| Garbled
| Holds (saved : Saved).

Record State := {
  config : Store;
  file : File;
}.

(** [JSON.parse(JSON.stringify(o))] for an object: a property whose value is
    [undefined] is left out. *)
Definition jsonObject (o : gmap string JS.value) : gmap string JS.value :=
  omap (fun x => match x with JS.VUndefined => None | _ => Some (JS.json x) end) o.

(** What [JSON.parse] finds in the text [JSON.stringify(config, null, 2)]. *)
Definition stringify (c : Store) : Saved :=
  {| saved_rules := Some (map jsonObject (rules c));
     saved_settings := Some (jsonObject (settings c));
     saved_botToken := botToken c;
     saved_pollinationsKey := pollinationsKey c |}.

Section Defaults.
(** [default-rules.json] and the two variables of the environment, [""] when
    unset. *)
Variable moderationRules : list (gmap string JS.value).
Variable globalSettings : gmap string JS.value.
Variable BOT_TOKEN : string.
Variable POLLINATIONS_KEY : string.

Definition getDefaults : Store :=
  {| rules := map jsonObject moderationRules;
     settings := jsonObject globalSettings;
     botToken := JS.str_or BOT_TOKEN "";
     pollinationsKey := JS.str_or POLLINATIONS_KEY "pk_74dZ9pYlU7ufjX7O" |}.

Definition loadConfig (f : File) : Store :=
  match f with
  | Holds saved =>
      let defaults := getDefaults in
      {| rules := default (rules defaults) (saved_rules saved);
         settings := spread (settings defaults) (default ∅ (saved_settings saved));
         botToken := JS.str_or (saved_botToken saved) (botToken defaults);
         pollinationsKey := JS.str_or (saved_pollinationsKey saved)
                              (pollinationsKey defaults) |}
  | Missing | Garbled => getDefaults
  end.

(** [let config = loadConfig()] *)
Definition initial (f : File) : State := {| config := loadConfig f; file := f |}.

(** [saveConfig]: the write is guarded; [written] tells whether it went
    through. *)
Definition saveConfig (written : bool) (s : State) : State :=
  if written then {| config := config s; file := Holds (stringify (config s)) |}
  else s.

Definition getRules (s : State) : list (gmap string JS.value) := rules (config s).

Definition setRules (rs : list (gmap string JS.value)) (written : bool) (s : State) : State :=
  saveConfig written
    {| config := {| rules := rs; settings := settings (config s);
                    botToken := botToken (config s);
                    pollinationsKey := pollinationsKey (config s) |};
       file := file s |}.

(** [r.id === ruleId] *)
Definition has_id (ruleId : string) (r : gmap string JS.value) : bool :=
  JS.is_str (property r "id") ruleId.

Definition getRule (ruleId : string) (s : State) : option (gmap string JS.value) :=
  List.find (has_id ruleId) (getRules s).

(** The result is [rules[idx]]: [None] stands for the [undefined] that
    [rules[-1]] is. *)
Definition updateRule (ruleId : string) (updates : gmap string JS.value) (written : bool)
    (s : State) : option (gmap string JS.value) * State :=
  match findIndex (has_id ruleId) (getRules s) with
  | Some idx =>
      let rules' := alter (fun r => spread r updates) idx (getRules s) in
      (rules' !! idx, setRules rules' written s)
  | None => (None, s)
  end.

Definition getSettings (s : State) : gmap string JS.value := settings (config s).

Definition updateSettings (updates : gmap string JS.value) (written : bool) (s : State)
    : gmap string JS.value * State :=
  let settings' := spread (getSettings s) updates in
  (settings',
   saveConfig written
     {| config := {| rules := rules (config s); settings := settings';
                     botToken := botToken (config s);
                     pollinationsKey := pollinationsKey (config s) |};
        file := file s |}).

Definition getBotToken (s : State) : string :=
  JS.str_or (botToken (config s)) (JS.str_or BOT_TOKEN "").

Definition setBotToken (token : string) (written : bool) (s : State) : State :=
  saveConfig written
    {| config := {| rules := rules (config s); settings := settings (config s);
                    botToken := token;
                    pollinationsKey := pollinationsKey (config s) |};
       file := file s |}.

Definition getPollinationsKey (s : State) : string :=
  JS.str_or (pollinationsKey (config s)) (JS.str_or POLLINATIONS_KEY "pk_74dZ9pYlU7ufjX7O").

Definition resetToDefaults (written : bool) (s : State) : State :=
  saveConfig written
    {| config := {| rules := rules getDefaults; settings := settings getDefaults;
                    botToken := botToken (config s);
                    pollinationsKey := pollinationsKey (config s) |};
       file := file s |}.

End Defaults.

(** [{ rules, settings }], each present or not. *)
Record Bundle := {
  b_rules : option (list (gmap string JS.value));
  b_settings : option (gmap string JS.value);
}.

Definition exportConfig (s : State) : Bundle :=
  {| b_rules := Some (getRules s); b_settings := Some (getSettings s) |}.

(** One write for the rules, one for the settings. *)
Definition importConfig (cfg : Bundle) (written1 written2 : bool) (s : State) : State :=
  let s1 := match b_rules cfg with
            | Some rs => setRules rs written1 s
            | None => s
            end in
  match b_settings cfg with
  | Some updates => snd (updateSettings updates written2 s1)
  | None => s1
  end.

End ConfigManager.

(** ** Integers out of numbers, and [slice] *)

(** The result of [ToIntegerOrInfinity]. *)
Inductive IntOrInf :=
| NegInf
| Fin (z : Z)
| PosInf.

(** [ToIntegerOrInfinity]: [NaN] and the zeros give 0, a finite number is
    truncated toward zero. *)
Definition ToIntegerOrInfinity (n : JS.number) : IntOrInf :=
  match n with
  | S754_nan => Fin 0
  | S754_zero _ => Fin 0
  | S754_infinity s => if s then NegInf else PosInf
  | S754_finite s m e =>
      let magnitude := Z.shiftl (Z.pos m) e in
      Fin (if s then - magnitude else magnitude)
  end.

(** [arr.slice(start)]: a negative [start] counts from the end. *)
Definition slice {A} (start : IntOrInf) (l : list A) : list A :=
  let len := Z.of_nat (length l) in
  let k := match start with
           | NegInf => 0
           | Fin z => if z <? 0 then Z.max (len + z) 0 else Z.min z len
           | PosInf => len
           end in
  drop (Z.to_nat k) l.

(** ** [Logger], lines 653-846 of the logging module

    Log entries are objects.  The clock, the random part of the id and the
    outcome of the write to the day's file are inputs of [log].  A listener
    is a function; it is known by its identity, a number here, and the calls
    made to the listeners are recorded in [calls].  Listeners are observers:
    they do not call back into the logger. *)

Module Logger.

Definition maxMemoryLogs : nat := 5000.

Record State := {
  logs : list (gmap string JS.value);
  listeners : list nat;
  files : gmap string (list (gmap string JS.value));
  calls : list (nat * gmap string JS.value);
}.

Definition empty : State := {| logs := []; listeners := []; files := ∅; calls := [] |}.

(** [{ id, timestamp, ...entry }] *)
Definition stamped (id timestamp : string) (entry : gmap string JS.value)
    : gmap string JS.value :=
  spread {[ "id" := JS.VStr id; "timestamp" := JS.VStr timestamp ]} entry.

(** [log]: [day] is the date in the name of the file, [written] tells
    whether the guarded block that rewrites the file went through. *)
Definition log (id timestamp day : string) (written : bool) (entry : gmap string JS.value)
    (st : State) : gmap string JS.value * State :=
  let logEntry := stamped id timestamp entry in
  let pushed := logs st ++ [logEntry] in
  (logEntry,
   {| logs := if (maxMemoryLogs <? length pushed)%nat
              then slice (Fin (- Z.of_nat maxMemoryLogs)) pushed
              else pushed;
      listeners := listeners st;
      files := if written
               then <[ day := default [] (files st !! day) ++ [logEntry] ]> (files st)
               else files st;
      calls := calls st ++ map (fun fn => (fn, logEntry)) (listeners st) |}).

(** The four shapes of entries. *)
Definition modAction (data : gmap string JS.value) : gmap string JS.value :=
  list_to_map
    [("type", JS.VStr "mod_action"); ("action", property data "action");
     ("userId", property data "userId"); ("username", property data "username");
     ("channelId", property data "channelId"); ("channelName", property data "channelName");
     ("guildId", property data "guildId"); ("guildName", property data "guildName");
     ("messageContent", property data "messageContent"); ("reason", property data "reason");
     ("ruleId", property data "ruleId"); ("severity", property data "severity");
     ("aiConfidence", property data "aiConfidence");
     ("duration", JS.or_else (property data "duration") JS.VNull)].

Definition aiAnalysis (data : gmap string JS.value) : gmap string JS.value :=
  list_to_map
    [("type", JS.VStr "ai_analysis"); ("userId", property data "userId");
     ("username", property data "username"); ("channelId", property data "channelId");
     ("channelName", property data "channelName");
     ("messageContent", property data "messageContent");
     ("flagged", property data "flagged"); ("violations", property data "violations");
     ("confidence", property data "confidence"); ("reasoning", property data "reasoning")].

Definition botEvent (data : gmap string JS.value) : gmap string JS.value :=
  list_to_map
    [("type", JS.VStr "bot_event"); ("event", property data "event");
     ("details", property data "details")].

Definition error (data : gmap string JS.value) : gmap string JS.value :=
  list_to_map
    [("type", JS.VStr "error"); ("error", property data "error");
     ("context", property data "context"); ("stack", property data "stack")].

(** The properties of a query string; [""] stands for an absent one, which
    is falsy as well. *)
Record Options := {
  o_type : string;
  o_guildId : string;
  o_userId : string;
  o_severity : string;
  o_since : string;
  o_limit : string;
}.

Definition given (s : string) : bool := negb (String.eqb s "").

Section Queries.
(** [StringToNumber] reads a string as a number; [dateOf v] is the time
    value of [new Date(v)], in milliseconds, [None] for an invalid date. *)
Variable StringToNumber : string -> JS.number.
Variable dateOf : JS.value -> option Z.

(** [new Date(l.timestamp) >= since], false as soon as one side is an
    invalid date. *)
Definition notBefore (since : option Z) (l : gmap string JS.value) : bool :=
  match dateOf (property l "timestamp"), since with
  | Some t, Some s => s <=? t
  | _, _ => false
  end.

Definition getLogs (options : Options) (st : State) : list (gmap string JS.value) :=
  let f0 := logs st in
  let f1 := if given (o_type options)
            then List.filter (fun l => JS.is_str (property l "type") (o_type options)) f0
            else f0 in
  let f2 := if given (o_guildId options)
            then List.filter (fun l => JS.is_str (property l "guildId") (o_guildId options)) f1
            else f1 in
  let f3 := if given (o_userId options)
            then List.filter (fun l => JS.is_str (property l "userId") (o_userId options)) f2
            else f2 in
  let f4 := if given (o_severity options)
            then List.filter
                   (fun l => JS.is_str (property l "severity") (o_severity options)) f3
            else f3 in
  let f5 := if given (o_since options)
            then List.filter (notBefore (dateOf (JS.VStr (o_since options)))) f4
            else f4 in
  if given (o_limit options)
  then slice (ToIntegerOrInfinity (SFopp (StringToNumber (o_limit options)))) f5
  else f5.

(** The counts of a window of [getStats]; the last two are computed for the
    last 24 hours only. *)
Record Window := {
  total : nat;
  actions : nat;
  warns : nat;
  timeouts : nat;
  kicks : nat;
  banRequests : nat;
  flagged : nat;
  clean : nat;
}.

Definition is_action (a : string) (l : gmap string JS.value) : bool :=
  JS.is_str (property l "action") a.

Definition is_type (t : string) (l : gmap string JS.value) : bool :=
  JS.is_str (property l "type") t.

(** The entries since [now - span] and what [getStats] counts among them. *)
Definition window (now span : Z) (st : State) : Window :=
  let recent := List.filter (notBefore (Some (now - span))) (logs st) in
  let acts := List.filter (is_type "mod_action") recent in
  {| total := length recent;
     actions := length acts;
     warns := length (List.filter (is_action "warn") acts);
     timeouts := length (List.filter (is_action "timeout") acts);
     kicks := length (List.filter (is_action "kick") acts);
     banRequests := length (List.filter (is_action "request_ban") acts);
     flagged := length (List.filter
                  (fun l => is_type "ai_analysis" l && JS.truthy (property l "flagged"))
                  recent);
     clean := length (List.filter
                (fun l => is_type "ai_analysis" l && negb (JS.truthy (property l "flagged")))
                recent) |}.

(** [getStats().last24h] and, without its last two counts,
    [getStats().last7d]. *)
Definition last24h (now : Z) (st : State) : Window := window now (24 * 60 * 60 * 1000) st.
Definition last7d (now : Z) (st : State) : Window := window now (7 * 24 * 60 * 60 * 1000) st.

End Queries.

(** [getRecentLogs(count)], for an integer [count]. *)
Definition getRecentLogs (count : Z) (st : State) : list (gmap string JS.value) :=
  slice (Fin (- count)) (logs st).

(** [onLog(fn)]; the function it returns is [unsubscribe fn]. *)
Definition onLog (fn : nat) (st : State) : State :=
  {| logs := logs st; listeners := listeners st ++ [fn]; files := files st;
     calls := calls st |}.

Definition unsubscribe (fn : nat) (st : State) : State :=
  {| logs := logs st;
     listeners := List.filter (fun l => negb (Nat.eqb l fn)) (listeners st);
     files := files st; calls := calls st |}.

Definition clearMemory (st : State) : State :=
  {| logs := []; listeners := listeners st; files := files st; calls := calls st |}.

End Logger.

(** * Specification vocabulary *)

(** A world after more events and more audit entries, nothing else
    changed. *)
Definition advance (w : World) (evs : list Event) (logs : list LogEntry) : World :=
  set_audit (fun l => l ++ logs) (set_trace (fun t => t ++ evs) w).

(** What a run changed at most: the ledger, the channel context and the two
    counters are kept, the pending bans are related by [R], the trace grew by
    events that satisfy [Q], the audit grew. *)
Definition step (Q : Event -> Prop)
    (R : gmap string PendingBan -> gmap string PendingBan -> Prop)
    (w w' : World) : Prop :=
  userWarnings w' = userWarnings w /\
  recentMessages w' = recentMessages w /\
  messageCount w' = messageCount w /\
  actionCount w' = actionCount w /\
  R (pendingBans w) (pendingBans w') /\
  (exists evs, trace w' = trace w ++ evs /\ Forall Q evs) /\
  (exists logs, audit w' = audit w ++ logs).

(** [tame]: whatever the outcome, the world made a [step].  [safe]: the
    same, and nothing is thrown. *)
Definition tame {A} Q R (m : M A) : Prop :=
  forall w, step Q R w (snd (m w)).

Definition safe {A} Q R (m : M A) : Prop :=
  forall w, is_ok (fst (m w)) = true /\ step Q R w (snd (m w)).

Definition any_pending (p q : gmap string PendingBan) : Prop := True.

Definition is_search (e : Event) : Prop :=
  match e with EFetchMembers _ => True | _ => False end.

Definition is_delivery (e : Event) : Prop :=
  match e with EDeliver _ => True | _ => False end.

(** The events of an enforcement: everything but the deletion of the
    message, the warning reply and the classifier call. *)
Definition is_enforcement (e : Event) : Prop :=
  match e with EDelete | EReply | EClassify => False | _ => True end.

(** What [resolveMember] awaits. *)
Definition resolveEvents (g : Guild) (message : Message) : list Event :=
  match member message with
  | Some _ => []
  | None => [EFetchMember (g_id g) (u_id (author message))]
  end.

(** The failures of the classification call and the message each one throws. *)
Definition failure_of (c : ClassifierOutcome) : option string :=
  match c with
  | RequestFailed msg => Some msg
  | NoJsonObject => Some "No JSON found in AI response"
  | MalformedJson msg => Some msg
  | Parsed _ => None
  end.

(** The channel of the message, or a role of its author, is on one of the
    three lists of the settings that keep a message from the classifier.  The
    lists are consulted in the order of the handler, up to the first that
    holds the id; consulting one that has no [includes] method throws. *)
Definition exempt (s : Settings) (message : Message) : Res bool :=
  res_bind (ModBot.inIgnoredChannel s message) (fun ignoredChannel =>
    if ignoredChannel : bool then Ok true
    else res_bind (ModBot.hasRole "ignoredRoles" (ignoredRoles s) message)
           (fun hasIgnoredRole =>
              if hasIgnoredRole : bool then Ok true
              else ModBot.hasRole "trustedRoles" (trustedRoles s) message)).

(** The member [_timeoutUser], [_kickUser] and [_requestBan] act on:
    [message.member], else the one the platform returns. *)
Definition memberOf (P : Platform) (g : Guild) (message : Message) : Res Member :=
  match member message with
  | Some m => Ok m
  | None => members_fetch P (g_id g) (u_id (author message))
  end.

(** Seven days, in milliseconds. *)
Definition sevenDays : Z := 604800000.

(** The restraint of a ban request in the words of the design: kick when the
    member can be kicked, else mute for seven days; [kicked] records whether
    the kick went through. *)
Definition kickSucceeds (P : Platform) (g : Guild) (message : Message) : bool :=
  match memberOf P g message with
  | Ok m =>
      m_kickable m &&
      match respond P (EKick (u_id (m_user m))) with None => true | Some _ => false end
  | Throw _ => false
  end.

Definition restraintEvents (P : Platform) (g : Guild) (message : Message) : list Event :=
  resolveEvents g message ++
  match memberOf P g message with
  | Ok m =>
      if m_kickable m then
        EKick (u_id (m_user m)) ::
        match respond P (EKick (u_id (m_user m))) with
        | None => [EAnnounce AnnKickPendingBan]
        | Some _ => []
        end
      else [ETimeout (u_id (m_user m)) (MuteMs sevenDays)]
  | Throw _ => []
  end.

Definition is_restraint (e : Event) : Prop :=
  match e with EKick _ | ETimeout _ _ => True | _ => False end.

(** What the attempt to delete the message leaves in the audit. *)
Definition deleteLogs (P : Platform) : list LogEntry :=
  match respond P EDelete with
  | None => []
  | Some msg => [LError msg "Failed to delete message"]
  end.

(** The entry [_requestBan] stores. *)
Definition pendingEntry (g : Guild) (message : Message) (analysis : Verdict)
    (kicked delivered : bool) : PendingBan :=
  {| pb_userId := u_id (author message);
     pb_username := u_tag (author message);
     pb_guildId := g_id g;
     pb_guildName := g_name g;
     pb_reason := reasoning analysis;
     pb_violations := violations analysis;
     pb_confidence := confidence analysis;
     pb_kicked := kicked;
     pb_delivered := delivered |}.

Definition exhausted (message : Message) : LogEntry :=
  LError ("All delivery methods failed for ban request (user: "
          +:+ u_tag (author message) +:+ ")")
    "Ban request delivery exhausted".

(** The delivery chain in the words of the design: the stages that have a
    target, in their fixed order, tried up to the first one that accepts. *)
Definition stages (P : Platform) (admin : option User) : list Stage :=
  match admin with Some a => [ViaDM (u_id a)] | None => [] end ++
  match ModBot.modChannel P with Some c => [ViaModChannel (c_id c)] | None => [] end ++
  [ViaViolationChannel] ++
  match ModBot.anyChannel P with Some c => [ViaAnyChannel (c_id c)] | None => [] end.

Definition accepts (P : Platform) (s : Stage) : bool :=
  match respond P (EDeliver s) with None => true | Some _ => false end.

Fixpoint attempted (P : Platform) (l : list Stage) : list Stage :=
  match l with
  | [] => []
  | s :: rest => if accepts P s then [s] else s :: attempted P rest
  end.

(** The failures that precede the first success. *)
Fixpoint leadingFailures (P : Platform) (l : list Stage) : nat :=
  match l with
  | [] => 0
  | s :: rest => if accepts P s then 0 else S (leadingFailures P rest)
  end.

(** The delivery attempts of a trace. *)
Definition delivery (e : Event) : option Stage :=
  match e with EDeliver s => Some s | _ => None end.

Definition deliveries (t : list Event) : list Stage := omap delivery t.

(** The guild an interaction resolves to: the cached one, else the fetched
    one. *)
Definition guildOf (P : Platform) (guildId : string) : Res Guild :=
  match List.find (fun g => String.eqb (g_id g) guildId) (guilds_cache P) with
  | Some g => Ok g
  | None => guilds_fetch P guildId
  end.

Definition lookupEvents (P : Platform) (guildId : string) : list Event :=
  match List.find (fun g => String.eqb (g_id g) guildId) (guilds_cache P) with
  | Some _ => []
  | None => [EFetchGuild guildId]
  end.

(** The components of a button id, as [_handleInteraction] reads them. *)
Definition buttonParts (i : Interaction) : list string := split_on "_"%char (customId i).

Definition buttonKey (i : Interaction) : string :=
  ModBot.pendingKey (in_template (buttonParts i !! 2%nat)) (in_template (buttonParts i !! 3%nat)).

(** ** The scenarios of the design, as data *)

Module Scenario.

Definition seconds300 : JS.number := JS.num_of_Z 300.
Definition seconds600 : JS.number := JS.num_of_Z 600.

(** 0.9: 0x3FECCCCCCCCCCCCD. *)
Definition c0_9 : JS.number := S754_finite false 8106479329266893 (-53).

Definition spam : Rule :=
  {| r_id := "spam"; r_name := "Spam"; r_severity := "medium";
     r_action := "timeout"; r_timeoutDuration := seconds300; r_enabled := true |}.

Definition spam_no_duration : Rule :=
  {| r_id := "spam"; r_name := "Spam"; r_severity := "medium";
     r_action := "timeout"; r_timeoutDuration := JS.zero; r_enabled := true |}.

Definition threats : Rule :=
  {| r_id := "threats"; r_name := "Threats"; r_severity := "critical";
     r_action := "request_ban"; r_timeoutDuration := JS.zero; r_enabled := true |}.

Definition defaults : Settings :=
  {| warningsBeforeAction := Some 2; banRequestUser := "devloafyt";
     dmOnAction := false; ignoredChannels := JS.VArr []; ignoredRoles := JS.VArr [];
     trustedRoles := JS.VArr [] |}.

Definition config (rs : list Rule) : Config := {| rules := rs; settings := defaults |}.

Definition offender : User :=
  {| u_id := "42"; u_tag := "mallory#0001"; u_username := "mallory";
     u_displayName := None; u_globalName := None; u_bot := false |}.

Definition helper_bot : User :=
  {| u_id := "99"; u_tag := "helper#0000"; u_username := "helper";
     u_displayName := None; u_globalName := None; u_bot := true |}.

Definition offender_member : Member :=
  {| m_user := offender; m_kickable := true; m_bannable := true; m_roles := [] |}.

Definition home : Guild := {| g_id := "7"; g_name := "Home" |}.

Definition general : Channel :=
  {| c_id := "100"; c_name := "general"; c_text := true; c_sendable := true |}.

Definition mod_log : Channel :=
  {| c_id := "101"; c_name := "Mod-Log"; c_text := true; c_sendable := true |}.

Definition reviewer : User :=
  {| u_id := "1"; u_tag := "devloafyt#0001"; u_username := "DevLoafYT";
     u_displayName := None; u_globalName := None; u_bot := false |}.

Definition reviewer_member : Member :=
  {| m_user := reviewer; m_kickable := false; m_bannable := false; m_roles := [] |}.

Definition post : Message :=
  {| author := offender; system := false; guild := Some home; channel := general;
     content := "buy now"; member := Some offender_member |}.

Definition bot_post : Message :=
  {| author := helper_bot; system := false; guild := Some home; channel := general;
     content := "buy now"; member := None |}.

Definition verdict (violation : string) (suggested : JS.number) : Verdict :=
  {| flagged := true; violations := [JS.VStr violation]; confidence := c0_9;
     reasoning := JS.VStr "advertising"; suggestedAction := JS.VStr "warn";
     suggestedDuration := JS.VNum suggested; replyMessage := JS.VNull |}.

(** A platform on which every call is answered by [answer]. *)
Definition platform (answer : Event -> option string) (c : ClassifierOutcome) : Platform :=
  {| respond := answer; toLowerCase := asciiLowerCase; classifier := c;
     members_fetch := fun _ _ => Throw "Unknown Member";
     members_fetch_all := fun _ => Ok [reviewer_member];
     guilds_cache := [home];
     guilds_fetch := fun _ => Throw "Unknown Guild";
     users_cache := [];
     channels_cache := [general; mod_log] |}.

Definition all_fine : Event -> option string := fun _ => None.

Definition no_delivery : Event -> option string := fun e =>
  match e with
  | EDeliver _ => Some "Missing Permissions"
  | _ => None
  end.

Definition no_delete : Event -> option string := fun e =>
  match e with
  | EDelete => Some "Unknown Message"
  | _ => None
  end.

Definition no_ban : Event -> option string := fun e =>
  match e with
  | EBanById _ => Some "Missing Permissions"
  | _ => None
  end.

Definition nothing_works : Event -> option string := fun _ => Some "Unknown interaction".

Definition silent : ClassifierOutcome := RequestFailed "timeout of 30000ms exceeded".

(** Two replies whose confidence is not a number: the string "0.9" and the
    boolean [true]. *)
Definition reply_confidence_string : list (string * JS.value) :=
  [("flagged", JS.VBool true); ("violations", JS.VArr [JS.VStr "spam"]);
   ("confidence", JS.VStr "0.9")].

Definition reply_confidence_true : list (string * JS.value) :=
  [("flagged", JS.VBool true); ("violations", JS.VArr [JS.VStr "spam"]);
   ("confidence", JS.VBool true)].

Definition warned (n : nat) : World :=
  set_userWarnings (fun _ => {[ "42" := n ]}) empty_world.

Definition pending : PendingBan :=
  {| pb_userId := "42"; pb_username := "mallory#0001"; pb_guildId := "7";
     pb_guildName := "Home"; pb_reason := JS.VStr "threats";
     pb_violations := [JS.VStr "threats"]; pb_confidence := c0_9;
     pb_kicked := true; pb_delivered := true |}.

Definition awaiting_review : World :=
  set_pendingBans (fun _ => {[ "42_7" := pending ]}) empty_world.

Definition approve_button : Interaction := {| isButton := true; customId := "ban_approve_42_7" |}.
Definition deny_button : Interaction := {| isButton := true; customId := "ban_deny_42_7" |}.

(** The two numeric conversions, as far as the runs below consult them:
    StringToNumber on the literal "0.9", which is the double [c0_9]; no run
    prints a number. *)
Definition parse_0_9 (s : string) : JS.number :=
  if String.eqb s "0.9" then c0_9 else JS.NaN.
Definition no_print (n : JS.number) : string := "NaN".

End Scenario.

(** * Vocabulary for the rest of the code *)

(** The count the ledger holds for a user: [getWarningCount]. *)
Definition warningsOf (w : World) (userId : string) : nat :=
  default 0%nat (userWarnings w !! userId).

(** No channel remembers more than [maxContext] messages. *)
Definition boundedContext (w : World) : Prop :=
  forall channelId msgs,
    recentMessages w !! channelId = Some msgs ->
    (length msgs <= AIEngine.maxContext)%nat.

(** [addWarning], [k] times in a row. *)
Fixpoint addWarnings (k : nat) (userId : string) : M unit :=
  match k with
  | O => mret tt
  | S k' => AIEngine.addWarning userId ;; addWarnings k' userId
  end.

(** Offences handled one after the other. *)
Fixpoint takeActions (cfg : Config) (P : Platform) (g : Guild)
    (offences : list (Message * Verdict)) : M unit :=
  match offences with
  | [] => mret tt
  | (message, analysis) :: rest =>
      ModBot._takeAction cfg P g message analysis ;; takeActions cfg P g rest
  end.

(** Messages handled one after the other. *)
Section Inbox.
Variable StringToNumber : string -> JS.number.
Variable NumberToString : JS.number -> string.

Fixpoint handleMessages (cfg : Config) (P : Platform) (inbox : list Message) : M unit :=
  match inbox with
  | [] => mret tt
  | message :: rest =>
      ModBot._handleMessage StringToNumber NumberToString cfg P message ;;
      handleMessages cfg P rest
  end.

(** The same, each message under the configuration and the platform of its
    moment; the run ends with the first exception that leaves the handler. *)
Fixpoint handleEach (arrivals : list (Config * Platform * Message)) : M unit :=
  match arrivals with
  | [] => mret tt
  | (cfg, P, message) :: rest =>
      ModBot._handleMessage StringToNumber NumberToString cfg P message ;;
      handleEach rest
  end.
End Inbox.

(** A stored id list that can be consulted: an array, a string, or a falsy
    value, which is not consulted at all. *)
Definition consultable (ids : JS.value) : bool :=
  match ids with
  | JS.VArr _ | JS.VStr _ => true
  | _ => negb (JS.truthy ids)
  end.

Definition listsConsultable (s : Settings) : Prop :=
  consultable (ignoredChannels s) = true /\
  consultable (ignoredRoles s) = true /\
  consultable (trustedRoles s) = true.

(** An offence by [userId] whose resolved action is [action]. *)
Definition offenceBy (cfg : Config) (userId action : string) (o : Message * Verdict) : Prop :=
  u_id (author (fst o)) = userId /\
  ModBot.resolvedAction cfg (snd o) = JS.VStr action.

Definition is_warning_event (e : Event) : Prop := e = EReply \/ e = EStatus "action".

(** The resolved actions the [switch] of [_takeAction] knows, and [warn]. *)
Definition known_action (action : JS.value) : bool :=
  JS.is_str action "warn" || JS.is_str action "timeout" ||
  JS.is_str action "kick" || JS.is_str action "request_ban".

(** What the notice to the offender adds to the trace. *)
Definition noticeEvents (cfg : Config) (action : JS.value) : list Event :=
  if dmOnAction (settings cfg) && negb (JS.is_str action "warn") then [EDmOffender] else [].


(** The line [_trackMessage] remembers for a message. *)
Definition contextLine (message : Message) : ContextMsg :=
  {| cm_author := JS.str_or (u_username (author message)) "Unknown";
     cm_content := content message |}.

(** What a channel remembers. *)
Definition contextOf (w : World) (channelId : string) : list ContextMsg :=
  default [] (recentMessages w !! channelId).

(** The channel key [analyzeMessage] tracks a message under. *)
Definition channelKey (message : Message) : string :=
  JS.str_or (c_id (channel message)) "unknown".

(** ** More scenarios *)

Module Cases.

Definition line (n : string) : ContextMsg := {| cm_author := "mallory"; cm_content := n |}.

(** A channel that remembers ten messages. *)
Definition full_channel : World :=
  set_recentMessages
    (fun _ => {[ "100" := map line ["1"; "2"; "3"; "4"; "5"; "6"; "7"; "8"; "9"; "10"] ]})
    empty_world.

(** Settings that keep the bot out of the channel [general] and away from
    the members with the role [500]. *)
Definition quiet : Settings :=
  {| warningsBeforeAction := Some 2; banRequestUser := "devloafyt";
     dmOnAction := true; ignoredChannels := JS.VArr [JS.VStr "100"];
     ignoredRoles := JS.VArr []; trustedRoles := JS.VArr [JS.VStr "500"] |}.

Definition quiet_config (rs : list Rule) : Config := {| rules := rs; settings := quiet |}.

(** The default settings, with the notice to the offender switched on. *)
Definition notifying : Settings :=
  {| warningsBeforeAction := Some 2; banRequestUser := "devloafyt";
     dmOnAction := true; ignoredChannels := JS.VArr []; ignoredRoles := JS.VArr [];
     trustedRoles := JS.VArr [] |}.

Definition notifying_config (rs : list Rule) : Config :=
  {| rules := rs; settings := notifying |}.

(** A rule that is enabled and asks for nothing. *)
Definition caps : Rule :=
  {| r_id := "caps"; r_name := "Caps"; r_severity := "low";
     r_action := "none"; r_timeoutDuration := JS.zero; r_enabled := true |}.

Definition insults : Rule :=
  {| r_id := "insults"; r_name := "Insults"; r_severity := "high";
     r_action := "kick"; r_timeoutDuration := JS.zero; r_enabled := true |}.

Definition rude : Rule :=
  {| r_id := "rude"; r_name := "Rudeness"; r_severity := "low";
     r_action := "warn"; r_timeoutDuration := JS.zero; r_enabled := true |}.

Definition switched_off : Rule :=
  {| r_id := "spam"; r_name := "Spam"; r_severity := "medium";
     r_action := "timeout"; r_timeoutDuration := JS.zero; r_enabled := false |}.

(** The owner of the guild: nobody can kick them. *)
Definition owner_member : Member :=
  {| m_user := Scenario.offender; m_kickable := false; m_bannable := false; m_roles := [] |}.

Definition owner_post : Message :=
  {| author := Scenario.offender; system := false; guild := Some Scenario.home;
     channel := Scenario.general; content := "buy now"; member := Some owner_member |}.

(** A reply that says "true" where the boolean is expected. *)
Definition reply_flagged_string : list (string * JS.value) :=
  [("flagged", JS.VStr "true"); ("violations", JS.VArr [JS.VStr "spam"]);
   ("confidence", JS.VNum Scenario.c0_9)].

(** Two requests await review. *)
Definition two_pending : World :=
  set_pendingBans (fun _ => {[ "42_7" := Scenario.pending; "43_7" := Scenario.pending ]})
    empty_world.

(** A second guild, where the reviewer is a member, and a platform that
    knows both. *)
Definition lounge : Guild := {| g_id := "8"; g_name := "Lounge" |}.

Definition two_guilds (fetch_all : string -> Res (list Member)) : Platform :=
  {| respond := Scenario.all_fine; toLowerCase := asciiLowerCase;
     classifier := Scenario.silent;
     members_fetch := fun _ _ => Throw "Unknown Member";
     members_fetch_all := fetch_all;
     guilds_cache := [Scenario.home; lounge];
     guilds_fetch := fun _ => Throw "Unknown Guild";
     users_cache := [];
     channels_cache := [Scenario.general; Scenario.mod_log] |}.

Definition reviewer_at_home (guildId : string) : Res (list Member) :=
  Ok [Scenario.offender_member; Scenario.reviewer_member].

Definition staff : Channel :=
  {| c_id := "102"; c_name := "staff"; c_text := true; c_sendable := true |}.

Definition voice_mod_log : Channel :=
  {| c_id := "103"; c_name := "mod-log"; c_text := false; c_sendable := false |}.

Definition channels (cs : list Channel) : Platform :=
  {| respond := Scenario.all_fine; toLowerCase := asciiLowerCase;
     classifier := Scenario.silent;
     members_fetch := fun _ _ => Throw "Unknown Member";
     members_fetch_all := fun _ => Ok [];
     guilds_cache := [Scenario.home];
     guilds_fetch := fun _ => Throw "Unknown Guild";
     users_cache := [];
     channels_cache := cs |}.



(** The default settings after [{"ignoredChannels": 5}] was stored. *)
Definition number_for_a_list : Settings :=
  {| warningsBeforeAction := Some 2; banRequestUser := "devloafyt";
     dmOnAction := false; ignoredChannels := JS.VNum (JS.num_of_Z 5);
     ignoredRoles := JS.VArr []; trustedRoles := JS.VArr [] |}.

(** The post of an offender who is no longer a member: the message carries
    no member and the platform of the scenarios knows none to fetch. *)
Definition departed_post : Message :=
  {| author := Scenario.offender; system := false; guild := Some Scenario.home;
     channel := Scenario.general; content := "buy now"; member := None |}.

Definition no_embed : Event -> option string := fun e =>
  match e with
  | EBuildEmbed => Some "Invalid string length"
  | _ => None
  end.

Definition no_kick : Event -> option string := fun e =>
  match e with
  | EKick _ => Some "Missing Permissions"
  | _ => None
  end.

End Cases.

(** An offence of [userId] that the threshold can turn into a warning. *)
Definition warnable (cfg : Config) (userId : string) (o : Message * Verdict) : Prop :=
  offenceBy cfg userId "warn" o \/ offenceBy cfg userId "timeout" o.

(** The world after a message that was counted and went no further. *)
Definition counted (w : World) : World :=
  set_trace (fun t => t ++ [EStatus "message"]) (set_messageCount S w).

(** A message the handler does not drop at the door. *)
Definition eligible (message : Message) (g : Guild) : Prop :=
  u_bot (author message) = false /\ system message = false /\ guild message = Some g.

(** The end of every enforcement: the notice to the offender, the counter,
    the status. *)
Definition closeAction (cfg : Config) (action : JS.value) (w : World) : World :=
  set_trace (fun t => t ++ noticeEvents cfg action ++ [EStatus "action"])
    (set_actionCount S w).



(** What a click may do to the pending requests: nothing, or remove the
    request the button names. *)
Definition removes (key : string) (p q : gmap string PendingBan) : Prop :=
  q = p \/ q = delete key p.

Definition any_event (e : Event) : Prop := True.

(** ** The configuration over time *)

(** The calls that change the configuration, each with the outcome of its
    write to the file. *)
Inductive ConfigOp :=
| OpSetRules (rs : list (gmap string JS.value)) (written : bool)
| OpUpdateRule (ruleId : string) (updates : gmap string JS.value) (written : bool)
| OpUpdateSettings (updates : gmap string JS.value) (written : bool)
| OpSetBotToken (token : string) (written : bool)
| OpReset (written : bool)
| OpImport (cfg : ConfigManager.Bundle) (written1 written2 : bool).

Section ConfigHistory.
Variable moderationRules : list (gmap string JS.value).
Variable globalSettings : gmap string JS.value.
Variable BOT_TOKEN : string.
Variable POLLINATIONS_KEY : string.

Definition configStep (op : ConfigOp) (s : ConfigManager.State) : ConfigManager.State :=
  match op with
  | OpSetRules rs written => ConfigManager.setRules rs written s
  | OpUpdateRule ruleId updates written =>
      snd (ConfigManager.updateRule ruleId updates written s)
  | OpUpdateSettings updates written =>
      snd (ConfigManager.updateSettings updates written s)
  | OpSetBotToken token written => ConfigManager.setBotToken token written s
  | OpReset written =>
      ConfigManager.resetToDefaults moderationRules globalSettings BOT_TOKEN
        POLLINATIONS_KEY written s
  | OpImport cfg written1 written2 => ConfigManager.importConfig cfg written1 written2 s
  end.

Fixpoint configRun (ops : list ConfigOp) (s : ConfigManager.State) : ConfigManager.State :=
  match ops with
  | [] => s
  | op :: rest => configRun rest (configStep op s)
  end.

(** The process is started anew: [config] is read from the file. *)
Definition restart (s : ConfigManager.State) : ConfigManager.State :=
  ConfigManager.initial moderationRules globalSettings BOT_TOKEN POLLINATIONS_KEY
    (ConfigManager.file s).

(** Every default setting is a property of the settings. *)
Definition complete (s : ConfigManager.State) : Prop :=
  forall k,
    is_Some (ConfigManager.settings
               (ConfigManager.getDefaults moderationRules globalSettings BOT_TOKEN
                  POLLINATIONS_KEY) !! k) ->
    is_Some (ConfigManager.settings (ConfigManager.config s) !! k).

(** The file holds the text of the configuration in memory. *)
Definition inSync (s : ConfigManager.State) : Prop :=
  ConfigManager.file s =
    ConfigManager.Holds (ConfigManager.stringify (ConfigManager.config s)).

End ConfigHistory.

(** A configuration whose text reads back as it is: every value of every
    rule and of the settings is one JSON text carries. *)
Definition storableObject (o : gmap string JS.value) : Prop :=
  map_Forall (fun _ x => JS.storable x = true) o.

Definition storableConfig (s : ConfigManager.State) : Prop :=
  Forall storableObject (ConfigManager.getRules s) /\
  storableObject (ConfigManager.getSettings s).

(** The calls that write the file whatever the configuration is. *)
Definition lands (op : ConfigOp) : bool :=
  match op with
  | OpSetRules _ written => written
  | OpUpdateSettings _ written => written
  | OpSetBotToken _ written => written
  | OpReset written => written
  | OpUpdateRule _ _ _ => false
  | OpImport _ _ _ => false
  end.


(** ** The log over time *)

(** The last [n] elements of a list. *)
Definition newest {A} (n : nat) (l : list A) : list A := drop (length l - n) l.

(** One call of [log] with its inputs. *)
Record LogCall := {
  lc_id : string;
  lc_timestamp : string;
  lc_day : string;
  lc_written : bool;
  lc_entry : gmap string JS.value;
}.

Definition logged (c : LogCall) : gmap string JS.value :=
  Logger.stamped (lc_id c) (lc_timestamp c) (lc_entry c).

Fixpoint logAll (batch : list LogCall) (st : Logger.State) : Logger.State :=
  match batch with
  | [] => st
  | c :: rest =>
      logAll rest
        (snd (Logger.log (lc_id c) (lc_timestamp c) (lc_day c) (lc_written c)
                (lc_entry c) st))
  end.

(** The options of [getLogs] without the limit. *)
Definition withoutLimit (o : Logger.Options) : Logger.Options :=
  {| Logger.o_type := Logger.o_type o; Logger.o_guildId := Logger.o_guildId o;
     Logger.o_userId := Logger.o_userId o; Logger.o_severity := Logger.o_severity o;
     Logger.o_since := Logger.o_since o; Logger.o_limit := "" |}.

(** An entry passes every filter the options give. *)
Definition passes (dateOf : JS.value -> option Z) (o : Logger.Options)
    (l : gmap string JS.value) : bool :=
  (negb (Logger.given (Logger.o_type o))
   || JS.is_str (property l "type") (Logger.o_type o)) &&
  (negb (Logger.given (Logger.o_guildId o))
   || JS.is_str (property l "guildId") (Logger.o_guildId o)) &&
  (negb (Logger.given (Logger.o_userId o))
   || JS.is_str (property l "userId") (Logger.o_userId o)) &&
  (negb (Logger.given (Logger.o_severity o))
   || JS.is_str (property l "severity") (Logger.o_severity o)) &&
  (negb (Logger.given (Logger.o_since o))
   || Logger.notBefore dateOf (dateOf (JS.VStr (Logger.o_since o))) l).

(** ** Scenarios of the configuration and of the log *)

Module Desk.

Definition spam_rule : gmap string JS.value :=
  {[ "id" := JS.VStr "spam"; "action" := JS.VStr "timeout"; "enabled" := JS.VBool true ]}.

Definition threats_rule : gmap string JS.value :=
  {[ "id" := JS.VStr "threats"; "action" := JS.VStr "request_ban";
     "enabled" := JS.VBool true ]}.

Definition default_settings : gmap string JS.value :=
  {[ "warningsBeforeAction" := JS.VNum (JS.num_of_Z 2); "dmOnAction" := JS.VBool true ]}.

Definition softer : gmap string JS.value := {[ "action" := JS.VStr "warn" ]}.

Definition quieter : gmap string JS.value := {[ "dmOnAction" := JS.VBool false ]}.

(** The state of a first start: no file yet. *)
Definition fresh : ConfigManager.State :=
  ConfigManager.initial [spam_rule; threats_rule] default_settings "" "" ConfigManager.Missing.

Definition warn_entry : gmap string JS.value :=
  {[ "type" := JS.VStr "mod_action"; "action" := JS.VStr "warn";
     "userId" := JS.VStr "42"; "guildId" := JS.VStr "7" ]}.

Definition kick_entry : gmap string JS.value :=
  {[ "type" := JS.VStr "mod_action"; "action" := JS.VStr "kick";
     "userId" := JS.VStr "43"; "guildId" := JS.VStr "7" ]}.

Definition clean_entry : gmap string JS.value :=
  {[ "type" := JS.VStr "ai_analysis"; "flagged" := JS.VBool false;
     "userId" := JS.VStr "42" ]}.

Definition first_call : LogCall :=
  {| lc_id := "a1"; lc_timestamp := "1000"; lc_day := "1970-01-01"; lc_written := true;
     lc_entry := warn_entry |}.

Definition second_call : LogCall :=
  {| lc_id := "a2"; lc_timestamp := "2000"; lc_day := "1970-01-01"; lc_written := false;
     lc_entry := kick_entry |}.

Definition third_call : LogCall :=
  {| lc_id := "a3"; lc_timestamp := "3000"; lc_day := "1970-01-01"; lc_written := true;
     lc_entry := clean_entry |}.

(** Three entries in memory, two listeners, the first of them registered
    twice. *)
Definition three_logged : Logger.State :=
  logAll [first_call; second_call; third_call]
    (Logger.onLog 1 (Logger.onLog 2 (Logger.onLog 1 Logger.empty))).

(** Stand-ins for the two conversions, as far as the scenarios consult them:
    the time stamps above are read as milliseconds, the limits "2" and "abc"
    as 2 and [NaN]. *)
Definition read_date (v : JS.value) : option Z :=
  match v with
  | JS.VStr "1000" => Some 1000
  | JS.VStr "2000" => Some 2000
  | JS.VStr "3000" => Some 3000
  | _ => None
  end.

Definition read_number (s : string) : JS.number :=
  if String.eqb s "2" then JS.num_of_Z 2 else JS.NaN.

Definition by_user_42 : Logger.Options :=
  {| Logger.o_type := ""; Logger.o_guildId := ""; Logger.o_userId := "42";
     Logger.o_severity := ""; Logger.o_since := ""; Logger.o_limit := "" |}.

Definition last_two : Logger.Options :=
  {| Logger.o_type := ""; Logger.o_guildId := ""; Logger.o_userId := "";
     Logger.o_severity := ""; Logger.o_since := ""; Logger.o_limit := "2" |}.

End Desk.

(** * Properties *)

Import ModBot.

Ltac unfold_monad :=
  unfold mbind, M_bind, mret, M_ret, throw, try_catch, attempt, catch_null,
    lift, modify, reads, emit, call, fetch, when, log, log_error, _emitStatus in *.

(** ** Numbers and values *)

Lemma lt_c0_7_zero : JS.lt JS.c0_7 JS.zero = false.
Proof. reflexivity. Qed.

Lemma falsy_number_not_above (n : JS.number) :
  JS.num_truthy n = false -> JS.lt JS.c0_7 n = false.
Proof. destruct n as [[]|[]| |[] m e]; simpl; try discriminate; reflexivity. Qed.

(** ** Normalisation of the verdict *)

Section NormalisationFacts.
Variable StringToNumber : string -> JS.number.
Variable NumberToString : JS.number -> string.

(** When the raw confidence is a number, or is falsy, a flagged verdict has a
    confidence above 0.7. *)
Lemma normalize_numeric_confidence (result : list (string * JS.value)) :
  JS.is_number (JS.get result "confidence") = true \/
  JS.truthy (JS.get result "confidence") = false ->
  exists v, AIEngine.normalize StringToNumber NumberToString result = Ok v /\
            (flagged v = true -> JS.lt JS.c0_7 (confidence v) = true).
Proof.
  intros H. unfold AIEngine.normalize.
  destruct (JS.is_true (JS.get result "flagged")); simpl;
    [| eexists; split; [reflexivity | discriminate]].
  set (c := JS.get result "confidence") in *.
  assert (Hgt : JS.gt_num StringToNumber NumberToString
                  (JS.or_else c (JS.VNum JS.zero)) JS.c0_7
                = Ok (match c with JS.VNum n => JS.lt JS.c0_7 n | _ => false end)).
  { unfold JS.or_else, JS.gt_num.
    destruct c as [| |b|n|s|l|fs]; simpl in *;
      destruct H as [H|H]; try discriminate; try reflexivity.
    - subst b. reflexivity.
    - destruct (JS.num_truthy n) eqn:T; [reflexivity|].
      simpl. now rewrite (falsy_number_not_above n T).
    - rewrite H. simpl. now rewrite (falsy_number_not_above n H).
    - destruct (String.eqb s ""); [reflexivity | discriminate]. }
  rewrite Hgt. simpl. eexists; split; [reflexivity|]. simpl.
  destruct c; try discriminate. tauto.
Qed.

(** A confidence that is not a number, is truthy and converts to a number
    above 0.7 (the string "0.9", the boolean [true], the array [[0.9]]) flags
    the verdict and is then replaced by 0. *)
Lemma normalize_coerced_confidence (result : list (string * JS.value)) (x : JS.number) :
  JS.get result "flagged" = JS.VBool true ->
  JS.is_number (JS.get result "confidence") = false ->
  JS.truthy (JS.get result "confidence") = true ->
  JS.ToNumber StringToNumber NumberToString (JS.get result "confidence") = Ok x ->
  JS.lt JS.c0_7 x = true ->
  exists v, AIEngine.normalize StringToNumber NumberToString result = Ok v /\
            flagged v = true /\ confidence v = JS.zero.
Proof.
  intros Hf Hn Ht Hx Hlt. unfold AIEngine.normalize. rewrite Hf. simpl.
  unfold JS.or_else, JS.gt_num. rewrite Ht, Hx. simpl. rewrite Hlt.
  eexists. split; [reflexivity|]. simpl. split; [reflexivity|].
  destruct (JS.get result "confidence"); try reflexivity. discriminate.
Qed.

Lemma is_true_inv (v : JS.value) : JS.is_true v = true -> v = JS.VBool true.
Proof. destruct v as [| |[]| | | |]; simpl; intros H; try discriminate; reflexivity. Qed.

(** The normalised verdicts that break the invariant are exactly those: the
    classifier flagged, and the confidence is a truthy non-number that
    converts to a number above 0.7. *)
Lemma normalize_breaks_invariant_iff (result : list (string * JS.value)) (v : Verdict) :
  AIEngine.normalize StringToNumber NumberToString result = Ok v ->
  (flagged v = true /\ JS.lt JS.c0_7 (confidence v) = false) <->
  (JS.get result "flagged" = JS.VBool true /\
   JS.is_number (JS.get result "confidence") = false /\
   JS.truthy (JS.get result "confidence") = true /\
   exists x, JS.ToNumber StringToNumber NumberToString (JS.get result "confidence") = Ok x /\
             JS.lt JS.c0_7 x = true).
Proof.
  unfold AIEngine.normalize.
  destruct (JS.is_true (JS.get result "flagged")) eqn:Hf; simpl.
  - apply is_true_inv in Hf. rewrite Hf.
    set (c := JS.get result "confidence").
    destruct (JS.is_number c) eqn:Hn.
    + destruct c as [| | |n| | |]; try discriminate Hn.
      unfold JS.or_else, JS.gt_num. simpl.
      destruct (JS.num_truthy n) eqn:T; simpl; intros [= <-]; simpl.
      * split; [intros [H1 H2]; congruence | intros (_ & H & _); discriminate].
      * rewrite lt_c0_7_zero.
        split; [intros [H1 H2]; discriminate | intros (_ & H & _); discriminate].
    + unfold JS.or_else, JS.gt_num.
      destruct (JS.truthy c) eqn:T; simpl.
      * destruct (JS.ToNumber StringToNumber NumberToString c) as [x|e] eqn:Hx; simpl;
          [|discriminate].
        intros [= <-]. simpl.
        assert (Hz : match c with JS.VNum n => n | _ => JS.zero end = JS.zero).
        { destruct c; try reflexivity. discriminate. }
        rewrite Hz, lt_c0_7_zero. split.
        -- intros [H _]. repeat split; auto. now exists x.
        -- intros (_ & _ & _ & x' & [= <-] & H). now split.
      * intros [= <-]. simpl. rewrite lt_c0_7_zero.
        split; [intros [H _]; discriminate | intros (_ & _ & H & _); discriminate].
  - intros [= <-]. simpl.
    split; [intros [H _]; discriminate|].
    intros (H & _). rewrite H in Hf. discriminate.
Qed.

End NormalisationFacts.

(** ** The classifier client *)

(** C1 (defect of the code): a reply flagged by the classifier whose
    [confidence] is not a number but compares above 0.7 once coerced (the
    string "0.9", the boolean [true]) comes out of [analyzeMessage] flagged
    and with the confidence 0: [flagged = true] does not imply
    [confidence > 0.7]. *)
Theorem analyzeMessage_flags_coerced_confidence
    (StringToNumber : string -> JS.number) (NumberToString : JS.number -> string)
    (cfg : Config) (P : Platform) (message : Message) (w : World)
    (result : list (string * JS.value)) (x : JS.number) :
  AIEngine.enabledRules cfg <> [] ->
  classifier P = Parsed result ->
  JS.get result "flagged" = JS.VBool true ->
  JS.is_number (JS.get result "confidence") = false ->
  JS.truthy (JS.get result "confidence") = true ->
  JS.ToNumber StringToNumber NumberToString (JS.get result "confidence") = Ok x ->
  JS.lt JS.c0_7 x = true ->
  exists v w',
    AIEngine.analyzeMessage StringToNumber NumberToString cfg P message w = (Ok v, w') /\
    flagged v = true /\
    confidence v = JS.zero /\
    JS.lt JS.c0_7 (confidence v) = false.
Proof.
  intros Hen Hc Hf Hn Ht Hx Hlt.
  destruct (normalize_coerced_confidence StringToNumber NumberToString result x
              Hf Hn Ht Hx Hlt) as (v & Hv & Hfl & Hz).
  unfold AIEngine.analyzeMessage.
  destruct (AIEngine.enabledRules cfg) as [|r rs]; [contradiction|]. simpl.
  unfold AIEngine.request, AIEngine._trackMessage. unfold_monad.
  rewrite Hc. simpl. rewrite Hv. simpl.
  eexists v, _. split; [reflexivity|].
  rewrite Hfl, Hz. repeat split; reflexivity.
Qed.

(** The reply [{"flagged": true, "violations": ["spam"], "confidence": "0.9"}]. *)
Lemma analyzeMessage_flags_coerced_confidence_witness :
  exists v w',
    AIEngine.analyzeMessage Scenario.parse_0_9 Scenario.no_print
      (Scenario.config [Scenario.spam])
      (Scenario.platform Scenario.all_fine (Parsed Scenario.reply_confidence_string))
      Scenario.post empty_world = (Ok v, w') /\
    flagged v = true /\
    confidence v = JS.zero /\
    JS.lt JS.c0_7 (confidence v) = false.
Proof.
  apply (analyzeMessage_flags_coerced_confidence Scenario.parse_0_9 Scenario.no_print
           (Scenario.config [Scenario.spam])
           (Scenario.platform Scenario.all_fine (Parsed Scenario.reply_confidence_string))
           Scenario.post empty_world Scenario.reply_confidence_string Scenario.c0_9).
  - simpl. discriminate.
  - reflexivity.
  - reflexivity.
  - reflexivity.
  - reflexivity.
  - reflexivity.
  - reflexivity.
Defined.

(** The same reply with the boolean [true] for confidence, whatever the two
    numeric conversions are. *)
Lemma true_confidence_is_flagged
    (StringToNumber : string -> JS.number) (NumberToString : JS.number -> string) :
  exists v,
    AIEngine.normalize StringToNumber NumberToString Scenario.reply_confidence_true = Ok v /\
    flagged v = true /\ confidence v = JS.zero.
Proof. eexists. repeat split; reflexivity. Qed.

(** The handler checks the confidence again, so the verdict of C1 is logged
    as flagged but not acted upon. *)
Lemma coerced_confidence_not_enforced (v : Verdict) :
  confidence v = JS.zero -> flagged v && JS.lt JS.c0_7 (confidence v) = false.
Proof. intros ->. rewrite lt_c0_7_zero. apply andb_false_r. Qed.

Lemma analyzeMessage_failure
    (StringToNumber : string -> JS.number) (NumberToString : JS.number -> string)
    (cfg : Config) (P : Platform) (message : Message) (w : World) (msg : string) :
  AIEngine.enabledRules cfg <> [] ->
  failure_of (classifier P) = Some msg ->
  AIEngine.analyzeMessage StringToNumber NumberToString cfg P message w =
    (Ok (AIEngine.failure_verdict msg),
     advance (snd (AIEngine._trackMessage
                     (JS.str_or (c_id (channel message)) "unknown") message w))
       [EClassify] [LError msg "AI analysis failed"]).
Proof.
  intros Hen Hf. unfold AIEngine.analyzeMessage.
  destruct (AIEngine.enabledRules cfg) as [|r rs]; [contradiction|]. simpl.
  unfold AIEngine.request, AIEngine._trackMessage. unfold_monad.
  destruct (classifier P) as [m| |m|fields]; simpl in Hf;
    try discriminate; injection Hf as <-; reflexivity.
Qed.

(** Nothing is thrown past [analyzeMessage], whatever the classifier
    answers: a reply whose normalisation throws (a [confidence] that cannot be
    converted to a primitive) ends in the [catch] block like the others. *)
Lemma analyzeMessage_never_throws
    (StringToNumber : string -> JS.number) (NumberToString : JS.number -> string)
    (cfg : Config) (P : Platform) (message : Message) (w : World) :
  exists v w',
    AIEngine.analyzeMessage StringToNumber NumberToString cfg P message w = (Ok v, w').
Proof.
  unfold AIEngine.analyzeMessage.
  destruct (AIEngine.enabledRules cfg) as [|r rs]; simpl; [eexists _, _; reflexivity|].
  unfold AIEngine.request, AIEngine._trackMessage. unfold_monad.
  destruct (classifier P) as [m| |m|fields]; simpl; try (eexists _, _; reflexivity).
  destruct (AIEngine.normalize StringToNumber NumberToString fields); simpl;
    eexists _, _; reflexivity.
Qed.

(** The door of [_handleMessage]: what lines 102-124 leave to do. *)
Lemma exempt_run
    (StringToNumber : string -> JS.number) (NumberToString : JS.number -> string)
    (cfg : Config) (P : Platform) (message : Message) (g : Guild) (w : World) :
  eligible message g ->
  _handleMessage StringToNumber NumberToString cfg P message w =
    match exempt (settings cfg) message with
    | Ok true => (Ok tt, counted w)
    | Ok false =>
        try_catch
          (analysis ← AIEngine.analyzeMessage StringToNumber NumberToString cfg P message ;
           when (flagged analysis && JS.lt JS.c0_7 (confidence analysis))
             (_takeAction cfg P g message analysis))
          (fun msg => log_error msg "Message handling failed") (counted w)
    | Throw e => (Throw e, counted w)
    end.
Proof.
  intros (Hbot & Hsys & Hg). unfold _handleMessage, exempt, counted.
  rewrite Hbot, Hsys, Hg. simpl.
  change ((modify (set_messageCount S) ;; _emitStatus "message" ;; ?k) w)
    with (k (set_trace (fun t => t ++ [EStatus "message"]) (set_messageCount S w))).
  unfold mbind, M_bind, lift.
  destruct (inIgnoredChannel (settings cfg) message) as [[]|e]; simpl; try reflexivity.
  destruct (hasRole "ignoredRoles" (ignoredRoles (settings cfg)) message) as [[]|e];
    simpl; try reflexivity.
  destruct (hasRole "trustedRoles" (trustedRoles (settings cfg)) message) as [[]|e];
    simpl; reflexivity.
Qed.

(** C5: whichever way the classification call fails (the request rejects,
    the body has no JSON object, the JSON does not parse), [analyzeMessage]
    returns, without raising, the verdict [flagged = false], [confidence = 0]
    with a reasoning that carries the failure, and records one error entry;
    [_handleMessage] then takes no enforcement action: it awaits nothing but
    the classifier, and leaves the ledger, the pending bans and the action
    counter as they were. *)
Theorem classification_failure_is_unflagged
    (StringToNumber : string -> JS.number) (NumberToString : JS.number -> string)
    (cfg : Config) (P : Platform) (message : Message) (w : World) (msg : string) :
  AIEngine.enabledRules cfg <> [] ->
  failure_of (classifier P) = Some msg ->
  (exists w1,
     AIEngine.analyzeMessage StringToNumber NumberToString cfg P message w =
       (Ok (AIEngine.failure_verdict msg), w1) /\
     audit w1 = audit w ++ [LError msg "AI analysis failed"]) /\
  flagged (AIEngine.failure_verdict msg) = false /\
  confidence (AIEngine.failure_verdict msg) = JS.zero /\
  reasoning (AIEngine.failure_verdict msg) = JS.VStr ("AI analysis failed: " +:+ msg) /\
  (forall g,
     u_bot (author message) = false ->
     system message = false ->
     guild message = Some g ->
     exempt (settings cfg) message = Ok false ->
     exists w2,
       _handleMessage StringToNumber NumberToString cfg P message w = (Ok tt, w2) /\
       trace w2 = trace w ++ [EStatus "message"; EClassify] /\
       audit w2 = audit w ++ [LError msg "AI analysis failed"] /\
       userWarnings w2 = userWarnings w /\
       pendingBans w2 = pendingBans w /\
       actionCount w2 = actionCount w).
Proof.
  intros Hen Hf. repeat split.
  - eexists. split.
    + apply analyzeMessage_failure; assumption.
    + reflexivity.
  - intros g Hbot Hsys Hg Hex.
    rewrite (exempt_run StringToNumber NumberToString cfg P message g w
               (conj Hbot (conj Hsys Hg))), Hex.
    pose proof (analyzeMessage_failure StringToNumber NumberToString cfg P message
                  (counted w) msg Hen Hf) as Hrun.
    unfold_monad. rewrite Hrun. simpl.
    eexists. split; [reflexivity|]. simpl.
    rewrite <- app_assoc. repeat split; reflexivity.
Qed.

Lemma classification_failure_is_unflagged_witness :
  exists w2,
    _handleMessage Scenario.parse_0_9 Scenario.no_print
      (Scenario.config [Scenario.spam])
      (Scenario.platform Scenario.all_fine Scenario.silent)
      Scenario.post (Scenario.warned 2) = (Ok tt, w2) /\
    trace w2 = [EStatus "message"; EClassify] /\
    audit w2 = [LError "timeout of 30000ms exceeded" "AI analysis failed"] /\
    userWarnings w2 = userWarnings (Scenario.warned 2) /\
    pendingBans w2 = pendingBans (Scenario.warned 2) /\
    actionCount w2 = actionCount (Scenario.warned 2).
Proof.
  destruct (classification_failure_is_unflagged Scenario.parse_0_9 Scenario.no_print
              (Scenario.config [Scenario.spam])
              (Scenario.platform Scenario.all_fine Scenario.silent)
              Scenario.post (Scenario.warned 2) "timeout of 30000ms exceeded")
    as (_ & _ & _ & _ & H).
  - simpl. discriminate.
  - reflexivity.
  - apply (H Scenario.home); reflexivity.
Defined.

(** C10: a message written by a bot, a system message and a message outside
    a guild are dropped at the door: the handler returns at once, the
    classifier is not called, no counter moves, no warning is added, nothing
    is recorded, whatever the content. *)
Theorem skipped_messages_leave_no_mark
    (StringToNumber : string -> JS.number) (NumberToString : JS.number -> string)
    (cfg : Config) (P : Platform) (message : Message) (w : World) :
  u_bot (author message) = true \/ system message = true \/ guild message = None ->
  _handleMessage StringToNumber NumberToString cfg P message w = (Ok tt, w).
Proof.
  intros [H | [H | H]]; unfold _handleMessage.
  - rewrite H. reflexivity.
  - rewrite H, orb_true_r. reflexivity.
  - rewrite H. destruct (u_bot (author message) || system message); reflexivity.
Qed.

Lemma skipped_messages_leave_no_mark_witness :
  _handleMessage Scenario.parse_0_9 Scenario.no_print
    (Scenario.config [Scenario.spam])
    (Scenario.platform Scenario.all_fine (Parsed Scenario.reply_confidence_true))
    Scenario.bot_post (Scenario.warned 1) = (Ok tt, Scenario.warned 1).
Proof.
  apply (skipped_messages_leave_no_mark Scenario.parse_0_9 Scenario.no_print).
  left. reflexivity.
Defined.

(** ** The decision: rule override *)

Lemma find_by_id (id : string) (rs : list Rule) :
  (exists r, In r rs /\ r_id r = id) ->
  exists rule, List.find (fun r => JS.is_str (JS.VStr id) (r_id r)) rs = Some rule /\
               In rule rs /\ r_id rule = id.
Proof.
  induction rs as [|r rs IH]; intros (r0 & Hin & Hid).
  - destruct Hin.
  - simpl. destruct (String.eqb id (r_id r)) eqn:E.
    + apply String.eqb_eq in E. exists r.
      split; [reflexivity|]. split; [now left | now symmetry].
    + destruct Hin as [-> | Hin].
      * rewrite Hid, String.eqb_refl in E. discriminate.
      * destruct IH as (rule & Hf & Hi & Hr); [now exists r0|].
        exists rule. split; [assumption|]. split; [now right | assumption].
Qed.

Lemma find_by_id_none (pv : JS.value) (rs : list Rule) :
  (forall r, In r rs -> JS.VStr (r_id r) <> pv) ->
  List.find (fun r => JS.is_str pv (r_id r)) rs = None.
Proof.
  induction rs as [|r rs IH]; intros H; [reflexivity|]. simpl.
  destruct (JS.is_str pv (r_id r)) eqn:E.
  - destruct pv as [| | | |t| |]; try discriminate. simpl in E.
    apply String.eqb_eq in E. subst t. destruct (H r); [now left | reflexivity].
  - apply IH. intros r' Hin. apply H. now right.
Qed.

(** C6 as stated fails: the rule is found, its [timeoutDuration] is 0, and
    the duration that is used is the 600 seconds the verdict suggests. *)
Lemma zero_timeoutDuration_keeps_suggestion :
  primaryRule (Scenario.config [Scenario.spam_no_duration])
    (Scenario.verdict "spam" Scenario.seconds600) = Some Scenario.spam_no_duration /\
  r_timeoutDuration Scenario.spam_no_duration = JS.zero /\
  resolvedDuration (Scenario.config [Scenario.spam_no_duration])
    (Scenario.verdict "spam" Scenario.seconds600) = JS.VNum Scenario.seconds600 /\
  resolvedDuration (Scenario.config [Scenario.spam_no_duration])
    (Scenario.verdict "spam" Scenario.seconds600)
    <> JS.VNum (r_timeoutDuration Scenario.spam_no_duration).
Proof. repeat split. vm_compute. discriminate. Qed.

(** C6 (amended): the primary violation is [violations[0]].  When it is a
    non-empty rule id and the rule set has a rule with that id, the resolved
    action is the action of that rule and the resolved duration is its
    [timeoutDuration] if that is not 0 (nor NaN); when the [timeoutDuration]
    is 0 the duration the verdict suggests is kept.  When no rule has that
    id, action and duration are the ones the verdict suggests.  These are the
    action and duration escalation softening and the executors start from. *)
Theorem rule_overrides_suggestion (cfg : Config) (analysis : Verdict) :
  primaryViolation analysis = default JS.VUndefined (head (violations analysis)) /\
  (forall id,
     primaryViolation analysis = JS.VStr id ->
     id <> "" ->
     (exists r, In r (rules cfg) /\ r_id r = id) ->
     exists rule,
       In rule (rules cfg) /\ r_id rule = id /\
       primaryRule cfg analysis = Some rule /\
       resolvedAction cfg analysis = JS.VStr (r_action rule) /\
       (JS.num_truthy (r_timeoutDuration rule) = true ->
        resolvedDuration cfg analysis = JS.VNum (r_timeoutDuration rule)) /\
       (JS.num_truthy (r_timeoutDuration rule) = false ->
        resolvedDuration cfg analysis = suggestedDuration analysis)) /\
  ((forall r, In r (rules cfg) -> JS.VStr (r_id r) <> primaryViolation analysis) ->
   primaryRule cfg analysis = None /\
   resolvedAction cfg analysis = suggestedAction analysis /\
   resolvedDuration cfg analysis = suggestedDuration analysis).
Proof.
  split; [|split].
  - unfold primaryViolation. now destruct (violations analysis).
  - intros id Hpv Hne Hex.
    destruct (find_by_id id (rules cfg) Hex) as (rule & Hf & Hin & Hid).
    exists rule. unfold resolvedAction, resolvedDuration, primaryRule.
    rewrite Hpv. simpl.
    destruct (String.eqb id "") eqn:E; [apply String.eqb_eq in E; contradiction|].
    simpl. simpl in Hf. rewrite Hf.
    repeat split; auto; intros ->; reflexivity.
  - intros Hno.
    assert (Hnone : primaryRule cfg analysis = None).
    { unfold primaryRule.
      destruct (JS.truthy (primaryViolation analysis)); [|reflexivity].
      now apply find_by_id_none. }
    unfold resolvedAction, resolvedDuration. rewrite Hnone. auto.
Qed.

Lemma rule_overrides_suggestion_witness :
  (exists rule,
     In rule [Scenario.spam] /\ r_id rule = "spam" /\
     primaryRule (Scenario.config [Scenario.spam])
       (Scenario.verdict "spam" Scenario.seconds600) = Some rule /\
     resolvedAction (Scenario.config [Scenario.spam])
       (Scenario.verdict "spam" Scenario.seconds600) = JS.VStr (r_action rule) /\
     resolvedDuration (Scenario.config [Scenario.spam])
       (Scenario.verdict "spam" Scenario.seconds600) = JS.VNum Scenario.seconds300) /\
  resolvedAction (Scenario.config [Scenario.spam])
    (Scenario.verdict "flood" Scenario.seconds600) = JS.VStr "warn" /\
  resolvedDuration (Scenario.config [Scenario.spam])
    (Scenario.verdict "flood" Scenario.seconds600) = JS.VNum Scenario.seconds600.
Proof.
  split.
  - destruct (rule_overrides_suggestion (Scenario.config [Scenario.spam])
                (Scenario.verdict "spam" Scenario.seconds600)) as (_ & H & _).
    assert (Hex : exists r, In r (rules (Scenario.config [Scenario.spam])) /\
                            r_id r = "spam").
    { exists Scenario.spam. split; [now left | reflexivity]. }
    assert (Hne : "spam" <> "") by discriminate.
    destruct (H "spam" eq_refl Hne Hex) as (rule & Hin & Hid & Hr & Ha & Hd & _).
    exists rule. destruct Hin as [<- | []].
    split; [now left|]. split; [reflexivity|]. split; [assumption|].
    split; [assumption|]. apply Hd. reflexivity.
  - destruct (rule_overrides_suggestion (Scenario.config [Scenario.spam])
                (Scenario.verdict "flood" Scenario.seconds600)) as (_ & _ & H).
    assert (Hno : forall r, In r (rules (Scenario.config [Scenario.spam])) ->
                            JS.VStr (r_id r) <>
                            primaryViolation (Scenario.verdict "flood" Scenario.seconds600)).
    { intros r [<- | []]. discriminate. }
    destruct (H Hno) as (_ & Ha & Hd). split; assumption.
Defined.

(** ** Resolution of a ban request: [_handleInteraction] *)

Lemma handle_approve (P : Platform) (i : Interaction) :
  isButton i = true ->
  buttonParts i !! 0%nat = Some "ban" ->
  buttonParts i !! 1%nat = Some "approve" ->
  _handleInteraction P i =
    approve P (in_template (buttonParts i !! 2%nat)) (in_template (buttonParts i !! 3%nat)).
Proof.
  intros Hb H0 H1. unfold _handleInteraction, buttonParts in *.
  rewrite Hb, H0, H1. reflexivity.
Qed.

Lemma handle_deny (P : Platform) (i : Interaction) :
  isButton i = true ->
  buttonParts i !! 0%nat = Some "ban" ->
  buttonParts i !! 1%nat = Some "deny" ->
  _handleInteraction P i =
    deny P (in_template (buttonParts i !! 2%nat)) (in_template (buttonParts i !! 3%nat)).
Proof.
  intros Hb H0 H1. unfold _handleInteraction, buttonParts in *.
  rewrite Hb, H0, H1. reflexivity.
Qed.

Ltac run_lookup P guildId :=
  unfold lookupGuild, guildOf, lookupEvents, fetchMemberOrNull, banById in *;
  destruct (List.find (fun g => String.eqb (g_id g) guildId) (guilds_cache P));
  unfold_monad; simpl in *.

Ltac cases_respond P :=
  repeat match goal with
         | |- context [respond P ?e] => destruct (respond P e) eqn:?; simpl
         end.

Ltac use_hyps :=
  repeat match goal with
         | H : ?x = _ |- context [?x] => rewrite H; simpl
         end.

Ltac done_run :=
  eexists; split; [reflexivity|]; simpl; rewrite <- ?app_assoc; simpl; auto.

(** The offender is still a bannable member: the ban goes through the
    membership record and the request is removed. *)
Lemma approve_bans_member (P : Platform) (userId guildId : string) (g : Guild)
    (m : Member) (w : World) :
  guildOf P guildId = Ok g ->
  members_fetch P (g_id g) userId = Ok m ->
  m_bannable m = true ->
  respond P (EBanMember (u_id (m_user m))) = None ->
  respond P (EUpdate UBanApproved) = None ->
  exists w',
    approve P userId guildId w = (Ok tt, w') /\
    pendingBans w' = delete (pendingKey userId guildId) (pendingBans w) /\
    trace w' = trace w ++ lookupEvents P guildId ++
               [EFetchMember (g_id g) userId; EBanMember (u_id (m_user m));
                EUpdate UBanApproved].
Proof.
  intros Hg Hm Hb Hban Hup. unfold approve. run_lookup P guildId.
  - injection Hg as ->. use_hyps. done_run.
  - use_hyps. done_run.
Qed.


(** The ban through the membership record fails: the failure is reported and
    the request stays. *)
Lemma approve_member_ban_failure_keeps_request (P : Platform)
    (userId guildId : string) (g : Guild) (m : Member) (err : string) (w : World) :
  guildOf P guildId = Ok g ->
  members_fetch P (g_id g) userId = Ok m ->
  m_bannable m = true ->
  respond P (EBanMember (u_id (m_user m))) = Some err ->
  respond P (EUpdate (UBanFailed err)) = None ->
  exists w',
    approve P userId guildId w = (Ok tt, w') /\
    pendingBans w' = pendingBans w /\
    trace w' = trace w ++ lookupEvents P guildId ++
               [EFetchMember (g_id g) userId; EBanMember (u_id (m_user m));
                EUpdate (UBanFailed err)].
Proof.
  intros Hg Hm Hb Hban Hup. unfold approve. run_lookup P guildId.
  - injection Hg as ->. use_hyps. done_run.
  - use_hyps. done_run.
Qed.

(** C3 (defect of the code): the offender has left (or cannot be banned
    through the membership record) and the ban by raw id fails.  The failure
    is reported to the reviewer, and then the pending request is removed all
    the same: the [delete] of line 586 follows the inner [catch]. *)
Theorem approve_by_id_failure_drops_request (P : Platform) (i : Interaction)
    (g : Guild) (err : string) (w : World) :
  isButton i = true ->
  buttonParts i !! 0%nat = Some "ban" ->
  buttonParts i !! 1%nat = Some "approve" ->
  guildOf P (in_template (buttonParts i !! 3%nat)) = Ok g ->
  (forall m, members_fetch P (g_id g) (in_template (buttonParts i !! 2%nat)) = Ok m ->
             m_bannable m = false) ->
  respond P (EBanById (in_template (buttonParts i !! 2%nat))) = Some err ->
  respond P (EUpdate (UCouldNotBan err)) = None ->
  exists w',
    _handleInteraction P i w = (Ok tt, w') /\
    pendingBans w' = delete (buttonKey i) (pendingBans w) /\
    pendingBans w' !! buttonKey i = None /\
    trace w' = trace w ++ lookupEvents P (in_template (buttonParts i !! 3%nat)) ++
               [EFetchMember (g_id g) (in_template (buttonParts i !! 2%nat));
                EBanById (in_template (buttonParts i !! 2%nat));
                EUpdate (UCouldNotBan err)].
Proof.
  intros Hb H0 H1 Hg Hm Hban Hup. rewrite (handle_approve P i Hb H0 H1).
  unfold buttonKey.
  set (userId := in_template (buttonParts i !! 2%nat)) in *.
  set (guildId := in_template (buttonParts i !! 3%nat)) in *.
  assert (Hrun : exists w',
            approve P userId guildId w = (Ok tt, w') /\
            pendingBans w' = delete (pendingKey userId guildId) (pendingBans w) /\
            trace w' = trace w ++ lookupEvents P guildId ++
                       [EFetchMember (g_id g) userId; EBanById userId;
                        EUpdate (UCouldNotBan err)]).
  { unfold approve. run_lookup P guildId.
    - injection Hg as ->.
      destruct (members_fetch P (g_id g) userId) as [m|e]; simpl;
        [rewrite (Hm m eq_refl)|]; use_hyps; done_run.
    - use_hyps.
      destruct (members_fetch P (g_id g) userId) as [m|e]; simpl;
        [rewrite (Hm m eq_refl)|]; use_hyps; done_run. }
  destruct Hrun as (w' & Hr & Hp & Ht). exists w'.
  split; [assumption|]. split; [assumption|]. split; [|assumption].
  rewrite Hp. apply lookup_delete_eq.
Qed.

Lemma approve_by_id_failure_drops_request_witness :
  exists w',
    _handleInteraction (Scenario.platform Scenario.no_ban Scenario.silent)
      Scenario.approve_button Scenario.awaiting_review = (Ok tt, w') /\
    pendingBans Scenario.awaiting_review !! "42_7" = Some Scenario.pending /\
    pendingBans w' !! "42_7" = None /\
    trace w' = [EFetchMember "7" "42"; EBanById "42";
                EUpdate (UCouldNotBan "Missing Permissions")].
Proof.
  destruct (approve_by_id_failure_drops_request
              (Scenario.platform Scenario.no_ban Scenario.silent)
              Scenario.approve_button Scenario.home
              "Missing Permissions" Scenario.awaiting_review)
    as (w' & Hr & _ & Hk & Ht); try reflexivity.
  { intros m Hm. discriminate Hm. }
  exists w'. split; [exact Hr|]. split; [reflexivity|]. split; [exact Hk | exact Ht].
Defined.

(** C9 as stated fails: the second deny of one request finds its entry gone
    and leaves the map as it is, but on a platform that by then refuses the
    calls of the handler it raises: the acknowledgement in the [try] is
    refused, and so is the one awaited in the [catch]. *)
Lemma second_deny_raises :
  let w1 := snd (_handleInteraction (Scenario.platform Scenario.all_fine Scenario.silent)
                   Scenario.deny_button Scenario.awaiting_review) in
  let second := _handleInteraction
                  (Scenario.platform Scenario.nothing_works Scenario.silent)
                  Scenario.deny_button w1 in
  pendingBans w1 !! buttonKey Scenario.deny_button = None /\
  fst second = Throw "Unknown interaction" /\
  fst second <> Ok tt /\
  pendingBans (snd second) = pendingBans w1.
Proof. cbv zeta. split; [|split; [|split]]; try reflexivity. discriminate. Qed.

(** C9 (amended): a deny whose pending request is already gone leaves the map
    of pending requests as it is, whatever the platform answers: removing
    the absent key changes nothing.  The handler does not read the map, so
    its outcome is the one of any other deny of that button; the only
    exception that can leave it is the platform's refusal of the
    acknowledgement sent from the [catch] block, and it returns normally
    whenever that acknowledgement is accepted. *)
Theorem deny_twice_is_idle (P : Platform) (i : Interaction) (w : World) :
  isButton i = true ->
  buttonParts i !! 0%nat = Some "ban" ->
  buttonParts i !! 1%nat = Some "deny" ->
  pendingBans w !! buttonKey i = None ->
  pendingBans (snd (_handleInteraction P i w)) = pendingBans w /\
  (forall w0, fst (_handleInteraction P i w) = fst (_handleInteraction P i w0)) /\
  (fst (_handleInteraction P i w) = Ok tt \/
   exists msg err,
     respond P (EUpdate (UDenyFailed msg)) = Some err /\
     fst (_handleInteraction P i w) = Throw err) /\
  ((forall msg, respond P (EUpdate (UDenyFailed msg)) = None) ->
   fst (_handleInteraction P i w) = Ok tt).
Proof.
  intros Hb H0 H1 Hk. rewrite (handle_deny P i Hb H0 H1).
  unfold buttonKey in Hk.
  set (userId := in_template (buttonParts i !! 2%nat)) in *.
  set (guildId := in_template (buttonParts i !! 3%nat)) in *.
  apply delete_id in Hk.
  assert (Hcases :
    pendingBans (snd (deny P userId guildId w)) = pendingBans w /\
    (forall w0, fst (deny P userId guildId w) = fst (deny P userId guildId w0)) /\
    (fst (deny P userId guildId w) = Ok tt \/
     exists msg err,
       respond P (EUpdate (UDenyFailed msg)) = Some err /\
       fst (deny P userId guildId w) = Throw err)).
  { unfold deny. run_lookup P guildId.
    - destruct (members_fetch P (g_id g) userId) as [m|e]; simpl;
        cases_respond P; (split; [auto|]); (split; [reflexivity|]);
        first [left; reflexivity | right; eauto].
    - destruct (guilds_fetch P guildId) as [g|e0]; simpl;
        [destruct (members_fetch P (g_id g) userId) as [m|e]; simpl|];
        cases_respond P; (split; [auto|]); (split; [reflexivity|]);
        first [left; reflexivity | right; eauto]. }
  destruct Hcases as (Hmap & Hsame & Hout).
  split; [exact Hmap|]. split; [exact Hsame|]. split; [exact Hout|].
  intros Hack. destruct Hout as [Hok | (msg & err & Hr & _)]; [exact Hok|].
  rewrite Hack in Hr. discriminate.
Qed.

Lemma deny_twice_is_idle_witness :
  pendingBans (snd (_handleInteraction (Scenario.platform Scenario.all_fine Scenario.silent)
                      Scenario.deny_button
                      (snd (_handleInteraction
                              (Scenario.platform Scenario.all_fine Scenario.silent)
                              Scenario.deny_button Scenario.awaiting_review))))
  = pendingBans (snd (_handleInteraction
                        (Scenario.platform Scenario.all_fine Scenario.silent)
                        Scenario.deny_button Scenario.awaiting_review)) /\
  fst (_handleInteraction (Scenario.platform Scenario.all_fine Scenario.silent)
         Scenario.deny_button
         (snd (_handleInteraction
                 (Scenario.platform Scenario.all_fine Scenario.silent)
                 Scenario.deny_button Scenario.awaiting_review))) = Ok tt.
Proof.
  destruct (deny_twice_is_idle (Scenario.platform Scenario.all_fine Scenario.silent)
              Scenario.deny_button
              (snd (_handleInteraction
                      (Scenario.platform Scenario.all_fine Scenario.silent)
                      Scenario.deny_button Scenario.awaiting_review)))
    as (Hmap & _ & _ & Hok); try reflexivity.
  split; [exact Hmap | apply Hok; reflexivity].
Defined.

(** ** Runs that only await and log *)

Section Confinement.
Variable Q : Event -> Prop.
Variable R : gmap string PendingBan -> gmap string PendingBan -> Prop.
Hypothesis R_refl : forall p, R p p.
Hypothesis R_trans : forall p q r, R p q -> R q r -> R p r.

Lemma step_refl (w : World) : step Q R w w.
Proof.
  unfold step. repeat split; auto.
  - exists []. split; [now rewrite app_nil_r | constructor].
  - exists []. now rewrite app_nil_r.
Qed.

Lemma step_trans (w1 w2 w3 : World) :
  step Q R w1 w2 -> step Q R w2 w3 -> step Q R w1 w3.
Proof.
  intros (Hu & Hr & Hm & Ha & Hp & (e1 & He1 & Hq1) & (l1 & Hl1))
         (Hu' & Hr' & Hm' & Ha' & Hp' & (e2 & He2 & Hq2) & (l2 & Hl2)).
  unfold step. repeat split; try congruence.
  - eapply R_trans; eassumption.
  - exists (e1 ++ e2). split.
    + now rewrite He2, He1, app_assoc.
    + apply Forall_app. now split.
  - exists (l1 ++ l2). now rewrite Hl2, Hl1, app_assoc.
Qed.

Lemma step_emit (w : World) (e : Event) :
  Q e -> step Q R w (set_trace (fun t => t ++ [e]) w).
Proof.
  intros He. unfold step. simpl. repeat split; auto.
  - exists [e]. split; [reflexivity | now constructor].
  - exists []. now rewrite app_nil_r.
Qed.

Lemma step_log (w : World) (l : LogEntry) :
  step Q R w (set_audit (fun a => a ++ [l]) w).
Proof.
  unfold step. simpl. repeat split; auto.
  - exists []. split; [now rewrite app_nil_r | constructor].
  - now exists [l].
Qed.

Lemma safe_tame {A} (m : M A) : safe Q R m -> tame Q R m.
Proof. intros H w. apply H. Qed.

Lemma safe_ret {A} (a : A) : safe Q R (mret a).
Proof. intros w. split; [reflexivity | apply step_refl]. Qed.

Lemma tame_throw {A} (msg : string) : tame Q R (throw (A := A) msg).
Proof. intros w. apply step_refl. Qed.

Lemma tame_lift {A} (r : Res A) : tame Q R (lift r).
Proof. intros w. apply step_refl. Qed.

Lemma safe_emit (e : Event) : Q e -> safe Q R (emit e).
Proof. intros He w. split; [reflexivity | now apply step_emit]. Qed.

Lemma safe_log (l : LogEntry) : safe Q R (log l).
Proof. intros w. split; [reflexivity | apply step_log]. Qed.

Lemma safe_log_error (e c : string) : safe Q R (log_error e c).
Proof. apply safe_log. Qed.

Lemma tame_bind {A B} (m : M A) (k : A -> M B) :
  tame Q R m -> (forall a, tame Q R (k a)) -> tame Q R (m ≫= k).
Proof.
  intros Hm Hk w. specialize (Hm w). unfold mbind, M_bind.
  destruct (m w) as [[a|e] w1]; simpl in *; [|assumption].
  eapply step_trans; [eassumption | apply Hk].
Qed.

Lemma safe_bind {A B} (m : M A) (k : A -> M B) :
  safe Q R m -> (forall a, safe Q R (k a)) -> safe Q R (m ≫= k).
Proof.
  intros Hm Hk w. destruct (Hm w) as [Hok Hs]. unfold mbind, M_bind.
  destruct (m w) as [[a|e] w1]; simpl in *; [|discriminate].
  destruct (Hk a w1) as [Hok' Hs']. split; [assumption|].
  eapply step_trans; eassumption.
Qed.

Lemma tame_call (P : Platform) (e : Event) : Q e -> tame Q R (call P e).
Proof.
  intros He. unfold call. apply tame_bind; [apply safe_tame, safe_emit, He|].
  intros _. destruct (respond P e); [apply tame_throw | apply safe_tame, safe_ret].
Qed.

Lemma tame_fetch {A} (e : Event) (r : Res A) : Q e -> tame Q R (fetch e r).
Proof.
  intros He. unfold fetch. apply tame_bind; [apply safe_tame, safe_emit, He|].
  intros _. apply tame_lift.
Qed.

Lemma safe_try_catch {A} (m : M A) (h : string -> M A) :
  tame Q R m -> (forall e, safe Q R (h e)) -> safe Q R (try_catch m h).
Proof.
  intros Hm Hh w. specialize (Hm w). unfold try_catch.
  destruct (m w) as [[a|e] w1]; simpl in *; [split; [reflexivity | assumption]|].
  destruct (Hh e w1) as [Hok Hs]. split; [assumption|].
  eapply step_trans; eassumption.
Qed.

Lemma tame_try_catch {A} (m : M A) (h : string -> M A) :
  tame Q R m -> (forall e, tame Q R (h e)) -> tame Q R (try_catch m h).
Proof.
  intros Hm Hh w. specialize (Hm w). unfold try_catch.
  destruct (m w) as [[a|e] w1]; simpl in *; [assumption|].
  eapply step_trans; [eassumption | apply Hh].
Qed.

Lemma safe_attempt (m : M unit) : tame Q R m -> safe Q R (attempt m).
Proof. intros Hm. apply safe_try_catch; [assumption | intros _; apply safe_ret]. Qed.

Lemma safe_catch_null {A} (m : M A) : tame Q R m -> safe Q R (catch_null m).
Proof.
  intros Hm w. specialize (Hm w). unfold catch_null.
  destruct (m w) as [[a|e] w1]; simpl in *; split; auto.
Qed.

Lemma safe_when (b : bool) (m : M unit) : safe Q R m -> safe Q R (when b m).
Proof. intros Hm. destruct b; [assumption | apply safe_ret]. Qed.

Lemma safe_modify_pending (f : gmap string PendingBan -> gmap string PendingBan) :
  (forall p, R p (f p)) -> safe Q R (modify (set_pendingBans f)).
Proof.
  intros Hf w. split; [reflexivity|]. unfold step. simpl. repeat split; auto.
  - exists []. split; [now rewrite app_nil_r | constructor].
  - exists []. now rewrite app_nil_r.
Qed.

End Confinement.

Lemma step_weaken (Q Q' : Event -> Prop)
    (R R' : gmap string PendingBan -> gmap string PendingBan -> Prop) (w w' : World) :
  (forall e, Q e -> Q' e) -> (forall p q, R p q -> R' p q) ->
  step Q R w w' -> step Q' R' w w'.
Proof.
  intros HQ HR (Hu & Hr & Hm & Ha & Hp & (evs & He & Hq) & Hl).
  unfold step. repeat split; auto.
  exists evs. split; [assumption|]. eapply Forall_impl; eassumption.
Qed.

Lemma safe_weaken {A} (Q Q' : Event -> Prop)
    (R R' : gmap string PendingBan -> gmap string PendingBan -> Prop) (m : M A) :
  (forall e, Q e -> Q' e) -> (forall p q, R p q -> R' p q) ->
  safe Q R m -> safe Q' R' m.
Proof.
  intros HQ HR Hm w. destruct (Hm w) as [Hok Hs]. split; [assumption|].
  eapply step_weaken; eassumption.
Qed.

Ltac side := try solve [intros; unfold any_pending in *; (congruence || exact I)].

(** One step of the analysis of a handler body. *)
Ltac effect_step :=
  match goal with
  | |- safe _ _ (mret _) => apply safe_ret; side
  | |- tame _ _ (mret _) => apply safe_tame, safe_ret; side
  | |- safe _ _ (log _) => apply safe_log; side
  | |- tame _ _ (log _) => apply safe_tame, safe_log; side
  | |- safe _ _ (log_error _ _) => apply safe_log_error; side
  | |- tame _ _ (log_error _ _) => apply safe_tame, safe_log_error; side
  | |- tame _ _ (call _ _) => apply tame_call; side; simpl; exact I
  | |- tame _ _ (fetch _ _) => apply tame_fetch; side; simpl; exact I
  | |- safe _ _ (attempt _) => apply safe_attempt; side
  | |- tame _ _ (attempt _) => apply safe_tame, safe_attempt; side
  | |- safe _ _ (when _ _) => apply safe_when; side
  | |- tame _ _ (when _ _) => apply safe_tame, safe_when; side
  | |- safe _ _ (try_catch _ _) => apply safe_try_catch; side; [|intros ?]
  | |- tame _ _ (try_catch _ _) => apply tame_try_catch; side; [|intros ?]
  | |- safe _ _ (_ ≫= _) => apply safe_bind; side; [|intros ?]
  | |- tame _ _ (_ ≫= _) => apply tame_bind; side; [|intros ?]
  | |- safe _ _ (match ?x with _ => _ end) => destruct x
  | |- tame _ _ (match ?x with _ => _ end) => destruct x
  end.

Ltac effects := repeat effect_step.

(** ** The executors *)

Lemma resolveMember_tame (P : Platform) (g : Guild) (message : Message) :
  tame is_enforcement eq (resolveMember P g message).
Proof. unfold resolveMember. effects. Qed.

Lemma _timeoutUser_safe (P : Platform) (g : Guild) (message : Message)
    (analysis : Verdict) (duration : JS.value) (rule : option Rule) :
  safe is_enforcement eq (_timeoutUser P g message analysis duration rule).
Proof. unfold _timeoutUser. effects; apply resolveMember_tame. Qed.

Lemma _kickUser_safe (P : Platform) (g : Guild) (message : Message)
    (analysis : Verdict) (rule : option Rule) :
  safe is_enforcement eq (_kickUser P g message analysis rule).
Proof. unfold _kickUser. effects; apply resolveMember_tame. Qed.

Lemma restrain_safe (P : Platform) (g : Guild) (message : Message) (analysis : Verdict) :
  safe is_enforcement eq (restrain P g message analysis).
Proof. unfold restrain. effects; apply resolveMember_tame. Qed.

Lemma searchGuilds_safe (P : Platform) (name current : string) (gs : list Guild) :
  safe is_search eq (searchGuilds P name current gs).
Proof.
  induction gs as [|g' rest IH]; simpl; [effects|].
  destruct (String.eqb (g_id g') current); [assumption|].
  effects; assumption.
Qed.

Lemma locateReviewer_safe (P : Platform) (g : Guild) (name : string) :
  safe is_search eq (locateReviewer P g name).
Proof. unfold locateReviewer. effects; apply searchGuilds_safe. Qed.

Lemma deliver_safe (P : Platform) (admin : option User) :
  safe is_delivery eq (deliver P admin).
Proof. unfold deliver. effects. Qed.

(** ** The ban-request protocol *)

(** Step 1 does what the design says of the restraint. *)
Lemma restrain_run (P : Platform) (g : Guild) (message : Message)
    (analysis : Verdict) (w : World) :
  fst (restrain P g message analysis w) = Ok (kickSucceeds P g message) /\
  trace (snd (restrain P g message analysis w)) = trace w ++ restraintEvents P g message.
Proof.
  unfold restrain, resolveMember, kickSucceeds, restraintEvents, memberOf, resolveEvents.
  destruct (member message) as [m|]; unfold_monad; simpl.
  - destruct (m_kickable m); simpl; cases_respond P; split;
      rewrite <- ?app_assoc; reflexivity.
  - destruct (members_fetch P (g_id g) (u_id (author message))) as [m|e]; simpl.
    + destruct (m_kickable m); simpl; cases_respond P; split;
        rewrite <- ?app_assoc; reflexivity.
    + split; reflexivity.
Qed.

(** Facts on the chain of the design. *)
Lemma attempted_success (P : Platform) (l : list Stage) :
  existsb (accepts P) l = true ->
  exists failed s rest,
    l = failed ++ s :: rest /\
    attempted P l = failed ++ [s] /\
    Forall (fun x => accepts P x = false) failed /\
    accepts P s = true.
Proof.
  induction l as [|x l IH]; simpl; [discriminate|].
  destruct (accepts P x) eqn:E; simpl.
  - intros _. exists [], x, l. repeat split; auto.
  - intros H. destruct (IH H) as (failed & s & rest & -> & Ha & Hf & Hs).
    exists (x :: failed), s, rest. simpl. rewrite Ha. repeat split; auto.
Qed.

Lemma attempted_failure (P : Platform) (l : list Stage) :
  existsb (accepts P) l = false ->
  attempted P l = l /\ Forall (fun x => accepts P x = false) l.
Proof.
  induction l as [|x l IH]; simpl; [intros _; split; [reflexivity | constructor]|].
  destruct (accepts P x) eqn:E; simpl; [discriminate|].
  intros H. destruct (IH H) as [-> Hf]. split; [reflexivity | now constructor].
Qed.

Lemma attempted_length (P : Platform) (l : list Stage) :
  length (attempted P l) = Nat.min (length l) (1 + leadingFailures P l).
Proof.
  induction l as [|s l IH]; simpl; [reflexivity|].
  destruct (accepts P s); simpl; [now rewrite Nat.min_0_r|].
  rewrite IH. reflexivity.
Qed.

Lemma stages_NoDup (P : Platform) (admin : option User) : NoDup (stages P admin).
Proof.
  unfold stages.
  destruct admin, (modChannel P), (anyChannel P); simpl;
    repeat (apply NoDup_cons; split;
            [rewrite ?elem_of_cons, elem_of_nil; intuition discriminate|]);
    apply NoDup_nil_2.
Qed.

(** Step 4 tries the stages of the design in their order and stops at the
    first that accepts. *)
Lemma deliver_run (P : Platform) (admin : option User) (w : World) :
  fst (deliver P admin w) = Ok (existsb (accepts P) (stages P admin)) /\
  trace (snd (deliver P admin w)) = trace w ++ map EDeliver (attempted P (stages P admin)).
Proof.
  unfold deliver, stages.
  destruct admin as [a|], (modChannel P) as [c|], (anyChannel P) as [c'|];
    unfold_monad; simpl; cases_respond P; unfold accepts;
    repeat match goal with
           | H : respond P ?e = _ |- context [respond P ?e] => rewrite H
           end;
    simpl; split; rewrite <- ?app_assoc, ?app_nil_r; reflexivity.
Qed.

Lemma ok_inv {A} (r : Res A) : is_ok r = true -> exists a, r = Ok a.
Proof. destruct r; [eauto | discriminate]. Qed.

(** [_requestBan] from end to end, once the embed is built. *)
Lemma _requestBan_run (cfg : Config) (P : Platform) (g : Guild) (message : Message)
    (analysis : Verdict) (w : World) :
  respond P EBuildEmbed = None ->
  exists admin searched logs w',
    _requestBan cfg P g message analysis w = (Ok tt, w') /\
    fst (locateReviewer P g (JS.str_or (banRequestUser (settings cfg)) "devloafyt")
           (snd (restrain P g message analysis w))) = Ok admin /\
    Forall is_search searched /\
    trace w' = trace w ++ restraintEvents P g message ++ searched ++
               EBuildEmbed :: map EDeliver (attempted P (stages P admin)) /\
    pendingBans w' =
      <[ pendingKey (u_id (author message)) (g_id g) :=
           pendingEntry g message analysis (kickSucceeds P g message)
             (existsb (accepts P) (stages P admin)) ]> (pendingBans w) /\
    userWarnings w' = userWarnings w /\
    actionCount w' = actionCount w /\
    audit w' = audit w ++ logs /\
    (existsb (accepts P) (stages P admin) = false -> In (exhausted message) logs).
Proof.
  intros Hembed. unfold _requestBan.
  set (name := JS.str_or (banRequestUser (settings cfg)) "devloafyt").
  destruct (restrain_run P g message analysis w) as [Hk Ht1].
  destruct (restrain_safe P g message analysis w)
    as (_ & Hu1 & _ & _ & Ha1 & Hp1 & _ & (l1 & Hl1)).
  destruct (restrain P g message analysis w) as [r1 w1] eqn:E1.
  cbn [fst snd] in *. subst r1.
  destruct (locateReviewer_safe P g name w1)
    as (Hok2 & Hu2 & _ & _ & Ha2 & Hp2 & (searched & Ht2 & Hs2) & (l2 & Hl2)).
  destruct (locateReviewer P g name w1) as [r2 w2] eqn:E2. cbn [fst snd] in *.
  destruct (ok_inv r2 Hok2) as [admin ->].
  set (w3 := set_trace (fun t => t ++ [EBuildEmbed]) w2).
  destruct (deliver_run P admin w3) as [Hd Ht4].
  destruct (deliver_safe P admin w3)
    as (_ & Hu4 & _ & _ & Ha4 & Hp4 & _ & (l4 & Hl4)).
  destruct (deliver P admin w3) as [r4 w4] eqn:E4. cbn [fst snd] in *. subst r4.
  exists admin, searched.
  exists (l1 ++ l2 ++ l4 ++
          (if existsb (accepts P) (stages P admin) then [] else [exhausted message]) ++
          [LModAction "request_ban" (u_id (author message)) (primaryViolation analysis)
             "critical" JS.VNull]).
  assert (Htrace : trace w4 = trace w ++ restraintEvents P g message ++ searched ++
                              EBuildEmbed :: map EDeliver (attempted P (stages P admin))).
  { rewrite Ht4. unfold w3. simpl. rewrite Ht2, Ht1, <- !app_assoc. reflexivity. }
  assert (Hpend : pendingBans w4 = pendingBans w).
  { rewrite <- Hp4. unfold w3. simpl. congruence. }
  assert (Huw : userWarnings w4 = userWarnings w).
  { rewrite Hu4. unfold w3. simpl. congruence. }
  assert (Hac : actionCount w4 = actionCount w).
  { rewrite Ha4. unfold w3. simpl. congruence. }
  assert (Haud : audit w4 = audit w ++ l1 ++ l2 ++ l4).
  { rewrite Hl4. unfold w3. simpl. rewrite Hl2, Hl1, <- !app_assoc. reflexivity. }
  destruct (existsb (accepts P) (stages P admin)) eqn:Ed.
  - eexists. split.
    + unfold_monad. rewrite E1. simpl. rewrite E2. simpl. rewrite Hembed. simpl.
      fold w3. rewrite E4. reflexivity.
    + simpl. rewrite Htrace, Hpend, Huw, Hac, Haud, <- !app_assoc.
      repeat split; try reflexivity; try assumption. discriminate.
  - eexists. split.
    + unfold_monad. rewrite E1. simpl. rewrite E2. simpl. rewrite Hembed. simpl.
      fold w3. rewrite E4. reflexivity.
    + simpl. rewrite Htrace, Hpend, Huw, Hac, Haud, <- !app_assoc.
      repeat split; try reflexivity; try assumption. intros _.
      apply in_or_app. right. apply in_or_app. right.
      apply in_or_app. right. now left.
Qed.

Lemma deliveries_app (t u : list Event) :
  deliveries (t ++ u) = deliveries t ++ deliveries u.
Proof. unfold deliveries. apply omap_app. Qed.

Lemma deliveries_map (l : list Stage) : deliveries (map EDeliver l) = l.
Proof. induction l as [|s l IH]; simpl; [reflexivity | now rewrite IH]. Qed.

Lemma deliveries_none (t : list Event) :
  Forall (fun e => delivery e = None) t -> deliveries t = [].
Proof.
  induction 1 as [|e t He _ IH]; [reflexivity|].
  unfold deliveries in *. simpl. now rewrite He.
Qed.

Lemma restraintEvents_no_delivery (P : Platform) (g : Guild) (message : Message) :
  deliveries (restraintEvents P g message) = [].
Proof.
  unfold restraintEvents, resolveEvents, memberOf.
  destruct (member message) as [m|]; simpl.
  - destruct (m_kickable m); [destruct (respond P (EKick (u_id (m_user m))))|]; reflexivity.
  - destruct (members_fetch P (g_id g) (u_id (author message))) as [m|e]; [|reflexivity].
    destruct (m_kickable m); [destruct (respond P (EKick (u_id (m_user m))))|]; reflexivity.
Qed.

Lemma search_no_delivery (t : list Event) : Forall is_search t -> deliveries t = [].
Proof.
  intros H. apply deliveries_none. eapply Forall_impl; [exact H|].
  intros [] Hs; try destruct Hs; reflexivity.
Qed.

(** C4 as stated fails: when the notice of the request cannot be built, the
    request ends in the [catch] of [_requestBan]: none of the four stages is
    attempted, where the design counts one attempt at least, and no pending
    request is recorded. *)
Lemma unbuilt_request_reaches_nobody :
  let P := Scenario.platform Cases.no_embed Scenario.silent in
  let run := _requestBan (Scenario.config [Scenario.threats]) P Scenario.home
               Scenario.post (Scenario.verdict "threats" JS.zero) empty_world in
  fst run = Ok tt /\
  stages P (Some Scenario.reviewer) =
    [ViaDM "1"; ViaModChannel "101"; ViaViolationChannel; ViaAnyChannel "100"] /\
  deliveries (trace (snd run)) = [] /\
  length (deliveries (trace (snd run))) <>
    (1 + leadingFailures P (stages P (Some Scenario.reviewer)))%nat /\
  pendingBans (snd run) = ∅ /\
  audit (snd run) =
    [LModAction "kick" "42" (JS.VStr "threats") "critical" JS.VNull;
     LError "Invalid string length" "Ban request failed"].
Proof. cbv zeta. repeat split; try reflexivity. vm_compute. discriminate. Qed.

(** C4 (amended): once the embed is built, the sends of a ban request are the
    stages of the chain (direct message to the located reviewer, moderation
    channel by the fixed name list, channel of the violation, any sendable
    text channel; a stage without a target is not a send), in that order and
    up to the first success, none of them twice: the number of attempts is
    one plus the number of leading failures, and at most the number of
    stages.  When one succeeds, the attempts are the leading failures and
    that one.  When none succeeds, every stage was tried once, the request is
    recorded all the same with [delivered = false], and the exhaustion is
    logged. *)
Theorem ban_request_delivery_chain (cfg : Config) (P : Platform) (g : Guild)
    (message : Message) (analysis : Verdict) (w : World) :
  respond P EBuildEmbed = None ->
  exists admin w',
    _requestBan cfg P g message analysis w = (Ok tt, w') /\
    fst (locateReviewer P g (JS.str_or (banRequestUser (settings cfg)) "devloafyt")
           (snd (restrain P g message analysis w))) = Ok admin /\
    deliveries (trace w') = deliveries (trace w) ++ attempted P (stages P admin) /\
    NoDup (stages P admin) /\
    length (attempted P (stages P admin)) =
      Nat.min (length (stages P admin)) (1 + leadingFailures P (stages P admin)) /\
    pendingBans w' !! pendingKey (u_id (author message)) (g_id g) =
      Some (pendingEntry g message analysis (kickSucceeds P g message)
              (existsb (accepts P) (stages P admin))) /\
    (existsb (accepts P) (stages P admin) = true ->
     exists failed s rest,
       stages P admin = failed ++ s :: rest /\
       attempted P (stages P admin) = failed ++ [s] /\
       Forall (fun x => accepts P x = false) failed /\
       accepts P s = true /\
       length (attempted P (stages P admin)) = (1 + length failed)%nat) /\
    (existsb (accepts P) (stages P admin) = false ->
     attempted P (stages P admin) = stages P admin /\
     Forall (fun x => accepts P x = false) (stages P admin) /\
     In (exhausted message) (audit w')).
Proof.
  intros Hembed.
  destruct (_requestBan_run cfg P g message analysis w Hembed)
    as (admin & searched & logs & w' & Hrun & Hadm & Hs & Ht & Hp & _ & _ & Hl & Hex).
  exists admin, w'. split; [assumption|]. split; [assumption|]. split.
  { rewrite Ht, !deliveries_app, restraintEvents_no_delivery, (search_no_delivery _ Hs).
    change (EBuildEmbed :: map EDeliver (attempted P (stages P admin)))
      with ([EBuildEmbed] ++ map EDeliver (attempted P (stages P admin))).
    rewrite deliveries_app, deliveries_map. reflexivity. }
  split; [apply stages_NoDup|]. split; [apply attempted_length|]. split.
  { rewrite Hp. apply lookup_insert_eq. }
  split.
  - intros Hd. destruct (attempted_success P _ Hd) as (failed & s & rest & H1 & H2 & H3 & H4).
    exists failed, s, rest. repeat split; auto.
    rewrite H2, length_app. simpl. lia.
  - intros Hd. destruct (attempted_failure P _ Hd) as [H1 H2].
    repeat split; auto. rewrite Hl. apply in_or_app. right. now apply Hex.
Qed.

Lemma no_restraint_in_deliveries (l : list Stage) :
  Forall (fun ev => ~ is_restraint ev) (map EDeliver l).
Proof. induction l; simpl; constructor; auto. Qed.

Lemma no_restraint_in_search (t : list Event) :
  Forall is_search t -> Forall (fun ev => ~ is_restraint ev) t.
Proof.
  intros H. eapply Forall_impl; [exact H|].
  intros [] Hs Hr; try destruct Hs; destruct Hr.
Qed.

(** C7 as stated fails, three times.  A kickable offender whose kick the
    platform rejects is recorded with [kicked = false].  A kickable offender
    who was kicked leaves no entry at all when the notice cannot be built.
    For an offender who is no longer a member (the message carries none and
    the fetch fails) nothing is attempted, neither kick nor mute. *)
Lemma kickable_offender_not_recorded_as_kicked :
  let request P message :=
    snd (_requestBan (Scenario.config [Scenario.threats]) P Scenario.home message
           (Scenario.verdict "threats" JS.zero) empty_world) in
  let rejected := request (Scenario.platform Cases.no_kick Scenario.silent) Scenario.post in
  let unbuilt := request (Scenario.platform Cases.no_embed Scenario.silent) Scenario.post in
  let departed :=
    request (Scenario.platform Scenario.all_fine Scenario.silent) Cases.departed_post in
  m_kickable Scenario.offender_member = true /\
  (trace rejected = [EKick "42"; EFetchMembers "7"; EBuildEmbed; EDeliver (ViaDM "1")] /\
   (pb_kicked <$> pendingBans rejected !! "42_7") = Some false) /\
  (trace unbuilt =
     [EKick "42"; EAnnounce AnnKickPendingBan; EFetchMembers "7"; EBuildEmbed] /\
   pendingBans unbuilt !! "42_7" = None) /\
  (trace departed =
     [EFetchMember "7" "42"; EFetchMembers "7"; EBuildEmbed; EDeliver (ViaDM "1")] /\
   (pb_kicked <$> pendingBans departed !! "42_7") = Some false).
Proof. cbv zeta. repeat split; reflexivity. Qed.

(** C7 (amended): the restraint of a ban request, for a member [m] the
    handler can resolve and an embed that builds.  When [m] is kickable the
    first thing attempted on it is the kick and no mute follows; when it is
    not, no kick is attempted and [m] is muted for seven days.  The request
    that is stored carries [kicked]: [true] when the kick of a kickable
    member went through, [false] after the fallback to the mute. *)
Theorem ban_request_restraint (cfg : Config) (P : Platform) (g : Guild)
    (message : Message) (analysis : Verdict) (w : World) (m : Member) :
  memberOf P g message = Ok m ->
  respond P EBuildEmbed = None ->
  exists w' rest e,
    _requestBan cfg P g message analysis w = (Ok tt, w') /\
    pendingBans w' !! pendingKey (u_id (author message)) (g_id g) = Some e /\
    pb_userId e = u_id (author message) /\
    pb_guildId e = g_id g /\
    Forall (fun ev => ~ is_restraint ev) rest /\
    (m_kickable m = true ->
     trace w' = trace w ++ resolveEvents g message ++ EKick (u_id (m_user m)) :: rest /\
     (respond P (EKick (u_id (m_user m))) = None -> pb_kicked e = true)) /\
    (m_kickable m = false ->
     trace w' = trace w ++ resolveEvents g message ++
                ETimeout (u_id (m_user m)) (MuteMs sevenDays) :: rest /\
     pb_kicked e = false).
Proof.
  intros Hm Hembed.
  destruct (_requestBan_run cfg P g message analysis w Hembed)
    as (admin & searched & logs & w' & Hrun & _ & Hs & Ht & Hp & _).
  exists w'.
  exists (match (if m_kickable m then respond P (EKick (u_id (m_user m))) else Some "")
          with None => [EAnnounce AnnKickPendingBan] | Some _ => [] end ++
          searched ++ EBuildEmbed :: map EDeliver (attempted P (stages P admin))).
  eexists. split; [exact Hrun|]. split; [rewrite Hp; apply lookup_insert_eq|].
  split; [reflexivity|]. split; [reflexivity|]. split.
  { apply Forall_app. split.
    - destruct (m_kickable m); [destruct (respond P (EKick (u_id (m_user m))))|];
        repeat constructor; auto.
    - apply Forall_app. split; [now apply no_restraint_in_search|].
      constructor; [auto | apply no_restraint_in_deliveries]. }
  unfold restraintEvents, kickSucceeds in *. rewrite Hm in *. split.
  - intros Hk. rewrite Hk in *. split.
    + rewrite Ht, <- !app_assoc. simpl.
      destruct (respond P (EKick (u_id (m_user m)))); reflexivity.
    + intros ->. reflexivity.
  - intros Hk. rewrite Hk in *. split.
    + rewrite Ht, <- !app_assoc. reflexivity.
    + reflexivity.
Qed.

(** ** [_takeAction]: softening, deletion, execution *)

Lemma is_str_true (v : JS.value) (s : string) : JS.is_str v s = true <-> v = JS.VStr s.
Proof.
  destruct v; simpl; try (split; [discriminate | intros H; discriminate]).
  rewrite String.eqb_eq. split; [now intros -> | now intros [= ->]].
Qed.

Lemma warns_true_iff (action : JS.value) (n : nat) (s : Settings) :
  warns action n s = true <->
  action = JS.VStr "warn" \/
  (action = JS.VStr "timeout" /\ Z.of_nat n < maxWarnings s).
Proof.
  unfold warns. rewrite orb_true_iff, andb_true_iff, !is_str_true, Z.ltb_lt. tauto.
Qed.

Lemma advance_no_logs (w : World) (evs : list Event) :
  advance w evs [] = set_trace (fun t => t ++ evs) w.
Proof.
  destruct w. unfold advance, set_audit, set_trace. simpl. now rewrite app_nil_r.
Qed.

Lemma _requestBan_safe (cfg : Config) (P : Platform) (g : Guild) (message : Message)
    (analysis : Verdict) :
  safe is_enforcement any_pending (_requestBan cfg P g message analysis).
Proof.
  unfold _requestBan. apply safe_bind; side.
  - eapply safe_weaken; [| |apply restrain_safe]; auto. intros; exact I.
  - intros kicked. effects.
    + apply safe_tame. eapply safe_weaken; [| |apply locateReviewer_safe].
      * intros [] H; try destruct H; exact I.
      * intros; exact I.
    + apply safe_tame. eapply safe_weaken; [| |apply deliver_safe].
      * intros [] H; try destruct H; exact I.
      * intros; exact I.
    + apply safe_tame, safe_modify_pending. intros; exact I.
Qed.

Lemma perform_safe (cfg : Config) (P : Platform) (g : Guild) (message : Message)
    (analysis : Verdict) (action duration : JS.value) (rule : option Rule) :
  safe is_enforcement any_pending (perform cfg P g message analysis action duration rule).
Proof.
  unfold perform.
  destruct (JS.is_str action "timeout");
    [eapply safe_weaken; [| |apply _timeoutUser_safe]; auto; intros; exact I|].
  destruct (JS.is_str action "kick");
    [eapply safe_weaken; [| |apply _kickUser_safe]; auto; intros; exact I|].
  destruct (JS.is_str action "request_ban"); [apply _requestBan_safe|].
  apply safe_ret. intros; exact I.
Qed.

(** The warning branch, in full. *)
Lemma _takeAction_warn (cfg : Config) (P : Platform) (g : Guild) (message : Message)
    (analysis : Verdict) (w : World) :
  warns (resolvedAction cfg analysis)
    (default 0%nat (userWarnings w !! u_id (author message))) (settings cfg) = true ->
  exists w',
    _takeAction cfg P g message analysis w = (Ok tt, w') /\
    userWarnings w' =
      <[ u_id (author message) :=
           (default 0%nat (userWarnings w !! u_id (author message)) + 1)%nat ]>
        (userWarnings w) /\
    trace w' = trace w ++
               (if JS.truthy (replyMessage analysis) then [EReply] else []) ++
               [EStatus "action"] /\
    audit w' = audit w ++
               [LModAction "warn" (u_id (author message)) (primaryViolation analysis)
                  (severity_or (primaryRule cfg analysis) "low") JS.VNull] /\
    actionCount w' = S (actionCount w) /\
    pendingBans w' = pendingBans w.
Proof.
  intros Hw. unfold _takeAction, warnUser, AIEngine.addWarning, AIEngine.getWarningCount.
  unfold_monad. simpl. rewrite Hw. simpl.
  destruct (JS.truthy (replyMessage analysis)); simpl;
    [destruct (respond P EReply); simpl|];
    eexists; (split; [reflexivity|]); simpl; rewrite <- ?app_assoc;
    repeat split; reflexivity.
Qed.

(** The other branch: the deletion is attempted, then the run goes on from
    there whatever the deletion did. *)
Lemma _takeAction_enforce (cfg : Config) (P : Platform) (g : Guild) (message : Message)
    (analysis : Verdict) (w : World) :
  warns (resolvedAction cfg analysis)
    (default 0%nat (userWarnings w !! u_id (author message))) (settings cfg) = false ->
  _takeAction cfg P g message analysis w =
    afterDelete cfg P g message analysis (resolvedAction cfg analysis)
      (resolvedDuration cfg analysis) (primaryRule cfg analysis)
      (advance w [EDelete] (deleteLogs P)).
Proof.
  intros Hw. unfold _takeAction, AIEngine.getWarningCount, deleteLogs.
  unfold_monad. simpl. rewrite Hw.
  destruct (respond P EDelete); simpl; [reflexivity|].
  now rewrite advance_no_logs.
Qed.

Lemma afterDelete_run (cfg : Config) (P : Platform) (g : Guild) (message : Message)
    (analysis : Verdict) (action duration : JS.value) (rule : option Rule) (w : World) :
  exists w1 w2 tail,
    perform cfg P g message analysis action duration rule w = (Ok tt, w1) /\
    step is_enforcement any_pending w w1 /\
    afterDelete cfg P g message analysis action duration rule w = (Ok tt, w2) /\
    userWarnings w2 = userWarnings w1 /\
    pendingBans w2 = pendingBans w1 /\
    audit w2 = audit w1 /\
    actionCount w2 = S (actionCount w1) /\
    trace w2 = trace w1 ++ tail /\
    Forall is_enforcement tail.
Proof.
  destruct (perform_safe cfg P g message analysis action duration rule w) as [Hok Hs].
  unfold afterDelete. unfold_monad.
  destruct (perform cfg P g message analysis action duration rule w) as [r w1] eqn:E.
  simpl in *. destruct r as [[]|e]; [|discriminate].
  exists w1.
  destruct (dmOnAction (settings cfg) && negb (JS.is_str action "warn")); simpl;
    [destruct (respond P EDmOffender); simpl|];
    eexists; eexists; (split; [reflexivity|]); (split; [assumption|]);
    (split; [reflexivity|]); simpl; rewrite <- ?app_assoc;
    repeat split; try reflexivity; repeat constructor.
Qed.




(** C8: an enforcement that ends in a warning (a resolved [warn], or a
    [timeout] softened because the count is below the threshold) awaits no
    deletion of the message.  Every other one attempts the deletion first
    and only once; a deletion that fails is logged, and the run then
    continues with the action proper exactly as it does after a deletion
    that succeeded. *)
Theorem warn_keeps_message_others_delete_first (cfg : Config) (P : Platform)
    (g : Guild) (message : Message) (analysis : Verdict) (w : World) :
  let n := default 0%nat (userWarnings w !! u_id (author message)) in
  let action := resolvedAction cfg analysis in
  let softened :=
    action = JS.VStr "warn" \/
    (action = JS.VStr "timeout" /\ Z.of_nat n < maxWarnings (settings cfg)) in
  let w' := snd (_takeAction cfg P g message analysis w) in
  fst (_takeAction cfg P g message analysis w) = Ok tt /\
  (softened ->
   exists evs, trace w' = trace w ++ evs /\ ~ In EDelete evs) /\
  (~ softened ->
   _takeAction cfg P g message analysis w =
     afterDelete cfg P g message analysis action (resolvedDuration cfg analysis)
       (primaryRule cfg analysis) (advance w [EDelete] (deleteLogs P)) /\
   (exists evs, trace w' = trace w ++ EDelete :: evs /\ Forall is_enforcement evs) /\
   (exists logs, audit w' = audit w ++ deleteLogs P ++ logs) /\
   (forall msg, respond P EDelete = Some msg ->
                In (LError msg "Failed to delete message") (audit w'))).
Proof.
  intros n action softened w'. subst w'.
  destruct (warns action n (settings cfg)) eqn:Hw.
  - destruct (_takeAction_warn cfg P g message analysis w Hw)
      as (w' & Hrun & _ & Ht & _).
    rewrite Hrun. simpl. split; [reflexivity|]. split.
    + intros _. eexists. split; [exact Ht|].
      destruct (JS.truthy (replyMessage analysis)); simpl;
        intros H; repeat (destruct H as [H|H]; try discriminate); auto.
    + intros Hn. exfalso. apply Hn. now apply warns_true_iff.
  - assert (Hns : ~ softened).
    { intros Hs. apply warns_true_iff in Hs. unfold action, n in *. congruence. }
    pose proof (_takeAction_enforce cfg P g message analysis w Hw) as Heq.
    destruct (afterDelete_run cfg P g message analysis action
                (resolvedDuration cfg analysis) (primaryRule cfg analysis)
                (advance w [EDelete] (deleteLogs P)))
      as (w1 & w2 & tail & Hp & Hs & Hrun & _ & _ & Ha & _ & Ht & Htail).
    fold action in Heq. rewrite Heq, Hrun. simpl.
    split; [reflexivity|]. split; [intros Hs'; contradiction|]. intros _.
    assert (Htr : exists evs, trace w2 = trace w ++ EDelete :: evs /\
                              Forall is_enforcement evs).
    { destruct Hs as (_ & _ & _ & _ & _ & (evs & He & Hq) & _).
      exists (evs ++ tail). split.
      - rewrite Ht, He. simpl. now rewrite <- !app_assoc.
      - apply Forall_app. now split. }
    assert (Hau : exists logs, audit w2 = audit w ++ deleteLogs P ++ logs).
    { destruct Hs as (_ & _ & _ & _ & _ & _ & (logs & Hl)).
      exists logs. rewrite Ha, Hl. simpl. now rewrite <- app_assoc. }
    split; [reflexivity|]. split; [exact Htr|]. split; [exact Hau|].
    intros msg Hd. destruct Hau as (logs & ->). unfold deleteLogs. rewrite Hd.
    apply in_or_app. right. now left.
Qed.


Lemma not_warns (action : JS.value) (n : nat) (s : Settings) :
  action <> JS.VStr "warn" ->
  (action = JS.VStr "timeout" -> maxWarnings s <= Z.of_nat n) ->
  warns action n s = false.
Proof.
  intros Hnw Ht. destruct (warns action n s) eqn:E; [|reflexivity].
  apply warns_true_iff in E as [E | [E Hlt]]; [contradiction|].
  specialize (Ht E). lia.
Qed.



(** ** The scenarios of the design, run *)


(** A first offence keeps the message; at count 2 the message is deleted
    first, and a deletion the platform refuses is logged. *)
Lemma warn_keeps_message_others_delete_first_witness :
  (exists evs,
     trace (snd (_takeAction (Scenario.config [Scenario.spam])
                   (Scenario.platform Scenario.no_delete Scenario.silent)
                   Scenario.home Scenario.post
                   (Scenario.verdict "spam" Scenario.seconds600) empty_world))
     = evs /\ ~ In EDelete evs) /\
  (exists evs,
     trace (snd (_takeAction (Scenario.config [Scenario.spam])
                   (Scenario.platform Scenario.no_delete Scenario.silent)
                   Scenario.home Scenario.post
                   (Scenario.verdict "spam" Scenario.seconds600) (Scenario.warned 2)))
     = EDelete :: evs /\ Forall is_enforcement evs) /\
  In (LError "Unknown Message" "Failed to delete message")
    (audit (snd (_takeAction (Scenario.config [Scenario.spam])
                   (Scenario.platform Scenario.no_delete Scenario.silent)
                   Scenario.home Scenario.post
                   (Scenario.verdict "spam" Scenario.seconds600) (Scenario.warned 2)))).
Proof.
  split; [|split].
  - pose proof (warn_keeps_message_others_delete_first (Scenario.config [Scenario.spam])
                  (Scenario.platform Scenario.no_delete Scenario.silent)
                  Scenario.home Scenario.post
                  (Scenario.verdict "spam" Scenario.seconds600) empty_world) as H.
    cbv zeta in H. destruct H as (_ & H & _).
    destruct H as (evs & He & Hn); [right; split; reflexivity|].
    exists evs. split; assumption.
  - pose proof (warn_keeps_message_others_delete_first (Scenario.config [Scenario.spam])
                  (Scenario.platform Scenario.no_delete Scenario.silent)
                  Scenario.home Scenario.post
                  (Scenario.verdict "spam" Scenario.seconds600) (Scenario.warned 2)) as H.
    cbv zeta in H. destruct H as (_ & _ & H).
    destruct H as (_ & Ht & _).
    { intros [Hs | [_ Hs]]; [discriminate Hs | vm_compute in Hs; discriminate Hs]. }
    exact Ht.
  - pose proof (warn_keeps_message_others_delete_first (Scenario.config [Scenario.spam])
                  (Scenario.platform Scenario.no_delete Scenario.silent)
                  Scenario.home Scenario.post
                  (Scenario.verdict "spam" Scenario.seconds600) (Scenario.warned 2)) as H.
    cbv zeta in H. destruct H as (_ & _ & H).
    destruct H as (_ & _ & _ & Hl).
    { intros [Hs | [_ Hs]]; [discriminate Hs | vm_compute in Hs; discriminate Hs]. }
    apply Hl. reflexivity.
Defined.

(** Scenario 3: the rule asks for a ban and the offender is kickable: the
    kick comes first and the stored request says [kicked]. *)
Lemma ban_request_restraint_witness :
  exists w' rest e,
    _requestBan (Scenario.config [Scenario.threats])
      (Scenario.platform Scenario.all_fine Scenario.silent)
      Scenario.home Scenario.post
      (Scenario.verdict "threats" JS.zero) empty_world = (Ok tt, w') /\
    pendingBans w' !! "42_7" = Some e /\
    pb_kicked e = true /\
    trace w' = EKick "42" :: rest.
Proof.
  destruct (ban_request_restraint (Scenario.config [Scenario.threats])
              (Scenario.platform Scenario.all_fine Scenario.silent)
              Scenario.home Scenario.post
              (Scenario.verdict "threats" JS.zero) empty_world
              Scenario.offender_member eq_refl eq_refl)
    as (w' & rest & e & Hrun & Hp & _ & _ & _ & Hk & _).
  destruct (Hk eq_refl) as [Ht Hkk].
  exists w', rest, e. split; [exact Hrun|]. split; [exact Hp|].
  split; [apply Hkk; reflexivity | exact Ht].
Defined.

(** The chain when nothing can be sent, and when the first send goes
    through. *)
Lemma ban_request_delivery_chain_witness :
  (exists w',
     _requestBan (Scenario.config [Scenario.threats])
       (Scenario.platform Scenario.no_delivery Scenario.silent)
       Scenario.home Scenario.post
       (Scenario.verdict "threats" JS.zero) empty_world = (Ok tt, w') /\
     deliveries (trace w') =
       [ViaDM "1"; ViaModChannel "101"; ViaViolationChannel; ViaAnyChannel "100"] /\
     (pb_delivered <$> pendingBans w' !! "42_7") = Some false /\
     In (exhausted Scenario.post) (audit w')) /\
  (exists w',
     _requestBan (Scenario.config [Scenario.threats])
       (Scenario.platform Scenario.all_fine Scenario.silent)
       Scenario.home Scenario.post
       (Scenario.verdict "threats" JS.zero) empty_world = (Ok tt, w') /\
     deliveries (trace w') = [ViaDM "1"] /\
     (pb_delivered <$> pendingBans w' !! "42_7") = Some true).
Proof.
  split.
  - destruct (ban_request_delivery_chain (Scenario.config [Scenario.threats])
                (Scenario.platform Scenario.no_delivery Scenario.silent)
                Scenario.home Scenario.post
                (Scenario.verdict "threats" JS.zero) empty_world eq_refl)
      as (admin & w' & Hrun & Hadm & Hd & _ & _ & Hp & _ & Hfail).
    vm_compute in Hadm. injection Hadm as <-.
    destruct (Hfail eq_refl) as (_ & _ & Hlog).
    exists w'. split; [exact Hrun|]. split; [exact Hd|]. split; [|exact Hlog].
    exact (f_equal (fmap pb_delivered) Hp).
  - destruct (ban_request_delivery_chain (Scenario.config [Scenario.threats])
                (Scenario.platform Scenario.all_fine Scenario.silent)
                Scenario.home Scenario.post
                (Scenario.verdict "threats" JS.zero) empty_world eq_refl)
      as (admin & w' & Hrun & Hadm & Hd & _ & _ & Hp & Hsucc & _).
    vm_compute in Hadm. injection Hadm as <-.
    destruct (Hsucc eq_refl) as (failed & s & rest & _ & Hatt & _ & _ & Hlen).
    exists w'. split; [exact Hrun|]. split; [exact Hd|].
    exact (f_equal (fmap pb_delivered) Hp).
Defined.

(** * The rest of the code *)

(** ** The warning ledger of [AIEngine] *)

Lemma warningsOf_insert (userId other : string) (n : nat) (w : World) :
  warningsOf (set_userWarnings (fun uw => <[ userId := n ]> uw) w) other =
    if bool_decide (other = userId) then n else warningsOf w other.
Proof.
  unfold warningsOf. simpl. case_bool_decide as E.
  - subst. now rewrite lookup_insert_eq.
  - now rewrite lookup_insert_ne by congruence.
Qed.

Lemma addWarning_run (userId : string) (w : World) :
  AIEngine.addWarning userId w =
    (Ok (warningsOf w userId + 1)%nat,
     set_userWarnings (fun uw => <[ userId := (warningsOf w userId + 1)%nat ]> uw) w).
Proof. reflexivity. Qed.

Lemma addWarnings_run (k : nat) (userId : string) (w : World) :
  exists w',
    addWarnings k userId w = (Ok tt, w') /\
    warningsOf w' userId = (warningsOf w userId + k)%nat /\
    forall other, other <> userId -> warningsOf w' other = warningsOf w other.
Proof.
  revert w. induction k as [|k IH]; intros w.
  - exists w. simpl. repeat split; auto.
  - simpl. unfold_monad. rewrite addWarning_run.
    destruct (IH (set_userWarnings
                    (fun uw => <[ userId := (warningsOf w userId + 1)%nat ]> uw) w))
      as (w' & Hrun & Hc & Ho).
    exists w'. split; [exact Hrun|]. split.
    + rewrite Hc, warningsOf_insert. rewrite bool_decide_true by reflexivity. lia.
    + intros other Hne. rewrite (Ho other Hne), warningsOf_insert.
      now rewrite bool_decide_false.
Qed.

(** X1: the ledger counts.  After [k] calls of [addWarning] for a user,
    [getWarningCount] returns the earlier count plus [k] and the next
    [addWarning] returns one more; the count of every other user is what it
    was.  [resetWarnings] brings the count of the user back to 0, leaves the
    others alone, and the first [addWarning] after it returns 1. *)
Theorem warning_ledger_round_trip (userId other : string) (k : nat) (w : World) :
  other <> userId ->
  exists w1 w2,
    addWarnings k userId w = (Ok tt, w1) /\
    fst (AIEngine.getWarningCount userId w1) = Ok (warningsOf w userId + k)%nat /\
    fst (AIEngine.addWarning userId w1) = Ok (warningsOf w userId + k + 1)%nat /\
    fst (AIEngine.getWarningCount other w1) = fst (AIEngine.getWarningCount other w) /\
    AIEngine.resetWarnings userId w1 = (Ok tt, w2) /\
    fst (AIEngine.getWarningCount userId w2) = Ok 0%nat /\
    fst (AIEngine.getWarningCount other w2) = fst (AIEngine.getWarningCount other w) /\
    fst (AIEngine.addWarning userId w2) = Ok 1%nat.
Proof.
  intros Hne. destruct (addWarnings_run k userId w) as (w1 & Hrun & Hc & Ho).
  exists w1, (set_userWarnings (fun uw => delete userId uw) w1).
  split; [exact Hrun|].
  split; [unfold AIEngine.getWarningCount, reads; simpl; f_equal; exact Hc|].
  split; [rewrite addWarning_run; simpl; now rewrite Hc|].
  split; [unfold AIEngine.getWarningCount, reads; simpl; f_equal; exact (Ho other Hne)|].
  split; [reflexivity|].
  split; [unfold AIEngine.getWarningCount, reads; simpl; now rewrite lookup_delete_eq|].
  split.
  - unfold AIEngine.getWarningCount, reads. simpl. f_equal.
    rewrite lookup_delete_ne by congruence. exact (Ho other Hne).
  - rewrite addWarning_run. simpl. unfold warningsOf. simpl.
    now rewrite lookup_delete_eq.
Qed.

Lemma warning_ledger_round_trip_witness :
  exists w1 w2,
    addWarnings 3 "42" (Scenario.warned 1) = (Ok tt, w1) /\
    fst (AIEngine.getWarningCount "42" w1) = Ok 4%nat /\
    fst (AIEngine.addWarning "42" w1) = Ok 5%nat /\
    fst (AIEngine.getWarningCount "43" w1) = Ok 0%nat /\
    AIEngine.resetWarnings "42" w1 = (Ok tt, w2) /\
    fst (AIEngine.getWarningCount "42" w2) = Ok 0%nat /\
    fst (AIEngine.getWarningCount "43" w2) = Ok 0%nat /\
    fst (AIEngine.addWarning "42" w2) = Ok 1%nat.
Proof.
  apply (warning_ledger_round_trip "42" "43" 3 (Scenario.warned 1)).
  discriminate.
Defined.

(** ** The channel context of [AIEngine] *)

Lemma contextOf_tracked (channelId other : string) (message : Message) (w : World) :
  contextOf (snd (AIEngine._trackMessage channelId message w)) other =
    if bool_decide (other = channelId) then
      let msgs := contextOf w channelId ++ [contextLine message] in
      if (AIEngine.maxContext <? length msgs)%nat then tail msgs else msgs
    else contextOf w other.
Proof.
  unfold contextOf, AIEngine._trackMessage, modify. simpl. case_bool_decide as E.
  - subst. now rewrite lookup_insert_eq.
  - now rewrite lookup_insert_ne by congruence.
Qed.

Lemma boundedContext_alt (w : World) :
  boundedContext w <-> forall ch, (length (contextOf w ch) <= AIEngine.maxContext)%nat.
Proof.
  unfold boundedContext, contextOf. split.
  - intros H ch. destruct (recentMessages w !! ch) as [msgs|] eqn:E; simpl.
    + exact (H ch msgs E).
    + unfold AIEngine.maxContext. lia.
  - intros H ch msgs E. specialize (H ch). now rewrite E in H.
Qed.

Lemma _trackMessage_bounded (channelId : string) (message : Message) (w : World) :
  boundedContext w -> boundedContext (snd (AIEngine._trackMessage channelId message w)).
Proof.
  rewrite !boundedContext_alt. intros H ch. rewrite contextOf_tracked.
  case_bool_decide; [|apply H]. specialize (H channelId). cbv zeta.
  destruct (Nat.ltb_spec AIEngine.maxContext
              (length (contextOf w channelId ++ [contextLine message]))) as [Hlt|Hle];
    [|exact Hle].
  revert Hlt H. destruct (contextOf w channelId) as [|c l]; simpl.
  - unfold AIEngine.maxContext. lia.
  - rewrite !length_app. simpl. lia.
Qed.

(** X2: the context of a channel is a window on its last [maxContext]
    messages.  In a world where no channel remembers more than 10 messages,
    tracking a message leaves every channel within 10; the channel of the
    message ends with the new line, preceded by what it remembered, without
    its oldest line when it was full; the other channels are untouched. *)
Theorem context_window_slides (channelId : string) (message : Message) (w : World) :
  boundedContext w ->
  let w' := snd (AIEngine._trackMessage channelId message w) in
  fst (AIEngine._trackMessage channelId message w) = Ok tt /\
  boundedContext w' /\
  contextOf w' channelId =
    (if (length (contextOf w channelId) <? AIEngine.maxContext)%nat
     then contextOf w channelId
     else tail (contextOf w channelId)) ++ [contextLine message] /\
  (forall other, other <> channelId -> contextOf w' other = contextOf w other) /\
  userWarnings w' = userWarnings w /\ trace w' = trace w /\ audit w' = audit w.
Proof.
  intros Hb. cbv zeta. split; [reflexivity|].
  split; [now apply _trackMessage_bounded|].
  split; [|split; [|repeat split]].
  - rewrite contextOf_tracked, bool_decide_true by reflexivity. cbv zeta.
    apply boundedContext_alt with (ch := channelId) in Hb.
    rewrite length_app. simpl.
    destruct (Nat.ltb_spec (length (contextOf w channelId)) AIEngine.maxContext) as [Hlt|Hge].
    + destruct (Nat.ltb_spec AIEngine.maxContext (length (contextOf w channelId) + 1));
        [lia|reflexivity].
    + destruct (Nat.ltb_spec AIEngine.maxContext (length (contextOf w channelId) + 1));
        [|lia].
      destruct (contextOf w channelId); [simpl in Hge; unfold AIEngine.maxContext in Hge; lia|].
      reflexivity.
  - intros other Hne. rewrite contextOf_tracked. now rewrite bool_decide_false.
Qed.

Lemma context_window_slides_witness :
  contextOf (snd (AIEngine._trackMessage "100" Scenario.post Cases.full_channel)) "100" =
    map Cases.line ["2"; "3"; "4"; "5"; "6"; "7"; "8"; "9"; "10"] ++
    [contextLine Scenario.post] /\
  boundedContext (snd (AIEngine._trackMessage "100" Scenario.post Cases.full_channel)).
Proof.
  assert (Hb : boundedContext Cases.full_channel).
  { intros ch msgs H. unfold Cases.full_channel in H. simpl in H.
    apply lookup_singleton_Some in H as [_ <-].
    unfold AIEngine.maxContext. simpl. lia. }
  destruct (context_window_slides "100" Scenario.post Cases.full_channel Hb)
    as (_ & Hb' & Hc & _).
  split; [exact Hc | exact Hb'].
Defined.

(** ** What one run of a handler changes *)

Lemma afterDelete_frame (cfg : Config) (P : Platform) (g : Guild) (message : Message)
    (analysis : Verdict) (action duration : JS.value) (rule : option Rule) (w : World) :
  exists w1,
    perform cfg P g message analysis action duration rule w = (Ok tt, w1) /\
    step is_enforcement any_pending w w1 /\
    afterDelete cfg P g message analysis action duration rule w =
      (Ok tt, set_trace (fun t => t ++ noticeEvents cfg action ++ [EStatus "action"])
                (set_actionCount S w1)).
Proof.
  destruct (perform_safe cfg P g message analysis action duration rule w) as [Hok Hs].
  unfold afterDelete, noticeEvents. unfold_monad.
  destruct (perform cfg P g message analysis action duration rule w) as [r w1] eqn:E.
  simpl in *. destruct r as [[]|e]; [|discriminate].
  exists w1. split; [reflexivity|]. split; [assumption|].
  destruct (dmOnAction (settings cfg) && negb (JS.is_str action "warn")); simpl;
    [destruct (respond P EDmOffender); simpl|];
    unfold emit, modify, set_trace, set_actionCount; simpl; rewrite <- ?app_assoc;
    reflexivity.
Qed.

(** Whatever the platform answers, [_takeAction] returns; it counts one
    action, moves the ledger by one warning of the author or not at all, and
    leaves the channel context and the message counter alone. *)
Lemma _takeAction_frame (cfg : Config) (P : Platform) (g : Guild) (message : Message)
    (analysis : Verdict) (w : World) :
  exists w',
    _takeAction cfg P g message analysis w = (Ok tt, w') /\
    recentMessages w' = recentMessages w /\
    messageCount w' = messageCount w /\
    actionCount w' = S (actionCount w) /\
    userWarnings w' =
      (if warns (resolvedAction cfg analysis) (warningsOf w (u_id (author message)))
            (settings cfg)
       then <[ u_id (author message) := (warningsOf w (u_id (author message)) + 1)%nat ]>
              (userWarnings w)
       else userWarnings w) /\
    (exists evs, trace w' = trace w ++ evs) /\
    (exists logs, audit w' = audit w ++ logs).
Proof.
  unfold warningsOf.
  destruct (warns (resolvedAction cfg analysis)
              (default 0%nat (userWarnings w !! u_id (author message))) (settings cfg))
    eqn:Hw.
  - unfold _takeAction, warnUser, AIEngine.addWarning, AIEngine.getWarningCount.
    unfold_monad. simpl. rewrite Hw. simpl.
    destruct (JS.truthy (replyMessage analysis)); simpl;
      [destruct (respond P EReply); simpl|];
      eexists; (split; [reflexivity|]); simpl; rewrite <- ?app_assoc;
      repeat split; eauto.
  - rewrite (_takeAction_enforce cfg P g message analysis w Hw).
    destruct (afterDelete_frame cfg P g message analysis (resolvedAction cfg analysis)
                (resolvedDuration cfg analysis) (primaryRule cfg analysis)
                (advance w [EDelete] (deleteLogs P)))
      as (w1 & _ & Hs & ->).
    destruct Hs as (Hu & Hr & Hm & Ha & _ & (evs & Ht & _) & (logs & Hl)).
    eexists. split; [reflexivity|]. simpl in *.
    rewrite Hu, Hr, Hm, Ha, Ht, Hl. repeat split.
    + rewrite <- !app_assoc. eauto.
    + rewrite <- !app_assoc. eauto.
Qed.

Section HandlerFrame.
Variable StringToNumber : string -> JS.number.
Variable NumberToString : JS.number -> string.

(** [analyzeMessage] returns a verdict whatever the classifier does; it
    tracks the message or leaves the context alone, and touches neither the
    ledger nor the counters nor the pending bans. *)
Lemma analyzeMessage_frame (cfg : Config) (P : Platform) (message : Message) (w : World) :
  exists v w',
    AIEngine.analyzeMessage StringToNumber NumberToString cfg P message w = (Ok v, w') /\
    userWarnings w' = userWarnings w /\
    pendingBans w' = pendingBans w /\
    messageCount w' = messageCount w /\
    actionCount w' = actionCount w /\
    (recentMessages w' = recentMessages w \/
     recentMessages w' =
       recentMessages (snd (AIEngine._trackMessage (channelKey message) message w))) /\
    (exists evs, trace w' = trace w ++ evs) /\
    (exists logs, audit w' = audit w ++ logs).
Proof.
  unfold AIEngine.analyzeMessage, channelKey.
  destruct (AIEngine.enabledRules cfg) as [|r rs]; simpl.
  { eexists _, _. split; [reflexivity|]. repeat split; auto.
    - exists []. now rewrite app_nil_r.
    - exists []. now rewrite app_nil_r. }
  unfold AIEngine.request, AIEngine._trackMessage. unfold_monad.
  destruct (classifier P) as [m| |m|fields]; simpl;
    try (eexists _, _; split; [reflexivity|]; simpl; repeat split; eauto).
  destruct (AIEngine.normalize StringToNumber NumberToString fields); simpl;
    eexists _, _; (split; [reflexivity|]); simpl; repeat split; eauto.
Qed.

(** One handled message, whatever happens: nothing is raised past the
    door; the message counter moves by at most one and the action counter by
    no more than the message counter; the ledger is kept or holds one more
    warning of the author; the context is kept or holds the message. *)
Lemma _handleMessage_frame (cfg : Config) (P : Platform) (message : Message) (w : World) :
  exists r w',
    _handleMessage StringToNumber NumberToString cfg P message w = (r, w') /\
    (r = Ok tt \/ exists e, exempt (settings cfg) message = Throw e /\ r = Throw e) /\
    (messageCount w <= messageCount w' <= S (messageCount w))%nat /\
    (actionCount w <= actionCount w')%nat /\
    (actionCount w' - actionCount w <= messageCount w' - messageCount w)%nat /\
    (userWarnings w' = userWarnings w \/
     userWarnings w' =
       <[ u_id (author message) := (warningsOf w (u_id (author message)) + 1)%nat ]>
         (userWarnings w)) /\
    (recentMessages w' = recentMessages w \/
     recentMessages w' =
       recentMessages (snd (AIEngine._trackMessage (channelKey message) message w))) /\
    (exists evs, trace w' = trace w ++ evs) /\
    (exists logs, audit w' = audit w ++ logs).
Proof.
  assert (Hnil : forall A (l : list A), exists x, l = l ++ x)
    by (intros A l; exists []; now rewrite app_nil_r).
  assert (Hsame : forall r, r = Ok tt ->
            exists r' w',
              (r, w) = (r', w') /\
              (r' = Ok tt \/
               exists e, exempt (settings cfg) message = Throw e /\ r' = Throw e) /\
              (messageCount w <= messageCount w' <= S (messageCount w))%nat /\
              (actionCount w <= actionCount w')%nat /\
              (actionCount w' - actionCount w <= messageCount w' - messageCount w)%nat /\
              (userWarnings w' = userWarnings w \/
               userWarnings w' =
                 <[ u_id (author message) :=
                      (warningsOf w (u_id (author message)) + 1)%nat ]>
                   (userWarnings w)) /\
              (recentMessages w' = recentMessages w \/
               recentMessages w' =
                 recentMessages
                   (snd (AIEngine._trackMessage (channelKey message) message w))) /\
              (exists evs, trace w' = trace w ++ evs) /\
              (exists logs, audit w' = audit w ++ logs)).
  { intros r ->. exists (Ok tt), w. repeat split; auto; lia. }
  destruct (u_bot (author message) || system message) eqn:Hdoor.
  { unfold _handleMessage. rewrite Hdoor. now apply Hsame. }
  destruct (guild message) as [g|] eqn:Hg;
    [|unfold _handleMessage; rewrite Hdoor, Hg; now apply Hsame].
  clear Hsame. apply orb_false_iff in Hdoor as [Hbot Hsys].
  rewrite (exempt_run StringToNumber NumberToString cfg P message g w
             (conj Hbot (conj Hsys Hg))).
  assert (Hskip : forall r,
            (r = Ok tt \/
             exists e, exempt (settings cfg) message = Throw e /\ r = Throw e) ->
            exists r' w',
              (r, counted w) = (r', w') /\
              (r' = Ok tt \/
               exists e, exempt (settings cfg) message = Throw e /\ r' = Throw e) /\
              (messageCount w <= messageCount w' <= S (messageCount w))%nat /\
              (actionCount w <= actionCount w')%nat /\
              (actionCount w' - actionCount w <= messageCount w' - messageCount w)%nat /\
              (userWarnings w' = userWarnings w \/
               userWarnings w' =
                 <[ u_id (author message) :=
                      (warningsOf w (u_id (author message)) + 1)%nat ]>
                   (userWarnings w)) /\
              (recentMessages w' = recentMessages w \/
               recentMessages w' =
                 recentMessages
                   (snd (AIEngine._trackMessage (channelKey message) message w))) /\
              (exists evs, trace w' = trace w ++ evs) /\
              (exists logs, audit w' = audit w ++ logs)).
  { intros r Hr. exists r, (counted w). unfold counted. simpl.
    repeat split; eauto; lia. }
  destruct (exempt (settings cfg) message) as [[]|e] eqn:Hex;
    [apply Hskip; now left| |apply Hskip; right; now exists e].
  clear Hskip. unfold try_catch, mbind, M_bind.
  destruct (analyzeMessage_frame cfg P message (counted w))
    as (v & w1 & Hrun & Hu & _ & Hm & Ha & Hr & (evs & Ht) & (logs & Hl)).
  rewrite Hrun.
  assert (Hr' : recentMessages w1 = recentMessages w \/
                recentMessages w1 =
                  recentMessages (snd (AIEngine._trackMessage (channelKey message) message w))).
  { destruct Hr as [-> | ->]; [left|right]; reflexivity. }
  unfold counted in Hu, Hm, Ha, Ht, Hl. simpl in Hu, Hm, Ha, Ht, Hl.
  destruct (flagged v && JS.lt JS.c0_7 (confidence v)); simpl.
  - destruct (_takeAction_frame cfg P g message v w1)
      as (w2 & Hrun2 & Hr2 & Hm2 & Ha2 & Hu2 & (evs2 & Ht2) & (logs2 & Hl2)).
    rewrite Hrun2. exists (Ok tt), w2. split; [reflexivity|].
    split; [now left|].
    rewrite Hm2, Ha2, Hr2, Ht2, Hl2, Hm, Ha, Ht, Hl.
    split; [lia|]. split; [lia|]. split; [lia|].
    split.
    { unfold warningsOf in *. rewrite Hu in Hu2. rewrite Hu2.
      destruct (warns _ _ _); [right|left]; reflexivity. }
    split; [exact Hr'|].
    rewrite <- !app_assoc. eauto.
  - exists (Ok tt), w1. split; [reflexivity|]. split; [now left|].
    rewrite Hm, Ha, Ht, Hl, Hu.
    split; [lia|]. split; [lia|]. split; [lia|].
    split; [now left|]. split; [exact Hr'|].
    rewrite <- !app_assoc. eauto.
Qed.

End HandlerFrame.

(** ** Messages that are counted and go no further *)

(** X3: a message that the checks of lines 113-124 find in an ignored
    channel, or by a member with an ignored or a trusted role, is counted and
    announced to the status listeners, and that is all: the classifier is not
    called, the message is not tracked in the channel context, nothing is
    audited, no action is taken. *)
Theorem exempt_messages_are_only_counted
    (StringToNumber : string -> JS.number) (NumberToString : JS.number -> string)
    (cfg : Config) (P : Platform) (message : Message) (g : Guild) (w : World) :
  eligible message g ->
  exempt (settings cfg) message = Ok true ->
  _handleMessage StringToNumber NumberToString cfg P message w = (Ok tt, counted w) /\
  messageCount (counted w) = S (messageCount w) /\
  trace (counted w) = trace w ++ [EStatus "message"] /\
  recentMessages (counted w) = recentMessages w /\
  audit (counted w) = audit w /\
  actionCount (counted w) = actionCount w.
Proof.
  intros Ha Hex. split; [|repeat split].
  rewrite (exempt_run StringToNumber NumberToString cfg P message g w Ha), Hex.
  reflexivity.
Qed.

Lemma exempt_messages_are_only_counted_witness :
  _handleMessage Scenario.parse_0_9 Scenario.no_print
    (Cases.quiet_config [Scenario.spam])
    (Scenario.platform Scenario.all_fine (Parsed Scenario.reply_confidence_true))
    Scenario.post empty_world = (Ok tt, counted empty_world).
Proof.
  apply (exempt_messages_are_only_counted Scenario.parse_0_9 Scenario.no_print
           (Cases.quiet_config [Scenario.spam])
           (Scenario.platform Scenario.all_fine (Parsed Scenario.reply_confidence_true))
           Scenario.post Scenario.home empty_world).
  - repeat split.
  - reflexivity.
Defined.

(** X4: with no rule enabled, [analyzeMessage] answers at once with the
    verdict "No rules enabled": the world is what it was, so the classifier
    is not called, the message is not tracked and nothing is audited; the
    handler then only counts the message, and it returns unless one of the
    three id lists of the settings could not be consulted at the door. *)
Theorem no_enabled_rule_no_classification
    (StringToNumber : string -> JS.number) (NumberToString : JS.number -> string)
    (cfg : Config) (P : Platform) (message : Message) (w : World) :
  Forall (fun r => r_enabled r = false) (rules cfg) ->
  AIEngine.analyzeMessage StringToNumber NumberToString cfg P message w =
    (Ok AIEngine.no_rules_verdict, w) /\
  forall g,
    eligible message g ->
    _handleMessage StringToNumber NumberToString cfg P message w =
      (match exempt (settings cfg) message with
       | Ok _ => Ok tt
       | Throw e => Throw e
       end, counted w).
Proof.
  intros Hoff.
  assert (Hen : AIEngine.enabledRules cfg = []).
  { unfold AIEngine.enabledRules. induction Hoff as [|r rs Hr _ IH]; simpl; [reflexivity|].
    now rewrite Hr. }
  assert (Hrun : forall w0,
             AIEngine.analyzeMessage StringToNumber NumberToString cfg P message w0 =
               (Ok AIEngine.no_rules_verdict, w0)).
  { intros w0. unfold AIEngine.analyzeMessage. now rewrite Hen. }
  split; [apply Hrun|].
  intros g Ha.
  rewrite (exempt_run StringToNumber NumberToString cfg P message g w Ha).
  destruct (exempt (settings cfg) message) as [[]|e]; try reflexivity.
  unfold_monad. now rewrite Hrun.
Qed.

Lemma no_enabled_rule_no_classification_witness :
  _handleMessage Scenario.parse_0_9 Scenario.no_print
    (Scenario.config [Cases.switched_off])
    (Scenario.platform Scenario.all_fine (Parsed Scenario.reply_confidence_true))
    Scenario.post empty_world = (Ok tt, counted empty_world).
Proof.
  destruct (no_enabled_rule_no_classification Scenario.parse_0_9 Scenario.no_print
              (Scenario.config [Cases.switched_off])
              (Scenario.platform Scenario.all_fine (Parsed Scenario.reply_confidence_true))
              Scenario.post empty_world) as [_ H].
  - repeat constructor.
  - apply (H Scenario.home). repeat split.
Defined.

(** ** Replies that are not acted upon *)

(** X5: only the boolean [true] flags.  When the reply of the classifier
    carries anything else under [flagged] (the string "true", 1, nothing),
    the verdict is not flagged whatever the confidence says, the analysis is
    audited as not flagged, and the handler takes no action: it awaits
    nothing after the classifier, and the ledger, the pending bans and the
    action counter are what they were. *)
Theorem only_true_flags
    (StringToNumber : string -> JS.number) (NumberToString : JS.number -> string)
    (cfg : Config) (P : Platform) (message : Message) (g : Guild)
    (fields : list (string * JS.value)) (w : World) :
  AIEngine.enabledRules cfg <> [] ->
  classifier P = Parsed fields ->
  JS.get fields "flagged" <> JS.VBool true ->
  eligible message g ->
  exempt (settings cfg) message = Ok false ->
  exists v w',
    AIEngine.normalize StringToNumber NumberToString fields = Ok v /\
    flagged v = false /\
    _handleMessage StringToNumber NumberToString cfg P message w = (Ok tt, w') /\
    trace w' = trace w ++ [EStatus "message"; EClassify] /\
    audit w' = audit w ++ [LAiAnalysis (u_id (author message)) false (confidence v)] /\
    userWarnings w' = userWarnings w /\
    pendingBans w' = pendingBans w /\
    actionCount w' = actionCount w.
Proof.
  intros Hen Hc Hf Ha Hex.
  assert (Hnt : JS.is_true (JS.get fields "flagged") = false).
  { destruct (JS.is_true (JS.get fields "flagged")) eqn:E; [|reflexivity].
    apply is_true_inv in E. contradiction. }
  rewrite (exempt_run StringToNumber NumberToString cfg P message g w Ha), Hex.
  unfold AIEngine.analyzeMessage, AIEngine.normalize.
  destruct (AIEngine.enabledRules cfg) as [|r rs]; [contradiction|]. simpl.
  unfold AIEngine.request, AIEngine._trackMessage, counted. unfold_monad.
  rewrite Hc. simpl. rewrite !Hnt. simpl.
  eexists _, _. split; [reflexivity|]. simpl. split; [reflexivity|].
  split; [reflexivity|]. simpl. rewrite <- app_assoc. repeat split; reflexivity.
Qed.

Lemma only_true_flags_witness :
  exists v w',
    AIEngine.normalize Scenario.parse_0_9 Scenario.no_print Cases.reply_flagged_string = Ok v /\
    flagged v = false /\
    _handleMessage Scenario.parse_0_9 Scenario.no_print
      (Scenario.config [Scenario.spam])
      (Scenario.platform Scenario.all_fine (Parsed Cases.reply_flagged_string))
      Scenario.post (Scenario.warned 2) = (Ok tt, w') /\
    trace w' = [EStatus "message"; EClassify] /\
    audit w' = [LAiAnalysis "42" false (confidence v)] /\
    userWarnings w' = userWarnings (Scenario.warned 2) /\
    pendingBans w' = pendingBans (Scenario.warned 2) /\
    actionCount w' = actionCount (Scenario.warned 2).
Proof.
  apply (only_true_flags Scenario.parse_0_9 Scenario.no_print
           (Scenario.config [Scenario.spam])
           (Scenario.platform Scenario.all_fine (Parsed Cases.reply_flagged_string))
           Scenario.post Scenario.home Cases.reply_flagged_string (Scenario.warned 2)).
  - simpl. discriminate.
  - reflexivity.
  - simpl. discriminate.
  - repeat split.
  - reflexivity.
Defined.

(** ** The actions of [_takeAction] *)

Lemma unknown_action_not_warns (action : JS.value) (n : nat) (s : Settings) :
  known_action action = false ->
  warns action n s = false /\
  JS.is_str action "timeout" = false /\ JS.is_str action "kick" = false /\
  JS.is_str action "request_ban" = false.
Proof.
  unfold known_action, warns. intros H.
  apply orb_false_iff in H as [H Hb]. apply orb_false_iff in H as [H Hk].
  apply orb_false_iff in H as [Hw Ht]. rewrite Hw, Ht. auto.
Qed.

(** X6: a resolved action that is none of [warn], [timeout], [kick] and
    [request_ban] (the [none] of a rule, or whatever the classifier
    suggested when no rule matches) still costs the message: the deletion is
    attempted, the offender is notified when [dmOnAction] is set, one action
    is counted, and nothing else happens; the member is not touched, the
    ledger is not touched and the audit holds no action entry. *)
Theorem unknown_action_only_deletes (cfg : Config) (P : Platform) (g : Guild)
    (message : Message) (analysis : Verdict) (w : World) :
  known_action (resolvedAction cfg analysis) = false ->
  _takeAction cfg P g message analysis w =
    (Ok tt, closeAction cfg (resolvedAction cfg analysis)
              (advance w [EDelete] (deleteLogs P))) /\
  trace (closeAction cfg (resolvedAction cfg analysis) (advance w [EDelete] (deleteLogs P))) =
    trace w ++ [EDelete] ++ (if dmOnAction (settings cfg) then [EDmOffender] else []) ++
    [EStatus "action"] /\
  audit (closeAction cfg (resolvedAction cfg analysis) (advance w [EDelete] (deleteLogs P))) =
    audit w ++ deleteLogs P /\
  actionCount
    (closeAction cfg (resolvedAction cfg analysis) (advance w [EDelete] (deleteLogs P))) =
    S (actionCount w).
Proof.
  intros Hk.
  destruct (unknown_action_not_warns (resolvedAction cfg analysis)
              (default 0%nat (userWarnings w !! u_id (author message))) (settings cfg) Hk)
    as (Hw & Ht & Hki & Hb).
  assert (Hnw : JS.is_str (resolvedAction cfg analysis) "warn" = false).
  { unfold known_action in Hk. apply orb_false_iff in Hk as [Hk _].
    apply orb_false_iff in Hk as [Hk _]. now apply orb_false_iff in Hk as [Hk _]. }
  split; [|split; [|split]].
  - rewrite (_takeAction_enforce cfg P g message analysis w Hw).
    unfold afterDelete, perform, closeAction, noticeEvents. rewrite Ht, Hki, Hb, Hnw.
    rewrite andb_true_r. unfold_monad.
    destruct (dmOnAction (settings cfg)); simpl;
      [destruct (respond P EDmOffender); simpl|];
      unfold emit, modify, set_trace, set_actionCount; simpl; rewrite <- ?app_assoc;
      reflexivity.
  - unfold closeAction, noticeEvents. rewrite Hnw, andb_true_r. simpl.
    now rewrite <- app_assoc.
  - reflexivity.
  - reflexivity.
Qed.

Lemma unknown_action_only_deletes_witness :
  _takeAction (Cases.notifying_config [Cases.caps])
    (Scenario.platform Scenario.all_fine Scenario.silent) Scenario.home Scenario.post
    (Scenario.verdict "caps" Scenario.seconds600) empty_world =
    (Ok tt,
     {| userWarnings := ∅; recentMessages := ∅; pendingBans := ∅;
        messageCount := 0; actionCount := 1; audit := [];
        trace := [EDelete; EDmOffender; EStatus "action"] |}).
Proof.
  apply (unknown_action_only_deletes (Cases.notifying_config [Cases.caps])
           (Scenario.platform Scenario.all_fine Scenario.silent) Scenario.home
           Scenario.post (Scenario.verdict "caps" Scenario.seconds600) empty_world).
  reflexivity.
Defined.

(** X7: a resolved [kick] against a member the bot cannot kick (an owner, a
    higher role) does nothing to the member and says nothing about it: the
    message is deleted, the notice to the offender goes out when [dmOnAction]
    is set, one action is counted, and the audit holds neither a [kick] entry
    nor an error.  When the member can be kicked and the platform rejects the
    kick, the rejection is audited as "Kick failed" and the run goes on the
    same way. *)
Theorem kick_of_unkickable_member_is_silent (cfg : Config) (P : Platform) (g : Guild)
    (message : Message) (analysis : Verdict) (m : Member) (w : World) :
  resolvedAction cfg analysis = JS.VStr "kick" ->
  memberOf P g message = Ok m ->
  (m_kickable m = false ->
   _takeAction cfg P g message analysis w =
     (Ok tt, closeAction cfg (JS.VStr "kick")
               (advance w (EDelete :: resolveEvents g message) (deleteLogs P)))) /\
  (m_kickable m = true ->
   forall err,
     respond P (EKick (u_id (m_user m))) = Some err ->
     _takeAction cfg P g message analysis w =
       (Ok tt, closeAction cfg (JS.VStr "kick")
                 (advance w (EDelete :: resolveEvents g message ++ [EKick (u_id (m_user m))])
                    (deleteLogs P ++ [LError err "Kick failed"])))).
Proof.
  intros Hact Hm.
  assert (Hw : warns (resolvedAction cfg analysis)
                 (default 0%nat (userWarnings w !! u_id (author message)))
                 (settings cfg) = false).
  { apply not_warns; rewrite Hact; [discriminate | intros [=]]. }
  rewrite (_takeAction_enforce cfg P g message analysis w Hw), Hact.
  unfold afterDelete, perform, _kickUser, resolveMember, closeAction, noticeEvents,
    memberOf, resolveEvents in *. simpl.
  split.
  - intros Hk. unfold_monad.
    destruct (member message) as [m'|]; [injection Hm as ->|]; simpl;
      rewrite ?Hm; simpl; rewrite Hk; simpl;
      (destruct (dmOnAction (settings cfg)); simpl;
         [destruct (respond P EDmOffender); simpl|]);
      unfold advance, emit, modify, set_trace, set_actionCount, set_audit; simpl;
      rewrite <- ?app_assoc; simpl; rewrite ?app_nil_r; reflexivity.
  - intros Hk err He. unfold_monad.
    destruct (member message) as [m'|]; [injection Hm as ->|]; simpl;
      rewrite ?Hm; simpl; rewrite Hk; simpl; rewrite He; simpl;
      (destruct (dmOnAction (settings cfg)); simpl;
         [destruct (respond P EDmOffender); simpl|]);
      unfold advance, emit, modify, set_trace, set_actionCount, set_audit; simpl;
      rewrite <- ?app_assoc; simpl; reflexivity.
Qed.

Lemma kick_of_unkickable_member_is_silent_witness :
  _takeAction (Cases.notifying_config [Cases.insults])
    (Scenario.platform Scenario.all_fine Scenario.silent) Scenario.home Cases.owner_post
    (Scenario.verdict "insults" Scenario.seconds600) empty_world =
    (Ok tt,
     {| userWarnings := ∅; recentMessages := ∅; pendingBans := ∅;
        messageCount := 0; actionCount := 1; audit := [];
        trace := [EDelete; EDmOffender; EStatus "action"] |}) /\
  _takeAction (Cases.notifying_config [Cases.insults])
    (Scenario.platform Cases.no_kick Scenario.silent) Scenario.home Scenario.post
    (Scenario.verdict "insults" Scenario.seconds600) empty_world =
    (Ok tt,
     {| userWarnings := ∅; recentMessages := ∅; pendingBans := ∅;
        messageCount := 0; actionCount := 1;
        audit := [LError "Missing Permissions" "Kick failed"];
        trace := [EDelete; EKick "42"; EDmOffender; EStatus "action"] |}).
Proof.
  split.
  - destruct (kick_of_unkickable_member_is_silent (Cases.notifying_config [Cases.insults])
                (Scenario.platform Scenario.all_fine Scenario.silent) Scenario.home
                Cases.owner_post (Scenario.verdict "insults" Scenario.seconds600)
                Cases.owner_member empty_world) as [H _].
    + reflexivity.
    + reflexivity.
    + apply H. reflexivity.
  - destruct (kick_of_unkickable_member_is_silent (Cases.notifying_config [Cases.insults])
                (Scenario.platform Cases.no_kick Scenario.silent) Scenario.home
                Scenario.post (Scenario.verdict "insults" Scenario.seconds600)
                Scenario.offender_member empty_world) as [_ H].
    + reflexivity.
    + reflexivity.
    + apply (H eq_refl "Missing Permissions"). reflexivity.
Defined.

(** ** Offences in a row *)

Lemma _takeAction_enforced_trace (cfg : Config) (P : Platform) (g : Guild)
    (message : Message) (analysis : Verdict) (w : World) :
  warns (resolvedAction cfg analysis)
    (warningsOf w (u_id (author message))) (settings cfg) = false ->
  exists w' evs,
    _takeAction cfg P g message analysis w = (Ok tt, w') /\
    trace w' = trace w ++ EDelete :: evs /\
    userWarnings w' = userWarnings w.
Proof.
  intros Hw. unfold warningsOf in Hw.
  rewrite (_takeAction_enforce cfg P g message analysis w Hw).
  destruct (afterDelete_frame cfg P g message analysis (resolvedAction cfg analysis)
              (resolvedDuration cfg analysis) (primaryRule cfg analysis)
              (advance w [EDelete] (deleteLogs P)))
    as (w1 & _ & Hs & ->).
  destruct Hs as (Hu & _ & _ & _ & _ & (evs & Ht & _) & _).
  eexists _, _. split; [reflexivity|]. simpl in *. rewrite Ht, Hu.
  split; [|reflexivity]. rewrite <- !app_assoc. reflexivity.
Qed.

Lemma warnable_warns (cfg : Config) (userId : string) (o : Message * Verdict) (n : nat) :
  warnable cfg userId o ->
  Z.of_nat n < maxWarnings (settings cfg) ->
  warns (resolvedAction cfg (snd o)) n (settings cfg) = true.
Proof.
  intros [[_ H] | [_ H]] Hn; apply warns_true_iff; rewrite H; auto.
Qed.

(** X8: the threshold counts every warning.  While the count of a user is
    below [warningsBeforeAction || 2], each offence of theirs that resolves to
    [warn] or to [timeout] is answered by a warning: after a row of such
    offences that does not take the count past the threshold, the count has
    grown by their number, as many actions are counted, and nothing was
    awaited but the replies; no message was deleted.  Once the count has
    reached the threshold, the next offence that resolves to [timeout] has
    its message deleted and leaves the count where it is. *)
Theorem threshold_counts_every_warning (cfg : Config) (P : Platform) (g : Guild)
    (userId : string) (offences : list (Message * Verdict)) (w : World) :
  Forall (warnable cfg userId) offences ->
  Z.of_nat (warningsOf w userId + length offences) <= maxWarnings (settings cfg) ->
  exists w' evs,
    takeActions cfg P g offences w = (Ok tt, w') /\
    warningsOf w' userId = (warningsOf w userId + length offences)%nat /\
    actionCount w' = (actionCount w + length offences)%nat /\
    trace w' = trace w ++ evs /\
    Forall is_warning_event evs /\
    pendingBans w' = pendingBans w /\
    forall next,
      offenceBy cfg userId "timeout" next ->
      Z.of_nat (warningsOf w userId + length offences) = maxWarnings (settings cfg) ->
      exists w'' evs',
        _takeAction cfg P g (fst next) (snd next) w' = (Ok tt, w'') /\
        trace w'' = trace w' ++ EDelete :: evs' /\
        warningsOf w'' userId = warningsOf w' userId.
Proof.
  intros Hall. revert w. induction Hall as [|[message analysis] rest Ho _ IH]; intros w Hle.
  - exists w, []. simpl. rewrite Nat.add_0_r, app_nil_r.
    repeat split; auto.
    intros next [Hid Hact] Heq.
    destruct (_takeAction_enforced_trace cfg P g (fst next) (snd next) w)
      as (w'' & evs' & Hrun & Ht & Hu).
    { rewrite Hid. apply not_warns; rewrite Hact; [discriminate|]. intros _. lia. }
    exists w'', evs'. unfold warningsOf. rewrite Hu. auto.
  - simpl in Hle. simpl takeActions. unfold_monad.
    assert (Hid : u_id (author message) = userId) by (destruct Ho as [[H _]|[H _]]; exact H).
    destruct (_takeAction_warn cfg P g message analysis w)
      as (w1 & Hrun & Hu & Ht & _ & Ha & Hp).
    { rewrite Hid. apply (warnable_warns cfg userId (message, analysis)); [exact Ho|].
      fold (warningsOf w userId). lia. }
    rewrite Hrun.
    assert (Hc : warningsOf w1 userId = S (warningsOf w userId)).
    { unfold warningsOf. rewrite Hu, Hid, lookup_insert_eq. simpl. lia. }
    destruct (IH w1) as (w' & evs & Hrun' & Hc' & Ha' & Ht' & Hev & Hp' & Hnext).
    { rewrite Hc. lia. }
    exists w'. eexists. split; [exact Hrun'|].
    split; [rewrite Hc', Hc; simpl; lia|].
    split; [rewrite Ha', Ha; simpl; lia|].
    split; [rewrite Ht', Ht, <- app_assoc; reflexivity|].
    split.
    { apply Forall_app. split; [|exact Hev].
      destruct (JS.truthy (replyMessage analysis)); simpl;
        repeat (apply List.Forall_cons; [unfold is_warning_event; auto|]);
        apply List.Forall_nil. }
    split; [congruence|].
    intros next Hn Heq. apply Hnext; [exact Hn|]. rewrite Hc. simpl in Heq. lia.
Qed.

Lemma threshold_counts_every_warning_witness :
  exists w' w'' evs',
    takeActions (Scenario.config [Scenario.spam; Cases.rude])
      (Scenario.platform Scenario.all_fine Scenario.silent) Scenario.home
      [(Scenario.post, Scenario.verdict "rude" Scenario.seconds600);
       (Scenario.post, Scenario.verdict "spam" Scenario.seconds600)] empty_world =
      (Ok tt, w') /\
    warningsOf w' "42" = 2%nat /\
    actionCount w' = 2%nat /\
    _takeAction (Scenario.config [Scenario.spam; Cases.rude])
      (Scenario.platform Scenario.all_fine Scenario.silent) Scenario.home
      Scenario.post (Scenario.verdict "spam" Scenario.seconds600) w' = (Ok tt, w'') /\
    trace w'' = trace w' ++ EDelete :: evs' /\
    warningsOf w'' "42" = 2%nat.
Proof.
  destruct (threshold_counts_every_warning (Scenario.config [Scenario.spam; Cases.rude])
              (Scenario.platform Scenario.all_fine Scenario.silent) Scenario.home "42"
              [(Scenario.post, Scenario.verdict "rude" Scenario.seconds600);
               (Scenario.post, Scenario.verdict "spam" Scenario.seconds600)] empty_world)
    as (w' & evs & Hrun & Hc & Ha & _ & _ & _ & Hnext).
  - apply List.Forall_cons; [left; split; reflexivity|].
    apply List.Forall_cons; [right; split; reflexivity|]. apply List.Forall_nil.
  - vm_compute. discriminate.
  - destruct (Hnext (Scenario.post, Scenario.verdict "spam" Scenario.seconds600))
      as (w'' & evs' & Hrun' & Ht & Hc').
    + split; reflexivity.
    + reflexivity.
    + exists w', w'', evs'. repeat split; try assumption. now rewrite Hc'.
Defined.

(** ** Invariants of the message handler *)

Section Inbox.
Variable StringToNumber : string -> JS.number.
Variable NumberToString : JS.number -> string.

Lemma handleMessages_frame (cfg : Config) (P : Platform) (inbox : list Message) (w : World) :
  exists r w',
    handleMessages StringToNumber NumberToString cfg P inbox w = (r, w') /\
    (forall u, warningsOf w u <= warningsOf w' u)%nat /\
    (forall u, Forall (fun m => u_id (author m) <> u) inbox ->
               warningsOf w' u = warningsOf w u) /\
    (boundedContext w -> boundedContext w').
Proof.
  revert w. induction inbox as [|message rest IH]; intros w.
  - exists (Ok tt), w. simpl. split; [reflexivity|]. auto.
  - cbn [handleMessages]. unfold mbind, M_bind.
    destruct (_handleMessage_frame StringToNumber NumberToString cfg P message w)
      as (r1 & w1 & Hrun & _ & _ & _ & _ & Hu & Hr & _).
    rewrite Hrun.
    assert (Hw1 : forall u, u <> u_id (author message) -> warningsOf w1 u = warningsOf w u).
    { intros u E. unfold warningsOf in *. destruct Hu as [-> | ->]; [reflexivity|].
      now rewrite lookup_insert_ne by congruence. }
    assert (Hup : forall u, (warningsOf w u <= warningsOf w1 u)%nat).
    { intros u. unfold warningsOf in *. destruct Hu as [-> | ->]; [lia|].
      destruct (decide (u = u_id (author message))) as [->|Hne].
      - rewrite lookup_insert_eq. simpl. lia.
      - rewrite lookup_insert_ne by congruence. lia. }
    assert (Hb1 : boundedContext w -> boundedContext w1).
    { intros Hbw ch msgs. destruct Hr as [-> | ->]; [apply Hbw|].
      apply (_trackMessage_bounded (channelKey message) message w Hbw). }
    destruct r1 as [[]|e].
    + destruct (IH w1) as (r & w' & Hrun' & Hmono & Hsame & Hb).
      exists r, w'. split; [exact Hrun'|].
      split; [intros u; specialize (Hmono u); specialize (Hup u); lia|].
      split.
      { intros u Hall. apply Forall_cons in Hall as [Hne Hall].
        rewrite (Hsame u Hall). apply Hw1. congruence. }
      intros Hbw. apply Hb, Hb1, Hbw.
    + exists (Throw e), w1. split; [reflexivity|].
      split; [exact Hup|]. split; [|exact Hb1].
      intros u Hall. apply Forall_cons in Hall as [Hne _]. apply Hw1. congruence.
Qed.

Lemma consultable_includes (name : string) (ids : JS.value) (id : string) :
  consultable ids = true -> JS.truthy ids = true ->
  exists b, includes name ids id = Ok b.
Proof.
  destruct ids as [| |b|n|s|items|fields]; simpl; try discriminate; eauto.
  - destruct b; discriminate.
  - intros H1 H2. rewrite H2 in H1. discriminate.
Qed.

Lemma consultable_hasRole (name : string) (ids : JS.value) (message : Message) :
  consultable ids = true -> exists b, hasRole name ids message = Ok b.
Proof.
  intros Hc. unfold hasRole. destruct (member message) as [m|]; [|eauto].
  destruct (JS.truthy ids) eqn:Ht; [|eauto].
  induction (m_roles m) as [|r rest IH]; simpl; [eauto|].
  destruct (consultable_includes name ids r Hc Ht) as [b ->]. simpl.
  destruct b; [eauto | exact IH].
Qed.

Lemma consultable_exempt (s : Settings) (message : Message) :
  listsConsultable s -> exists b, exempt s message = Ok b.
Proof.
  intros (Hc & Hi & Ht). unfold exempt, inIgnoredChannel.
  assert (H1 : exists b, (if JS.truthy (ignoredChannels s)
                          then includes "ignoredChannels" (ignoredChannels s)
                                 (c_id (channel message))
                          else Ok false) = Ok b).
  { destruct (JS.truthy (ignoredChannels s)) eqn:E; [|eauto].
    now apply consultable_includes. }
  destruct H1 as [b1 ->]. simpl. destruct b1; [eauto|].
  destruct (consultable_hasRole "ignoredRoles" (ignoredRoles s) message Hi) as [b2 ->].
  simpl. destruct b2; [eauto|].
  apply consultable_hasRole, Ht.
Qed.

Lemma handleEach_frame (arrivals : list (Config * Platform * Message)) (w : World) :
  exists r w',
    handleEach StringToNumber NumberToString arrivals w = (r, w') /\
    (r = Ok tt \/
     exists cfg P message e,
       In (cfg, P, message) arrivals /\
       exempt (settings cfg) message = Throw e /\ r = Throw e) /\
    (messageCount w <= messageCount w' <= messageCount w + length arrivals)%nat /\
    (actionCount w <= actionCount w')%nat /\
    (actionCount w' - actionCount w <= messageCount w' - messageCount w)%nat.
Proof.
  revert w. induction arrivals as [|[[cfg P] message] rest IH]; intros w.
  - exists (Ok tt), w. simpl. split; [reflexivity|]. split; [now left|]. lia.
  - cbn [handleEach]. unfold mbind, M_bind.
    destruct (_handleMessage_frame StringToNumber NumberToString cfg P message w)
      as (r1 & w1 & Hrun & Hr1 & Hm & Ha & Hd & _).
    rewrite Hrun. destruct r1 as [[]|e].
    + destruct (IH w1) as (r & w' & Hrun' & Hr & Hm' & Ha' & Hd').
      exists r, w'. split; [exact Hrun'|]. split.
      { destruct Hr as [-> | (c & Q & m & e & Hin & Hex & ->)]; [now left|].
        right. exists c, Q, m, e. split; [now right|]. now split. }
      simpl. lia.
    + exists (Throw e), w1. split; [reflexivity|]. split.
      { destruct Hr1 as [Hr1 | (e' & Hex & Hr1)]; [discriminate|].
        right. exists cfg, P, message, e'. split; [now left|]. now split. }
      simpl. lia.
Qed.

(** X9: nothing is raised past the door of the message handler, and actions
    never outnumber messages.  Let messages arrive one after the other, each
    under the rules, the settings and the answers of the platform and of the
    classifier of its moment.  The run ends in an exception only if, for one
    of the messages, an id list of the settings ([ignoredChannels],
    [ignoredRoles], [trustedRoles]) had to be consulted and has no
    [includes] method; when each of these lists is an array, a string or a
    falsy value, every message is handled to its end.  However the run ends,
    the message counter has grown by at most one per message and the action
    counter by no more than the message counter. *)
Theorem handler_returns_and_counts (arrivals : list (Config * Platform * Message))
    (w : World) :
  exists r w',
    handleEach StringToNumber NumberToString arrivals w = (r, w') /\
    (r = Ok tt \/
     exists cfg P message e,
       In (cfg, P, message) arrivals /\
       exempt (settings cfg) message = Throw e /\ r = Throw e) /\
    (Forall (fun a => listsConsultable (settings (fst (fst a)))) arrivals -> r = Ok tt) /\
    (messageCount w <= messageCount w' <= messageCount w + length arrivals)%nat /\
    (actionCount w <= actionCount w')%nat /\
    (actionCount w' - actionCount w <= messageCount w' - messageCount w)%nat.
Proof.
  destruct (handleEach_frame arrivals w) as (r & w' & H1 & H2 & H3 & H4 & H5).
  exists r, w'. split; [exact H1|]. split; [exact H2|]. split; [|auto].
  intros Hall. destruct H2 as [-> | (cfg & P & message & e & Hin & Hex & _)];
    [reflexivity|].
  rewrite List.Forall_forall in Hall. specialize (Hall _ Hin). simpl in Hall.
  destruct (consultable_exempt (settings cfg) message Hall) as [b Hb]. congruence.
Qed.

(** X10: warnings do not decay.  Handling messages never lowers the count
    of any user, and leaves the count of every user who wrote none of them
    where it was: nothing in the handler resets or forgets a warning. *)
Theorem warnings_never_decrease (cfg : Config) (P : Platform)
    (inbox : list Message) (w : World) (userId : string) :
  let w' := snd (handleMessages StringToNumber NumberToString cfg P inbox w) in
  (warningsOf w userId <= warningsOf w' userId)%nat /\
  (Forall (fun m => u_id (author m) <> userId) inbox ->
   warningsOf w' userId = warningsOf w userId).
Proof.
  destruct (handleMessages_frame cfg P inbox w) as (r & w' & H1 & H5 & H6 & _).
  rewrite H1. simpl. split; [apply H5 | apply H6].
Qed.

(** X11: the channel context stays bounded.  From a world in which no
    channel remembers more than 10 messages (the empty one, at the start),
    no run of the handler leads to one in which a channel does. *)
Theorem context_stays_bounded (cfg : Config) (P : Platform)
    (inbox : list Message) (w : World) :
  boundedContext w ->
  boundedContext (snd (handleMessages StringToNumber NumberToString cfg P inbox w)).
Proof.
  destruct (handleMessages_frame cfg P inbox w) as (r & w' & H1 & _ & _ & H7).
  rewrite H1. exact H7.
Qed.

End Inbox.

Lemma handler_returns_and_counts_witness :
  exists w',
    handleEach Scenario.parse_0_9 Scenario.no_print
      [(Scenario.config [Scenario.spam],
        Scenario.platform Scenario.all_fine Scenario.silent, Scenario.post);
       (Cases.quiet_config [Scenario.spam],
        Scenario.platform Scenario.nothing_works Scenario.silent, Scenario.post)]
      empty_world = (Ok tt, w') /\
    (messageCount w' <= 2)%nat /\
    (actionCount w' <= messageCount w')%nat.
Proof.
  destruct (handler_returns_and_counts Scenario.parse_0_9 Scenario.no_print
              [(Scenario.config [Scenario.spam],
                Scenario.platform Scenario.all_fine Scenario.silent, Scenario.post);
               (Cases.quiet_config [Scenario.spam],
                Scenario.platform Scenario.nothing_works Scenario.silent, Scenario.post)]
              empty_world)
    as (r & w' & Hrun & _ & Hok & Hm & Ha & Hd).
  rewrite Hok in Hrun.
  - exists w'. split; [exact Hrun|]. simpl in Hm, Ha, Hd. lia.
  - repeat (apply List.Forall_cons; [repeat split|]). apply List.Forall_nil.
Defined.

(** The exception X9 leaves room for: after [{"ignoredChannels": 5}] was
    stored, the first message of a guild is counted and the handler raises
    on [includes], before the [try]. *)
Lemma number_for_a_list_raises :
  _handleMessage Scenario.parse_0_9 Scenario.no_print
    {| rules := [Scenario.spam]; settings := Cases.number_for_a_list |}
    (Scenario.platform Scenario.all_fine Scenario.silent) Scenario.post empty_world =
  (Throw "settings.ignoredChannels.includes is not a function", counted empty_world).
Proof. reflexivity. Qed.

Lemma warnings_never_decrease_witness :
  (warningsOf (Scenario.warned 1) "42" <=
   warningsOf (snd (handleMessages Scenario.parse_0_9 Scenario.no_print
                      (Scenario.config [Scenario.spam])
                      (Scenario.platform Scenario.all_fine
                         (Parsed Scenario.reply_confidence_string))
                      [Scenario.post; Scenario.post] (Scenario.warned 1))) "42")%nat /\
  warningsOf (snd (handleMessages Scenario.parse_0_9 Scenario.no_print
                     (Scenario.config [Scenario.spam])
                     (Scenario.platform Scenario.all_fine
                        (Parsed Scenario.reply_confidence_string))
                     [Scenario.post; Scenario.post] (Scenario.warned 1))) "43" =
    warningsOf (Scenario.warned 1) "43".
Proof.
  split.
  - apply (warnings_never_decrease Scenario.parse_0_9 Scenario.no_print
             (Scenario.config [Scenario.spam])
             (Scenario.platform Scenario.all_fine (Parsed Scenario.reply_confidence_string))
             [Scenario.post; Scenario.post] (Scenario.warned 1) "42").
  - apply (warnings_never_decrease Scenario.parse_0_9 Scenario.no_print
             (Scenario.config [Scenario.spam])
             (Scenario.platform Scenario.all_fine (Parsed Scenario.reply_confidence_string))
             [Scenario.post; Scenario.post] (Scenario.warned 1) "43").
    repeat (apply List.Forall_cons; [discriminate|]). apply List.Forall_nil.
Defined.

Lemma context_stays_bounded_witness :
  boundedContext
    (snd (handleMessages Scenario.parse_0_9 Scenario.no_print
            (Scenario.config [Scenario.spam])
            (Scenario.platform Scenario.all_fine (Parsed Scenario.reply_confidence_string))
            [Scenario.post; Scenario.post] Cases.full_channel)).
Proof.
  apply (context_stays_bounded Scenario.parse_0_9 Scenario.no_print
           (Scenario.config [Scenario.spam])
           (Scenario.platform Scenario.all_fine (Parsed Scenario.reply_confidence_string))
           [Scenario.post; Scenario.post] Cases.full_channel).
  intros ch msgs H. unfold Cases.full_channel in H. simpl in H.
  apply lookup_singleton_Some in H as [_ <-].
  unfold AIEngine.maxContext. simpl. lia.
Defined.

(** ** The buttons of a ban request *)




(** X12: the handler of interactions looks at nothing but the buttons of a
    ban request.  An interaction that is not a button, a button whose id does
    not start with [ban], and a [ban] button that says neither [approve] nor
    [deny], all leave the world exactly as it was: nothing is awaited,
    nothing is audited, no request is touched. *)
Theorem foreign_interactions_are_ignored (P : Platform) (i : Interaction) (w : World) :
  isButton i = false \/
  buttonParts i !! 0%nat <> Some "ban" \/
  (buttonParts i !! 1%nat <> Some "approve" /\ buttonParts i !! 1%nat <> Some "deny") ->
  _handleInteraction P i w = (Ok tt, w).
Proof.
  unfold _handleInteraction, buttonParts. intros [H | [H | [H1 H2]]].
  - rewrite H. reflexivity.
  - destruct (isButton i); [|reflexivity]. simpl.
    rewrite bool_decide_false by exact H. reflexivity.
  - destruct (isButton i); [|reflexivity]. simpl.
    destruct (bool_decide (split_on "_"%char (customId i) !! 0%nat = Some "ban"));
      [|reflexivity]. simpl.
    rewrite bool_decide_false by exact H1. rewrite bool_decide_false by exact H2.
    reflexivity.
Qed.

Lemma foreign_interactions_are_ignored_witness :
  _handleInteraction (Scenario.platform Scenario.nothing_works Scenario.silent)
    {| isButton := true; customId := "ban_pardon_42_7" |} Scenario.awaiting_review =
    (Ok tt, Scenario.awaiting_review) /\
  _handleInteraction (Scenario.platform Scenario.nothing_works Scenario.silent)
    {| isButton := true; customId := "unban_approve_42_7" |} Scenario.awaiting_review =
    (Ok tt, Scenario.awaiting_review) /\
  _handleInteraction (Scenario.platform Scenario.nothing_works Scenario.silent)
    {| isButton := false; customId := "ban_approve_42_7" |} Scenario.awaiting_review =
    (Ok tt, Scenario.awaiting_review).
Proof.
  split; [|split].
  - apply (foreign_interactions_are_ignored
             (Scenario.platform Scenario.nothing_works Scenario.silent)
             {| isButton := true; customId := "ban_pardon_42_7" |} Scenario.awaiting_review).
    right. right. split; discriminate.
  - apply (foreign_interactions_are_ignored
             (Scenario.platform Scenario.nothing_works Scenario.silent)
             {| isButton := true; customId := "unban_approve_42_7" |}
             Scenario.awaiting_review).
    right. left. discriminate.
  - apply (foreign_interactions_are_ignored
             (Scenario.platform Scenario.nothing_works Scenario.silent)
             {| isButton := false; customId := "ban_approve_42_7" |}
             Scenario.awaiting_review).
    left. reflexivity.
Defined.

(** The denial, step by step. *)
Lemma deny_run (P : Platform) (userId guildId : string) (g : Guild) (w : World) :
  guildOf P guildId = Ok g ->
  audit (snd (deny P userId guildId w)) = audit w /\
  (forall e,
     members_fetch P (g_id g) userId = Throw e ->
     respond P (EUpdate UBanDenied) = None ->
     deny P userId guildId w =
       (Ok tt, set_pendingBans (fun pb => delete (pendingKey userId guildId) pb)
                 (advance w (lookupEvents P guildId ++
                             [EFetchMember (g_id g) userId; EUpdate UBanDenied]) []))) /\
  (forall m,
     members_fetch P (g_id g) userId = Ok m ->
     respond P (ETimeout (u_id (m_user m)) MuteLift) = None ->
     respond P (EUpdate UBanDenied) = None ->
     deny P userId guildId w =
       (Ok tt, set_pendingBans (fun pb => delete (pendingKey userId guildId) pb)
                 (advance w (lookupEvents P guildId ++
                             [EFetchMember (g_id g) userId;
                              ETimeout (u_id (m_user m)) MuteLift;
                              EUpdate UBanDenied]) []))) /\
  (forall m err,
     members_fetch P (g_id g) userId = Ok m ->
     respond P (ETimeout (u_id (m_user m)) MuteLift) = Some err ->
     respond P (EUpdate (UDenyFailed err)) = None ->
     deny P userId guildId w =
       (Ok tt, advance w (lookupEvents P guildId ++
                          [EFetchMember (g_id g) userId;
                           ETimeout (u_id (m_user m)) MuteLift;
                           EUpdate (UDenyFailed err)]) [])).
Proof.
  intros Hg. unfold deny.
  assert (Hadv : forall evs, advance w evs [] = set_trace (fun t => t ++ evs) w)
    by (intros; apply advance_no_logs).
  run_lookup P guildId.
  - injection Hg as ->. split; [|split; [|split]].
    + destruct (members_fetch P (g_id g) userId) as [m|e]; simpl;
        cases_respond P; reflexivity.
    + intros e Hm Hup. rewrite Hm. simpl. rewrite Hup. simpl.
      rewrite Hadv. unfold set_pendingBans, set_trace. simpl.
      rewrite <- ?app_assoc. reflexivity.
    + intros m Hm Ht Hup. rewrite Hm. simpl. rewrite Ht. simpl. rewrite Hup. simpl.
      rewrite Hadv. unfold set_pendingBans, set_trace. simpl.
      rewrite <- ?app_assoc. reflexivity.
    + intros m err Hm Ht Hup. rewrite Hm. simpl. rewrite Ht. simpl. rewrite Hup.
      unfold_monad. simpl.
      rewrite Hadv. unfold set_trace. simpl. rewrite <- ?app_assoc. reflexivity.
  - rewrite Hg. simpl. split; [|split; [|split]].
    + destruct (members_fetch P (g_id g) userId) as [m|e]; simpl;
        cases_respond P; reflexivity.
    + intros e Hm Hup. rewrite Hm. simpl. rewrite Hup. simpl.
      rewrite Hadv. unfold set_pendingBans, set_trace. simpl.
      rewrite <- ?app_assoc. reflexivity.
    + intros m Hm Ht Hup. rewrite Hm. simpl. rewrite Ht. simpl. rewrite Hup. simpl.
      rewrite Hadv. unfold set_pendingBans, set_trace. simpl.
      rewrite <- ?app_assoc. reflexivity.
    + intros m err Hm Ht Hup. rewrite Hm. simpl. rewrite Ht. simpl. rewrite Hup.
      unfold_monad. simpl.
      rewrite Hadv. unfold set_trace. simpl. rewrite <- ?app_assoc. reflexivity.
Qed.

(** X13: a denial.  With the guild of the request at hand, a click on the
    deny button never adds to the audit, whatever the platform answers.  If
    the offender has left the guild (they were kicked when the request was
    filed) nothing is lifted; if they are still a member, lifting their
    timeout is attempted first.  When the platform accepts the calls the
    reviewer is told and the request is removed; when the lifting is refused
    the reviewer is told of the failure and the request stays. *)
Theorem deny_lifts_the_mute_and_leaves_no_record (P : Platform) (i : Interaction)
    (g : Guild) (w : World) :
  isButton i = true ->
  buttonParts i !! 0%nat = Some "ban" ->
  buttonParts i !! 1%nat = Some "deny" ->
  guildOf P (in_template (buttonParts i !! 3%nat)) = Ok g ->
  let userId := in_template (buttonParts i !! 2%nat) in
  let guildId := in_template (buttonParts i !! 3%nat) in
  audit (snd (_handleInteraction P i w)) = audit w /\
  (forall e,
     members_fetch P (g_id g) userId = Throw e ->
     respond P (EUpdate UBanDenied) = None ->
     _handleInteraction P i w =
       (Ok tt, set_pendingBans (fun pb => delete (buttonKey i) pb)
                 (advance w (lookupEvents P guildId ++
                             [EFetchMember (g_id g) userId; EUpdate UBanDenied]) []))) /\
  (forall m,
     members_fetch P (g_id g) userId = Ok m ->
     respond P (ETimeout (u_id (m_user m)) MuteLift) = None ->
     respond P (EUpdate UBanDenied) = None ->
     _handleInteraction P i w =
       (Ok tt, set_pendingBans (fun pb => delete (buttonKey i) pb)
                 (advance w (lookupEvents P guildId ++
                             [EFetchMember (g_id g) userId;
                              ETimeout (u_id (m_user m)) MuteLift;
                              EUpdate UBanDenied]) []))) /\
  (forall m err,
     members_fetch P (g_id g) userId = Ok m ->
     respond P (ETimeout (u_id (m_user m)) MuteLift) = Some err ->
     respond P (EUpdate (UDenyFailed err)) = None ->
     _handleInteraction P i w =
       (Ok tt, advance w (lookupEvents P guildId ++
                          [EFetchMember (g_id g) userId;
                           ETimeout (u_id (m_user m)) MuteLift;
                           EUpdate (UDenyFailed err)]) [])).
Proof.
  intros Hb H0 H1 Hg. cbv zeta. rewrite (handle_deny P i Hb H0 H1).
  exact (deny_run P _ _ g w Hg).
Qed.

Lemma deny_lifts_the_mute_and_leaves_no_record_witness :
  _handleInteraction (Scenario.platform Scenario.all_fine Scenario.silent)
    Scenario.deny_button Scenario.awaiting_review =
    (Ok tt,
     {| userWarnings := ∅; recentMessages := ∅;
        pendingBans := delete "42_7" {[ "42_7" := Scenario.pending ]};
        messageCount := 0; actionCount := 0; audit := [];
        trace := [EFetchMember "7" "42"; EUpdate UBanDenied] |}).
Proof.
  destruct (deny_lifts_the_mute_and_leaves_no_record
              (Scenario.platform Scenario.all_fine Scenario.silent)
              Scenario.deny_button Scenario.home Scenario.awaiting_review
              eq_refl eq_refl eq_refl eq_refl)
    as (_ & H & _).
  apply (H "Unknown Member"); reflexivity.
Defined.



(** ** What a click can change *)

Lemma removes_refl (key : string) (p : gmap string PendingBan) : removes key p p.
Proof. now left. Qed.

Lemma removes_trans (key : string) (p q r : gmap string PendingBan) :
  removes key p q -> removes key q r -> removes key p r.
Proof.
  unfold removes. intros [-> | ->] [-> | ->]; auto.
  right. apply delete_delete_eq.
Qed.

Ltac click_side :=
  try solve [apply removes_refl | apply removes_trans | exact I | intros ?; now right].

Lemma lookupGuild_tame (key : string) (P : Platform) (guildId : string) :
  tame any_event (removes key) (lookupGuild P guildId).
Proof.
  unfold lookupGuild.
  destruct (List.find (fun g => String.eqb (g_id g) guildId) (guilds_cache P)).
  - apply safe_tame, safe_ret; click_side.
  - apply tame_fetch; click_side.
Qed.

Lemma click_call_tame (key : string) (P : Platform) (e : Event) :
  tame any_event (removes key) (call P e).
Proof. apply tame_call; click_side. Qed.

Lemma click_ret {A} (key : string) (a : A) : tame any_event (removes key) (mret a).
Proof. apply safe_tame, safe_ret; click_side. Qed.

Lemma click_bind {A B} (key : string) (m : M A) (k : A -> M B) :
  tame any_event (removes key) m ->
  (forall a, tame any_event (removes key) (k a)) ->
  tame any_event (removes key) (m ≫= k).
Proof. apply tame_bind; click_side. Qed.

Lemma click_try {A} (key : string) (m : M A) (h : string -> M A) :
  tame any_event (removes key) m ->
  (forall msg, tame any_event (removes key) (h msg)) ->
  tame any_event (removes key) (try_catch m h).
Proof. apply tame_try_catch; click_side. Qed.

Lemma click_done (userId guildId : string) :
  tame any_event (removes (pendingKey userId guildId))
    (modify (set_pendingBans (fun pb => delete (pendingKey userId guildId) pb))).
Proof. apply safe_tame, safe_modify_pending; click_side. Qed.

Lemma click_log (key : string) (l : LogEntry) : tame any_event (removes key) (log l).
Proof. apply safe_tame, safe_log; click_side. Qed.

Lemma fetchMemberOrNull_tame (key : string) (P : Platform) (g : Guild) (userId : string) :
  tame any_event (removes key) (fetchMemberOrNull P g userId).
Proof.
  unfold fetchMemberOrNull. apply safe_tame, safe_catch_null; click_side.
  apply tame_fetch; click_side.
Qed.

Lemma approve_tame (P : Platform) (userId guildId : string) :
  tame any_event (removes (pendingKey userId guildId)) (approve P userId guildId).
Proof.
  unfold approve, banById.
  apply click_try; [|intros; apply click_call_tame].
  apply click_bind; [apply lookupGuild_tame|]. intros g.
  apply click_bind; [apply fetchMemberOrNull_tame|]. intros m.
  apply click_bind; [|intros; apply click_done].
  assert (Hby : tame any_event (removes (pendingKey userId guildId))
                  (try_catch
                     (call P (EBanById userId) ;;
                      call P (EUpdate UBanApprovedById) ;;
                      log (ban_entry userId))
                     (fun banErr => call P (EUpdate (UCouldNotBan banErr))))).
  { apply click_try; [|intros; apply click_call_tame].
    apply click_bind; [apply click_call_tame|]. intros _.
    apply click_bind; [apply click_call_tame|]. intros _. apply click_log. }
  destruct m as [mem|]; [|exact Hby].
  destruct (m_bannable mem); [|exact Hby].
  apply click_bind; [apply click_call_tame|]. intros _.
  apply click_bind; [apply click_call_tame|]. intros _. apply click_log.
Qed.

Lemma deny_tame (P : Platform) (userId guildId : string) :
  tame any_event (removes (pendingKey userId guildId)) (deny P userId guildId).
Proof.
  unfold deny.
  apply click_try; [|intros; apply click_call_tame].
  apply click_bind; [apply lookupGuild_tame|]. intros g.
  apply click_bind; [apply fetchMemberOrNull_tame|]. intros m.
  apply click_bind.
  - destruct m; [apply click_call_tame | apply click_ret].
  - intros _. apply click_bind; [apply click_call_tame|]. intros _. apply click_done.
Qed.

(** X15: what a click can change.  Whatever the interaction is and whatever
    the platform answers, also when the handler raises, [_handleInteraction]
    leaves the warning ledger, the channel context and both counters as they
    were, and the pending requests are either untouched or lack exactly the
    request the button names: a click never files a request and never
    removes another one. *)
Theorem a_click_only_removes_its_request (P : Platform) (i : Interaction) (w : World) :
  let w' := snd (_handleInteraction P i w) in
  userWarnings w' = userWarnings w /\
  recentMessages w' = recentMessages w /\
  messageCount w' = messageCount w /\
  actionCount w' = actionCount w /\
  (pendingBans w' = pendingBans w \/
   pendingBans w' = delete (buttonKey i) (pendingBans w)) /\
  (forall key, key <> buttonKey i -> pendingBans w' !! key = pendingBans w !! key).
Proof.
  cbv zeta.
  assert (H : tame any_event (removes (buttonKey i)) (_handleInteraction P i)).
  { unfold _handleInteraction, buttonKey, buttonParts.
    destruct (negb (isButton i)); [apply click_ret|].
    cbv zeta.
    destruct (negb (bool_decide (split_on "_"%char (customId i) !! 0%nat = Some "ban")));
      [apply click_ret|].
    destruct (bool_decide (split_on "_"%char (customId i) !! 1%nat = Some "approve"));
      [apply approve_tame|].
    destruct (bool_decide (split_on "_"%char (customId i) !! 1%nat = Some "deny"));
      [apply deny_tame|].
    apply click_ret. }
  destruct (H w) as (Hu & Hr & Hm & Ha & Hp & _).
  repeat split; auto.
  intros key Hne. destruct Hp as [-> | ->]; [reflexivity|].
  now rewrite lookup_delete_ne by congruence.
Qed.

Lemma a_click_only_removes_its_request_witness :
  pendingBans (snd (_handleInteraction (Scenario.platform Scenario.all_fine Scenario.silent)
                      Scenario.deny_button Cases.two_pending)) !! "43_7" =
    Some Scenario.pending.
Proof.
  destruct (a_click_only_removes_its_request
              (Scenario.platform Scenario.all_fine Scenario.silent)
              Scenario.deny_button Cases.two_pending) as (_ & _ & _ & _ & _ & H).
  rewrite (H "43_7"); [reflexivity | discriminate].
Defined.

(** ** The search for the reviewer *)

Lemma find_member_sound (lower : string -> string) (name : string) (ms : list Member)
    (a : User) :
  find_member lower name ms = Some a -> matchesName lower name a = true.
Proof.
  unfold find_member.
  destruct (List.find (fun m => matchesName lower name (m_user m)) ms) as [m|] eqn:E;
    simpl; [|discriminate].
  intros [= <-]. apply List.find_some in E. apply E.
Qed.

Lemma find_member_none (lower : string -> string) (name : string) (ms : list Member) :
  find_member lower name ms = None ->
  forall m, In m ms -> matchesName lower name (m_user m) = false.
Proof.
  unfold find_member.
  destruct (List.find (fun m => matchesName lower name (m_user m)) ms) as [m|] eqn:E;
    simpl; [discriminate|].
  intros _ m Hin. exact (List.find_none _ _ E m Hin).
Qed.

Lemma searchGuilds_sound (P : Platform) (name current : string) (gs : list Guild)
    (w : World) (a : User) :
  fst (searchGuilds P name current gs w) = Ok (Some a) -> matchesName (toLowerCase P) name a = true.
Proof.
  revert w. induction gs as [|g' rest IH]; intros w; simpl; [discriminate|].
  destruct (String.eqb (g_id g') current); [apply IH|].
  unfold_monad.
  destruct (members_fetch_all P (g_id g')) as [ms|e]; simpl; [|apply IH].
  destruct (find_member (toLowerCase P) name ms) as [a'|] eqn:E; simpl; [|apply IH].
  intros [= <-]. exact (find_member_sound _ name ms a' E).
Qed.

Lemma searchGuilds_complete (P : Platform) (name current : string) (gs : list Guild)
    (w : World) :
  fst (searchGuilds P name current gs w) = Ok None ->
  forall g' ms m,
    In g' gs -> g_id g' <> current ->
    members_fetch_all P (g_id g') = Ok ms -> In m ms ->
    matchesName (toLowerCase P) name (m_user m) = false.
Proof.
  revert w. induction gs as [|g0 rest IH]; intros w; simpl; [intros _ ? ? ? []|].
  destruct (String.eqb_spec (g_id g0) current) as [Heq|Hne].
  - intros H g' ms m [<- | Hin] Hn; [contradiction|]. now apply (IH w H g' ms m).
  - unfold_monad.
    destruct (members_fetch_all P (g_id g0)) as [ms0|e] eqn:Ef; simpl.
    + destruct (find_member (toLowerCase P) name ms0) as [a'|] eqn:E; simpl; [discriminate|].
      intros H g' ms m [<- | Hin] Hn Hf Hm.
      * rewrite Ef in Hf. injection Hf as <-.
        exact (find_member_none _ name ms0 E m Hm).
      * exact (IH _ H g' ms m Hin Hn Hf Hm).
    + intros H g' ms m [<- | Hin] Hn Hf Hm; [congruence|].
      exact (IH _ H g' ms m Hin Hn Hf Hm).
Qed.

(** X16: the search for the reviewer is sound and complete over what the
    platform shows.  It never raises.  Whoever it returns bears the
    configured name, up to what [toLowerCase] folds, as user name, display
    name or global name.  When a member of the guild of the violation bears
    the name, the first such member is returned and no other guild is
    searched.  When it returns nobody, no member of a guild whose member list
    could be fetched, and no cached user, bears the name. *)
Theorem reviewer_search_is_sound_and_complete (P : Platform) (g : Guild) (name : string)
    (w : World) :
  (exists found, fst (locateReviewer P g name w) = Ok found) /\
  (forall a,
     fst (locateReviewer P g name w) = Ok (Some a) ->
     matchesName (toLowerCase P) name a = true) /\
  (forall ms a,
     members_fetch_all P (g_id g) = Ok ms ->
     find_member (toLowerCase P) name ms = Some a ->
     locateReviewer P g name w = (Ok (Some a), advance w [EFetchMembers (g_id g)] [])) /\
  (fst (locateReviewer P g name w) = Ok None ->
   (forall g' ms m,
      g' = g \/ In g' (guilds_cache P) ->
      members_fetch_all P (g_id g') = Ok ms -> In m ms ->
      matchesName (toLowerCase P) name (m_user m) = false) /\
   (forall u, In u (users_cache P) -> matchesName (toLowerCase P) name u = false)).
Proof.
  split; [|split; [|split]].
  - destruct (locateReviewer_safe P g name w) as [Hok _].
    destruct (ok_inv _ Hok) as [found H]. now exists found.
  - intros a. unfold locateReviewer. unfold_monad.
    destruct (members_fetch_all P (g_id g)) as [ms|e]; simpl.
    + destruct (find_member (toLowerCase P) name ms) as [a'|] eqn:E; simpl.
      * intros [= <-]. exact (find_member_sound _ name ms a' E).
      * match goal with
        | |- context [searchGuilds P name (g_id g) (guilds_cache P) ?w0] =>
            pose proof (searchGuilds_sound P name (g_id g) (guilds_cache P) w0) as Hs;
            pose proof (searchGuilds_safe P name (g_id g) (guilds_cache P) w0) as [Hok _];
            destruct (searchGuilds P name (g_id g) (guilds_cache P) w0) as [[[a'|]|] w1]
        end; simpl in *; try discriminate.
        -- intros [= <-]. now apply Hs.
        -- intros H. injection H as H. apply List.find_some in H. apply H.
    + match goal with
      | |- context [searchGuilds P name (g_id g) (guilds_cache P) ?w0] =>
          pose proof (searchGuilds_sound P name (g_id g) (guilds_cache P) w0) as Hs;
          pose proof (searchGuilds_safe P name (g_id g) (guilds_cache P) w0) as [Hok _];
          destruct (searchGuilds P name (g_id g) (guilds_cache P) w0) as [[[a'|]|] w1]
      end; simpl in *; try discriminate.
      * intros [= <-]. now apply Hs.
      * intros H. injection H as H. apply List.find_some in H. apply H.
  - intros ms a Hf Hfind. unfold locateReviewer. unfold_monad.
    rewrite Hf. simpl. rewrite Hfind. simpl. now rewrite advance_no_logs.
  - unfold locateReviewer. unfold_monad.
    destruct (members_fetch_all P (g_id g)) as [ms0|e] eqn:Ef; simpl.
    + destruct (find_member (toLowerCase P) name ms0) as [a'|] eqn:E; simpl; [discriminate|].
      match goal with
      | |- context [searchGuilds P name (g_id g) (guilds_cache P) ?w0] =>
          pose proof (searchGuilds_complete P name (g_id g) (guilds_cache P) w0) as Hs;
          pose proof (searchGuilds_safe P name (g_id g) (guilds_cache P) w0) as [Hok _];
          destruct (searchGuilds P name (g_id g) (guilds_cache P) w0) as [[[a'|]|] w1]
      end; simpl in *; try discriminate.
      intros H. injection H as H. split.
      * intros g' ms m Hg Hf Hm.
        destruct (String.eqb_spec (g_id g') (g_id g)) as [Heq|Hne].
        -- rewrite Heq, Ef in Hf. injection Hf as <-.
           exact (find_member_none _ name ms0 E m Hm).
        -- destruct Hg as [-> | Hin]; [contradiction|].
           exact (Hs eq_refl g' ms m Hin Hne Hf Hm).
      * intros u Hu. exact (List.find_none _ _ H u Hu).
    + match goal with
      | |- context [searchGuilds P name (g_id g) (guilds_cache P) ?w0] =>
          pose proof (searchGuilds_complete P name (g_id g) (guilds_cache P) w0) as Hs;
          pose proof (searchGuilds_safe P name (g_id g) (guilds_cache P) w0) as [Hok _];
          destruct (searchGuilds P name (g_id g) (guilds_cache P) w0) as [[[a'|]|] w1]
      end; simpl in *; try discriminate.
      intros H. injection H as H. split.
      * intros g' ms m Hg Hf Hm.
        destruct (String.eqb_spec (g_id g') (g_id g)) as [Heq|Hne].
        -- rewrite Heq, Ef in Hf. discriminate.
        -- destruct Hg as [-> | Hin]; [contradiction|].
           exact (Hs eq_refl g' ms m Hin Hne Hf Hm).
      * intros u Hu. exact (List.find_none _ _ H u Hu).
Qed.

Lemma reviewer_search_is_sound_and_complete_witness :
  locateReviewer (Cases.two_guilds Cases.reviewer_at_home) Scenario.home "devloafyt"
    empty_world =
    (Ok (Some Scenario.reviewer), advance empty_world [EFetchMembers "7"] []) /\
  matchesName asciiLowerCase "devloafyt" Scenario.reviewer = true.
Proof.
  destruct (reviewer_search_is_sound_and_complete
              (Cases.two_guilds Cases.reviewer_at_home) Scenario.home "devloafyt"
              empty_world) as (_ & Hsound & Hhome & _).
  assert (Hrun := Hhome [Scenario.offender_member; Scenario.reviewer_member]
                    Scenario.reviewer eq_refl eq_refl).
  split; [exact Hrun|].
  apply Hsound. rewrite Hrun. reflexivity.
Defined.

(** ** The channel of the moderators *)

Lemma findModChannel_some (lower : string -> string) (names : list string) (cs : list Channel) (c : Channel) :
  findModChannel lower names cs = Some c ->
  In c cs /\
  exists k,
    names !! k = Some (lower (c_name c)) /\
    forall k' c',
      (k' < k)%nat -> In c' cs -> names !! k' <> Some (lower (c_name c')).
Proof.
  revert c. induction names as [|name rest IH]; intros c; simpl; [discriminate|].
  destruct (List.find (fun c => String.eqb (lower (c_name c)) name) cs)
    as [c0|] eqn:E.
  - intros [= <-]. apply List.find_some in E as [Hin Hn].
    apply String.eqb_eq in Hn. split; [exact Hin|].
    exists 0%nat. split; [simpl; now rewrite Hn | intros k' c' Hlt; lia].
  - intros H. destruct (IH c H) as (Hin & k & Hk & Hmin). split; [exact Hin|].
    exists (S k). split; [exact Hk|].
    intros [|k'] c' Hlt Hin'; simpl.
    + intros [= Hn]. pose proof (List.find_none _ _ E c' Hin') as Hf. simpl in Hf.
      rewrite Hn, String.eqb_refl in Hf. discriminate.
    + apply Hmin; [lia | exact Hin'].
Qed.

Lemma findModChannel_none (lower : string -> string) (names : list string) (cs : list Channel) :
  findModChannel lower names cs = None ->
  forall c, In c cs -> ~ In (lower (c_name c)) names.
Proof.
  induction names as [|name rest IH]; simpl; [intros _ c _ []|].
  destruct (List.find (fun c => String.eqb (lower (c_name c)) name) cs)
    as [c0|] eqn:E; [discriminate|].
  intros H c Hin [Hn | Hr].
  - pose proof (List.find_none _ _ E c Hin) as Hf. simpl in Hf.
    rewrite Hn, String.eqb_refl in Hf. discriminate.
  - exact (IH H c Hin Hr).
Qed.

(** X17: the channel of the moderators is chosen by the rank of its name,
    not by its place among the channels.  When [modChannel] returns a
    channel, it is a text channel of the cache whose name, as [toLowerCase]
    returns it, is on the list of fifteen names, and no text channel bears a name that comes
    earlier on the list.  When it returns none, no text channel bears a name
    of the list. *)
Theorem mod_channel_is_the_best_named (P : Platform) :
  (forall c,
     modChannel P = Some c ->
     In c (channels_cache P) /\ c_text c = true /\
     exists k,
       modChannelNames !! k = Some (toLowerCase P (c_name c)) /\
       forall k' c',
         (k' < k)%nat -> In c' (channels_cache P) -> c_text c' = true ->
         modChannelNames !! k' <> Some (toLowerCase P (c_name c'))) /\
  (modChannel P = None ->
   forall c, In c (channels_cache P) -> c_text c = true ->
             ~ In (toLowerCase P (c_name c)) modChannelNames).
Proof.
  unfold modChannel. split.
  - intros c H. apply findModChannel_some in H as (Hin & k & Hk & Hmin).
    apply List.filter_In in Hin as [Hin Ht]. split; [exact Hin|]. split; [exact Ht|].
    exists k. split; [exact Hk|]. intros k' c' Hlt Hin' Ht'.
    apply Hmin; [exact Hlt|]. apply List.filter_In. now split.
  - intros H c Hin Ht. apply (findModChannel_none _ _ _ H).
    apply List.filter_In. now split.
Qed.

Lemma mod_channel_is_the_best_named_witness :
  modChannel (Cases.channels [Scenario.general; Cases.voice_mod_log; Cases.staff;
                              Scenario.mod_log]) = Some Scenario.mod_log /\
  c_text Scenario.mod_log = true /\
  modChannel (Cases.channels [Scenario.general; Cases.voice_mod_log]) = None /\
  ~ In (asciiLowerCase (c_name Scenario.general)) modChannelNames.
Proof.
  destruct (mod_channel_is_the_best_named
              (Cases.channels [Scenario.general; Cases.voice_mod_log; Cases.staff;
                               Scenario.mod_log])) as [Hsome _].
  destruct (Hsome Scenario.mod_log eq_refl) as (_ & Ht & _).
  destruct (mod_channel_is_the_best_named
              (Cases.channels [Scenario.general; Cases.voice_mod_log])) as [_ Hnone].
  split; [reflexivity|]. split; [exact Ht|]. split; [reflexivity|].
  apply (Hnone eq_refl Scenario.general); [now left | reflexivity].
Defined.

(** ** The configuration: [ConfigManager] *)

Lemma find_findIndex {A} (p : A -> bool) (l : list A) :
  match findIndex p l with
  | Some i =>
      exists x, l !! i = Some x /\ List.find p l = Some x /\ p x = true /\
                forall j y, (j < i)%nat -> l !! j = Some y -> p y = false
  | None => List.find p l = None
  end.
Proof.
  induction l as [|a l IH]; simpl; [reflexivity|].
  destruct (p a) eqn:Ea.
  - exists a. repeat split; auto. intros j y Hlt. lia.
  - destruct (findIndex p l) as [i|]; simpl; [|exact IH].
    destruct IH as (x & Hx & Hf & Hp & Hmin). exists x. repeat split; auto.
    intros [|j] y Hlt Hy; simpl in Hy.
    + injection Hy as <-. exact Ea.
    + apply (Hmin j y); [lia | exact Hy].
Qed.

Lemma alter_is_insert {A} (f : A -> A) (l : list A) (i : nat) (x : A) :
  l !! i = Some x -> alter f i l = <[ i := f x ]> l.
Proof.
  revert i. induction l as [|a l IH]; intros [|i]; simpl; try discriminate.
  - now intros [= ->].
  - intros H. f_equal. now apply IH.
Qed.

Lemma find_after_insert {A} (p : A -> bool) (l : list A) (i : nat) (x x' : A) :
  l !! i = Some x ->
  (forall j y, (j < i)%nat -> l !! j = Some y -> p y = false) ->
  p x' = true ->
  List.find p (<[ i := x' ]> l) = Some x'.
Proof.
  revert i. induction l as [|a l IH]; intros [|i]; simpl; try discriminate.
  - intros _ _ ->. reflexivity.
  - intros Hx Hmin Hp.
    rewrite (Hmin 0%nat a) by (simpl; auto; lia).
    apply IH; [exact Hx| |exact Hp].
    intros j y Hlt Hy. apply (Hmin (S j) y); [lia | exact Hy].
Qed.

Lemma spread_lookup (a b : gmap string JS.value) (k : string) :
  spread a b !! k = match b !! k with Some v => Some v | None => a !! k end.
Proof.
  unfold spread. destruct (b !! k) as [v|] eqn:E.
  - now apply lookup_union_Some_raw; left.
  - now rewrite lookup_union_r.
Qed.

Lemma json_storable : forall v : JS.value, JS.storable v = true -> JS.json v = v.
Proof.
  fix IH 1. intros [| |b|n|str|items|fields]; simpl; try reflexivity; try discriminate.
  - destruct n as [[]| | |]; simpl; try discriminate; reflexivity.
  - intros H. f_equal. induction items as [|x items IHl]; simpl in *; [reflexivity|].
    apply andb_true_iff in H as [Hx Hl]. rewrite (IH x Hx), (IHl Hl). reflexivity.
  - intros H. f_equal. revert H. generalize (@nil string).
    induction fields as [|[k x] fields IHl]; intros seen H; [reflexivity|].
    apply andb_true_iff in H as [H Hl]. apply andb_true_iff in H as [Hk Hx].
    apply negb_true_iff in Hk. rewrite Hk, (IHl _ Hl), (IH x Hx).
    destruct x; try reflexivity. discriminate.
Qed.

Lemma jsonObject_lookup (o : gmap string JS.value) (k : string) :
  ConfigManager.jsonObject o !! k =
    match o !! k with
    | Some JS.VUndefined | None => None
    | Some x => Some (JS.json x)
    end.
Proof.
  unfold ConfigManager.jsonObject. rewrite lookup_omap.
  destruct (o !! k) as [[]|]; reflexivity.
Qed.

Lemma jsonObject_storable (o : gmap string JS.value) :
  storableObject o -> ConfigManager.jsonObject o = o.
Proof.
  intros H. apply map_eq. intros k. rewrite jsonObject_lookup.
  destruct (o !! k) as [x|] eqn:E; [|reflexivity].
  specialize (H k x E). simpl in H. rewrite (json_storable x H).
  destruct x; try reflexivity. discriminate.
Qed.

Lemma map_jsonObject_storable (rs : list (gmap string JS.value)) :
  Forall storableObject rs -> map ConfigManager.jsonObject rs = rs.
Proof.
  induction 1 as [|r rs Hr _ IH]; simpl; [reflexivity|].
  now rewrite (jsonObject_storable r Hr), IH.
Qed.

(** X18: [updateRule] with an id no rule bears changes nothing: it returns
    [undefined], the rules in memory are what they were and the file is not
    written. *)
Theorem updateRule_unknown_id_changes_nothing (ruleId : string)
    (updates : gmap string JS.value) (written : bool) (s : ConfigManager.State) :
  ConfigManager.getRule ruleId s = None ->
  ConfigManager.updateRule ruleId updates written s = (None, s).
Proof.
  unfold ConfigManager.getRule, ConfigManager.updateRule. intros H.
  pose proof (find_findIndex (ConfigManager.has_id ruleId) (ConfigManager.getRules s)) as F.
  destruct (findIndex (ConfigManager.has_id ruleId) (ConfigManager.getRules s)) as [i|];
    [|reflexivity].
  destruct F as (x & _ & Hf & _). congruence.
Qed.

(** X19: [updateRule] merges in place.  When a rule bears the id, the first
    such rule is replaced, where it stands, by the rule with the properties
    of [updates] laid over its own; that merged rule is returned; the other
    rules, their order and the settings are kept.  Unless [updates] itself
    carries an [id], [getRule] with the same id then returns the merged rule.
    When the write went through, the file holds [JSON.stringify] of the new
    configuration: the merged rule as JSON text carries it, a number that is
    not finite as [null], and as it is when all its values are ones JSON
    text carries.  When the write did not go through the file is
    untouched. *)
Theorem updateRule_merges_in_place (ruleId : string) (updates : gmap string JS.value)
    (written : bool) (s : ConfigManager.State) (r : gmap string JS.value) :
  ConfigManager.getRule ruleId s = Some r ->
  exists idx s',
    ConfigManager.getRules s !! idx = Some r /\
    ConfigManager.updateRule ruleId updates written s = (Some (spread r updates), s') /\
    ConfigManager.getRules s' = <[ idx := spread r updates ]> (ConfigManager.getRules s) /\
    (forall k, spread r updates !! k =
               match updates !! k with Some v => Some v | None => r !! k end) /\
    ConfigManager.getSettings s' = ConfigManager.getSettings s /\
    (updates !! "id" = None ->
     ConfigManager.getRule ruleId s' = Some (spread r updates)) /\
    (written = true ->
     exists saved,
       ConfigManager.file s' = ConfigManager.Holds saved /\
       ConfigManager.saved_rules saved =
         Some (<[ idx := ConfigManager.jsonObject (spread r updates) ]>
                 (map ConfigManager.jsonObject (ConfigManager.getRules s))) /\
       ConfigManager.saved_settings saved =
         Some (ConfigManager.jsonObject (ConfigManager.getSettings s)) /\
       (storableObject (spread r updates) ->
        ConfigManager.jsonObject (spread r updates) = spread r updates)) /\
    (written = false -> ConfigManager.file s' = ConfigManager.file s).
Proof.
  unfold ConfigManager.getRule, ConfigManager.updateRule. intros H.
  pose proof (find_findIndex (ConfigManager.has_id ruleId) (ConfigManager.getRules s)) as F.
  destruct (findIndex (ConfigManager.has_id ruleId) (ConfigManager.getRules s)) as [i|];
    [|congruence].
  destruct F as (x & Hx & Hf & Hp & Hmin).
  assert (x = r) by congruence. subst x.
  rewrite (alter_is_insert _ _ i r Hx).
  exists i. eexists. split; [exact Hx|].
  split.
  { f_equal. rewrite list_lookup_insert_eq; [reflexivity|].
    apply lookup_lt_Some in Hx. exact Hx. }
  split; [destruct written; reflexivity|].
  split; [intros k; apply spread_lookup|].
  split; [destruct written; reflexivity|].
  split.
  { intros Hid.
    assert (Hr : ConfigManager.getRules
                   (ConfigManager.setRules (<[ i := spread r updates ]> (ConfigManager.getRules s))
                      written s) = <[ i := spread r updates ]> (ConfigManager.getRules s))
      by (destruct written; reflexivity).
    rewrite Hr. apply (find_after_insert _ _ i r); [exact Hx | exact Hmin|].
    unfold ConfigManager.has_id, property in *. now rewrite spread_lookup, Hid. }
  split; [|intros ->; reflexivity].
  intros ->. eexists. split; [reflexivity|]. simpl.
  split; [f_equal; apply list_fmap_insert|].
  split; [reflexivity | apply jsonObject_storable].
Qed.

Lemma updateRule_unknown_id_changes_nothing_witness :
  ConfigManager.updateRule "flood" Desk.softer true Desk.fresh = (None, Desk.fresh).
Proof.
  apply (updateRule_unknown_id_changes_nothing "flood" Desk.softer true Desk.fresh).
  reflexivity.
Defined.

Lemma updateRule_merges_in_place_witness :
  exists s',
    ConfigManager.updateRule "spam" Desk.softer true Desk.fresh =
      (Some (spread Desk.spam_rule Desk.softer), s') /\
    ConfigManager.getRules s' =
      [spread Desk.spam_rule Desk.softer; Desk.threats_rule] /\
    spread Desk.spam_rule Desk.softer !! "action" = Some (JS.VStr "warn") /\
    spread Desk.spam_rule Desk.softer !! "id" = Some (JS.VStr "spam") /\
    ConfigManager.getRule "spam" s' = Some (spread Desk.spam_rule Desk.softer) /\
    exists saved,
      ConfigManager.file s' = ConfigManager.Holds saved /\
      ConfigManager.saved_rules saved =
        Some [spread Desk.spam_rule Desk.softer; Desk.threats_rule].
Proof.
  destruct (updateRule_merges_in_place "spam" Desk.softer true Desk.fresh Desk.spam_rule
              eq_refl)
    as (idx & s' & Hidx & Hrun & Hrules & Hk & _ & Hget & Hfile & _).
  assert (idx = 0%nat) as ->.
  { destruct idx as [|[|idx]]; [reflexivity| |]; simpl in Hidx; discriminate. }
  exists s'. split; [exact Hrun|]. split; [exact Hrules|].
  split; [rewrite Hk; reflexivity|]. split; [rewrite Hk; reflexivity|].
  split; [apply Hget; reflexivity|].
  destruct (Hfile eq_refl) as (saved & Hf & Hr & _).
  exists saved. split; [exact Hf|]. rewrite Hr. reflexivity.
Defined.

(** X20: an import lays the settings over the present ones and replaces the
    rules.  After [importConfig] the rules are those of the bundle when it
    has some (the present ones otherwise), and every setting has the value
    the bundle gives it, or its present value when the bundle does not name
    it: no setting is ever removed.  The credentials are untouched.
    Importing what [exportConfig] returns leaves the configuration as it
    is. *)
Theorem import_overlays_settings (cfg : ConfigManager.Bundle) (written1 written2 : bool)
    (s : ConfigManager.State) :
  let s' := ConfigManager.importConfig cfg written1 written2 s in
  ConfigManager.getRules s' =
    default (ConfigManager.getRules s) (ConfigManager.b_rules cfg) /\
  (forall k,
     ConfigManager.getSettings s' !! k =
       match ConfigManager.b_settings cfg ≫= (fun updates => updates !! k) with
       | Some v => Some v
       | None => ConfigManager.getSettings s !! k
       end) /\
  ConfigManager.botToken (ConfigManager.config s') =
    ConfigManager.botToken (ConfigManager.config s) /\
  ConfigManager.pollinationsKey (ConfigManager.config s') =
    ConfigManager.pollinationsKey (ConfigManager.config s) /\
  ConfigManager.config
    (ConfigManager.importConfig (ConfigManager.exportConfig s) written1 written2 s) =
    ConfigManager.config s.
Proof.
  cbv zeta. unfold ConfigManager.importConfig, ConfigManager.exportConfig.
  split; [|split; [|split; [|split]]].
  - destruct cfg as [[rs|] [u|]]; simpl; destruct written1, written2; reflexivity.
  - intros k. destruct cfg as [[rs|] [u|]]; simpl;
      destruct written1, written2; simpl; try reflexivity;
      unfold ConfigManager.getSettings; simpl; apply spread_lookup.
  - destruct cfg as [[rs|] [u|]]; simpl; destruct written1, written2; reflexivity.
  - destruct cfg as [[rs|] [u|]]; simpl; destruct written1, written2; reflexivity.
  - simpl. destruct s as [[rs st bt pk] f].
    assert (Hidem : spread st st = st).
    { apply map_eq. intros k. rewrite spread_lookup. now destruct (st !! k). }
    destruct written1, written2; simpl; unfold ConfigManager.getSettings; simpl;
      rewrite Hidem; reflexivity.
Qed.

Section ConfigHistoryFacts.
Variable moderationRules : list (gmap string JS.value).
Variable globalSettings : gmap string JS.value.
Variable BOT_TOKEN : string.
Variable POLLINATIONS_KEY : string.

Local Abbreviation defaults :=
  (ConfigManager.getDefaults moderationRules globalSettings BOT_TOKEN POLLINATIONS_KEY).
Local Abbreviation initial :=
  (ConfigManager.initial moderationRules globalSettings BOT_TOKEN POLLINATIONS_KEY).
Local Abbreviation run :=
  (configRun moderationRules globalSettings BOT_TOKEN POLLINATIONS_KEY).
Local Abbreviation step :=
  (configStep moderationRules globalSettings BOT_TOKEN POLLINATIONS_KEY).
Local Abbreviation complete :=
  (complete moderationRules globalSettings BOT_TOKEN POLLINATIONS_KEY).

Lemma configRun_snoc (ops : list ConfigOp) (op : ConfigOp) (s : ConfigManager.State) :
  run (ops ++ [op]) s = step op (run ops s).
Proof. revert s. induction ops as [|o ops IH]; intros s; simpl; [reflexivity | apply IH]. Qed.

Lemma complete_initial (f : ConfigManager.File) : complete (initial f).
Proof.
  intros k Hk. destruct f as [| |saved]; simpl; try exact Hk.
  rewrite spread_lookup. destruct (default ∅ (ConfigManager.saved_settings saved) !! k);
    [eauto | exact Hk].
Qed.

Lemma complete_saveConfig (written : bool) (s : ConfigManager.State) :
  complete s -> complete (ConfigManager.saveConfig written s).
Proof. destruct written; auto. Qed.

Lemma complete_step (op : ConfigOp) (s : ConfigManager.State) :
  complete s -> complete (step op s).
Proof.
  assert (Hover : forall u w s0, complete s0 ->
            complete (snd (ConfigManager.updateSettings u w s0))).
  { intros u w s0 H0. unfold ConfigManager.updateSettings. simpl.
    apply complete_saveConfig. intros k Hk. simpl. rewrite spread_lookup.
    destruct (u !! k); [eauto | exact (H0 k Hk)]. }
  intros Hc. destruct op as [rs w|id u w|u w|t w|w|cfg w1 w2]; simpl.
  - unfold ConfigManager.setRules. apply complete_saveConfig. exact Hc.
  - unfold ConfigManager.updateRule.
    destruct (findIndex (ConfigManager.has_id id) (ConfigManager.getRules s)); simpl;
      [|exact Hc].
    unfold ConfigManager.setRules. apply complete_saveConfig. exact Hc.
  - apply Hover, Hc.
  - unfold ConfigManager.setBotToken. apply complete_saveConfig. exact Hc.
  - unfold ConfigManager.resetToDefaults. apply complete_saveConfig.
    intros k Hk. exact Hk.
  - unfold ConfigManager.importConfig.
    assert (H1 : complete
                   match ConfigManager.b_rules cfg with
                   | Some rs => ConfigManager.setRules rs w1 s
                   | None => s
                   end).
    { destruct (ConfigManager.b_rules cfg); [|exact Hc].
      unfold ConfigManager.setRules. apply complete_saveConfig. exact Hc. }
    destruct (ConfigManager.b_settings cfg); [apply Hover, H1 | exact H1].
Qed.

Lemma complete_run (ops : list ConfigOp) (s : ConfigManager.State) :
  complete s -> complete (run ops s).
Proof.
  revert s. induction ops as [|op ops IH]; intros s Hc; simpl; [exact Hc|].
  apply IH, complete_step, Hc.
Qed.

Lemma lands_inSync (op : ConfigOp) (s : ConfigManager.State) :
  lands op = true -> inSync (step op s).
Proof.
  destruct op as [rs w|id u w|u w|t w|w|cfg w1 w2]; simpl; try discriminate;
    intros ->; reflexivity.
Qed.

Lemma str_or_absorb (a b : string) : JS.str_or (JS.str_or a b) b = JS.str_or a b.
Proof.
  unfold JS.str_or. destruct (String.eqb a "") eqn:Ea; [|now rewrite Ea].
  now destruct (String.eqb b "").
Qed.

(** X21: a restart reads back what [JSON.stringify] wrote.  Start from any
    file, make any calls with any outcomes of their writes: every default
    setting is still a property of the settings.  If the last call is one
    that writes the file ([setRules], [updateSettings], [setBotToken],
    [resetToDefaults]) and its write went through, a process started anew
    has each rule as JSON text carries it (a number that is not finite as
    [null], [-0] as [0], no property whose value is [undefined]), has each
    setting likewise, a setting that the text lost having its default, and
    [getBotToken] and [getPollinationsKey] answer as before.  When every value
    of the rules and of the settings is one JSON text carries, the rules and
    the settings read back are those of before.  A reset to the defaults
    restores the default rules and settings and keeps both credentials. *)
Theorem restart_restores_the_configuration (f : ConfigManager.File)
    (ops : list ConfigOp) (op : ConfigOp) :
  let s := run (ops ++ [op]) (initial f) in
  let s' := restart moderationRules globalSettings BOT_TOKEN POLLINATIONS_KEY s in
  complete s /\
  (lands op = true ->
   ConfigManager.getRules s' = map ConfigManager.jsonObject (ConfigManager.getRules s) /\
   (forall k,
      ConfigManager.getSettings s' !! k =
        match ConfigManager.jsonObject (ConfigManager.getSettings s) !! k with
        | Some x => Some x
        | None => ConfigManager.settings defaults !! k
        end) /\
   ConfigManager.getBotToken BOT_TOKEN s' = ConfigManager.getBotToken BOT_TOKEN s /\
   ConfigManager.getPollinationsKey POLLINATIONS_KEY s' =
     ConfigManager.getPollinationsKey POLLINATIONS_KEY s /\
   (storableConfig s ->
    ConfigManager.getRules s' = ConfigManager.getRules s /\
    ConfigManager.getSettings s' = ConfigManager.getSettings s)) /\
  (forall written,
     op = OpReset written ->
     ConfigManager.getRules s = ConfigManager.rules defaults /\
     ConfigManager.getSettings s = ConfigManager.settings defaults /\
     ConfigManager.getBotToken BOT_TOKEN s =
       ConfigManager.getBotToken BOT_TOKEN (run ops (initial f)) /\
     ConfigManager.getPollinationsKey POLLINATIONS_KEY s =
       ConfigManager.getPollinationsKey POLLINATIONS_KEY (run ops (initial f))).
Proof.
  cbv zeta.
  set (s0 := initial f).
  assert (Hc : complete (run (ops ++ [op]) s0))
    by (apply complete_run, complete_initial).
  split; [exact Hc|]. split.
  - intros Hl. rewrite configRun_snoc in *.
    pose proof (lands_inSync op (run ops s0) Hl) as Hs.
    set (s := step op (run ops s0)) in *.
    unfold restart, ConfigManager.initial, ConfigManager.getRules,
      ConfigManager.getSettings, ConfigManager.getBotToken,
      ConfigManager.getPollinationsKey.
    unfold inSync in Hs. rewrite Hs. simpl.
    split; [reflexivity|]. split; [intros k; apply spread_lookup|].
    split; [apply str_or_absorb|]. split; [apply str_or_absorb|].
    intros [Hr Hst]. unfold ConfigManager.getRules, ConfigManager.getSettings in Hr, Hst.
    split; [now apply map_jsonObject_storable|].
    rewrite (jsonObject_storable _ Hst).
    apply map_eq. intros k. rewrite spread_lookup.
    destruct (ConfigManager.settings (ConfigManager.config s) !! k) eqn:E; [reflexivity|].
    destruct (ConfigManager.jsonObject globalSettings !! k) eqn:Eg; [|reflexivity].
    destruct (Hc k) as [v' Hv]; [simpl; rewrite Eg; eauto|]. congruence.
  - intros written ->. rewrite configRun_snoc. simpl.
    unfold ConfigManager.resetToDefaults, ConfigManager.getRules,
      ConfigManager.getSettings, ConfigManager.getBotToken,
      ConfigManager.getPollinationsKey.
    destruct written; simpl; repeat split; reflexivity.
Qed.

End ConfigHistoryFacts.

Lemma restart_restores_the_configuration_witness :
  let s := configRun [Desk.spam_rule; Desk.threats_rule] Desk.default_settings "" ""
             [OpUpdateRule "spam" Desk.softer false; OpUpdateSettings Desk.quieter true]
             Desk.fresh in
  ConfigManager.getRules
    (restart [Desk.spam_rule; Desk.threats_rule] Desk.default_settings "" "" s) =
    ConfigManager.getRules s /\
  ConfigManager.getSettings
    (restart [Desk.spam_rule; Desk.threats_rule] Desk.default_settings "" "" s) =
    ConfigManager.getSettings s.
Proof.
  destruct (restart_restores_the_configuration [Desk.spam_rule; Desk.threats_rule]
              Desk.default_settings "" "" ConfigManager.Missing
              [OpUpdateRule "spam" Desk.softer false]
              (OpUpdateSettings Desk.quieter true)) as (_ & H & _).
  destruct (H eq_refl) as (_ & _ & _ & _ & Hst).
  apply Hst. split.
  - repeat (apply List.Forall_cons; [apply map_Forall_to_list; vm_compute; repeat constructor|]).
    apply List.Forall_nil.
  - apply map_Forall_to_list. vm_compute. repeat constructor.
Defined.

(** What the text does not carry: a duration of [Infinity] is merged into
    the rule in memory as it is, saved as [null], and read back as [null]. *)
Lemma infinite_duration_is_read_back_as_null :
  let s := configRun [Desk.spam_rule; Desk.threats_rule] Desk.default_settings "" ""
             [OpUpdateRule "spam"
                {[ "timeoutDuration" := JS.VNum (S754_infinity false) ]} true]
             Desk.fresh in
  (ConfigManager.getRule "spam" s ≫= (fun r => r !! "timeoutDuration")) =
    Some (JS.VNum (S754_infinity false)) /\
  (ConfigManager.getRule "spam"
     (restart [Desk.spam_rule; Desk.threats_rule] Desk.default_settings "" "" s)
     ≫= (fun r => r !! "timeoutDuration")) = Some JS.VNull.
Proof. split; reflexivity. Qed.

(** ** The log: [Logger] *)

Lemma slice_negative {A} (n : nat) (l : list A) :
  (0 < n)%nat -> slice (Fin (- Z.of_nat n)) l = newest n l.
Proof.
  intros Hn. unfold slice, newest.
  destruct (Z.ltb_spec (- Z.of_nat n) 0) as [_|H]; [|lia].
  f_equal. lia.
Qed.

Lemma newest_all {A} (n : nat) (l : list A) : (length l <= n)%nat -> newest n l = l.
Proof. intros H. unfold newest. replace (length l - n)%nat with 0%nat by lia. reflexivity. Qed.

Lemma newest_length {A} (n : nat) (l : list A) : length (newest n l) = Nat.min n (length l).
Proof. unfold newest. rewrite length_drop. lia. Qed.

Lemma newest_app {A} (n : nat) (p rest : list A) :
  newest n (newest n p ++ rest) = newest n (p ++ rest).
Proof.
  destruct (Nat.le_gt_cases (length p) n) as [Hle|Hgt].
  - now rewrite (newest_all n p Hle).
  - unfold newest at 1 3. rewrite !length_app, newest_length.
    replace (Nat.min n (length p) + length rest - n)%nat with (length rest) by lia.
    replace (length p + length rest - n)%nat
      with ((length p - n) + length rest)%nat by lia.
    rewrite <- drop_drop. f_equal. unfold newest.
    rewrite drop_app_le by lia. reflexivity.
Qed.

Lemma log_logs (id timestamp day : string) (written : bool) (entry : gmap string JS.value)
    (st : Logger.State) :
  Logger.logs (snd (Logger.log id timestamp day written entry st)) =
    newest Logger.maxMemoryLogs (Logger.logs st ++ [Logger.stamped id timestamp entry]).
Proof.
  unfold Logger.log. cbv zeta. cbn [snd Logger.logs].
  destruct (Nat.ltb_spec Logger.maxMemoryLogs
              (length (Logger.logs st ++ [Logger.stamped id timestamp entry]))) as [Hlt|Hle].
  - apply slice_negative. unfold Logger.maxMemoryLogs. lia.
  - symmetry. now apply newest_all.
Qed.

(** X22: the memory of the logger is a window on the last 5000 entries.
    Starting with no more than 5000 entries in memory, after any number of
    calls of [log] the memory holds the last 5000 of the entries it held and
    the entries logged since, in their order, and never more than 5000;
    whether the writes to the file went through plays no part, and the
    listeners are who they were. *)
Theorem memory_keeps_the_newest (batch : list LogCall) (st : Logger.State) :
  (length (Logger.logs st) <= Logger.maxMemoryLogs)%nat ->
  Logger.logs (logAll batch st) =
    newest Logger.maxMemoryLogs (Logger.logs st ++ map logged batch) /\
  (length (Logger.logs (logAll batch st)) <= Logger.maxMemoryLogs)%nat /\
  Logger.listeners (logAll batch st) = Logger.listeners st.
Proof.
  revert st. induction batch as [|c rest IH]; intros st Hlen; cbn [logAll map].
  - rewrite app_nil_r. split; [symmetry; now apply newest_all|]. split; [exact Hlen|].
    reflexivity.
  - destruct (IH (snd (Logger.log (lc_id c) (lc_timestamp c) (lc_day c) (lc_written c)
                         (lc_entry c) st))) as (Hl & Hb & Hs).
    { rewrite log_logs, newest_length. lia. }
    split; [|split; [exact Hb | exact Hs]].
    rewrite Hl, log_logs. fold (logged c). rewrite newest_app, <- app_assoc.
    reflexivity.
Qed.

Lemma memory_keeps_the_newest_witness :
  Logger.logs (logAll [Desk.first_call; Desk.second_call] Logger.empty) =
    [logged Desk.first_call; logged Desk.second_call].
Proof.
  destruct (memory_keeps_the_newest [Desk.first_call; Desk.second_call] Logger.empty)
    as (H & _).
  - unfold Logger.maxMemoryLogs. simpl. lia.
  - rewrite H. reflexivity.
Defined.

(** X23: [getRecentLogs] and the sign of its argument.  For a positive
    [count] it returns the last [count] entries of the memory, all of them
    when there are fewer.  For 0 it returns the whole memory, not nothing:
    [slice(-0)] is [slice(0)].  For a negative [count] it returns the memory
    without its first [-count] entries. *)
Theorem recent_logs_by_sign (count : Z) (st : Logger.State) :
  (0 < count ->
   Logger.getRecentLogs count st = newest (Z.to_nat count) (Logger.logs st)) /\
  (count = 0 -> Logger.getRecentLogs count st = Logger.logs st) /\
  (count < 0 ->
   Logger.getRecentLogs count st = drop (Z.to_nat (- count)) (Logger.logs st)).
Proof.
  unfold Logger.getRecentLogs. split; [|split].
  - intros H. rewrite <- (Z2Nat.id count) at 1 by lia.
    apply slice_negative. lia.
  - intros ->. unfold slice. simpl. rewrite Z.min_l by lia. reflexivity.
  - intros H. unfold slice.
    destruct (Z.ltb_spec (- count) 0) as [H'|_]; [lia|].
    destruct (Z.le_gt_cases (- count) (Z.of_nat (length (Logger.logs st)))) as [Hle|Hgt].
    + now rewrite Z.min_l.
    + rewrite Z.min_r by lia. rewrite Nat2Z.id.
      rewrite !drop_ge by lia. reflexivity.
Qed.

Lemma recent_logs_by_sign_witness :
  Logger.getRecentLogs 2 Desk.three_logged =
    [logged Desk.second_call; logged Desk.third_call] /\
  Logger.getRecentLogs 0 Desk.three_logged =
    [logged Desk.first_call; logged Desk.second_call; logged Desk.third_call] /\
  Logger.getRecentLogs (-1) Desk.three_logged =
    [logged Desk.second_call; logged Desk.third_call].
Proof.
  destruct (recent_logs_by_sign 2 Desk.three_logged) as (H2 & _).
  destruct (recent_logs_by_sign 0 Desk.three_logged) as (_ & H0 & _).
  destruct (recent_logs_by_sign (-1) Desk.three_logged) as (_ & _ & Hn).
  split; [rewrite H2 by lia; reflexivity|].
  split; [rewrite H0 by reflexivity; reflexivity|].
  rewrite Hn by lia. reflexivity.
Defined.

Lemma filter_twice {A} (p q : A -> bool) (l : list A) :
  List.filter q (List.filter p l) = List.filter (fun x => p x && q x) l.
Proof.
  induction l as [|a l IH]; simpl; [reflexivity|].
  destruct (p a); simpl; [destruct (q a)|]; now rewrite IH.
Qed.

Lemma filter_when {A} (b : bool) (p q : A -> bool) (l : list A) :
  (if b then List.filter q (List.filter p l) else List.filter p l) =
    List.filter (fun x => p x && (negb b || q x)) l.
Proof.
  destruct b; simpl; [apply filter_twice|].
  apply List.filter_ext. intros x. now rewrite andb_true_r.
Qed.

Lemma ToIntegerOrInfinity_opp (x : JS.number) (z : Z) :
  ToIntegerOrInfinity x = Fin z -> ToIntegerOrInfinity (SFopp x) = Fin (- z).
Proof.
  destruct x as [s|s| |s m e]; simpl.
  - now intros [= <-].
  - destruct s; discriminate.
  - now intros [= <-].
  - intros [= <-]. destruct s; simpl; f_equal; lia.
Qed.

Section QueryFacts.
Variable StringToNumber : string -> JS.number.
Variable dateOf : JS.value -> option Z.

Lemma getLogs_unlimited (o : Logger.Options) (st : Logger.State) :
  Logger.getLogs StringToNumber dateOf (withoutLimit o) st =
    List.filter (passes dateOf o) (Logger.logs st).
Proof.
  assert (Hall : forall (p : gmap string JS.value -> bool) l,
             (forall x, p x = true) -> l = List.filter p l).
  { intros p l Hp. induction l as [|a l IH]; simpl; [reflexivity|].
    rewrite Hp. now f_equal. }
  unfold Logger.getLogs, withoutLimit, passes. cbn -[Logger.given Logger.notBefore].
  change (Logger.given "") with false. cbv iota.
  destruct (Logger.given (Logger.o_type o)), (Logger.given (Logger.o_guildId o)),
    (Logger.given (Logger.o_userId o)), (Logger.given (Logger.o_severity o)),
    (Logger.given (Logger.o_since o)); cbn -[Logger.notBefore];
    rewrite ?filter_twice;
    first [ apply List.filter_ext; intros x; rewrite ?andb_true_r, ?andb_assoc;
            reflexivity
          | apply Hall; intros x; reflexivity ].
Qed.

(** X24: [getLogs] is one filter and a cut.  Without a limit it returns, in
    their order, exactly the entries of the memory that pass every filter
    given: the type, the guild, the user and the severity are compared as
    strings, and the time stamp is not before [since]; an entry that lacks a
    property named by a filter does not pass.  With a limit that reads as a
    positive integer [n] it returns the last [n] of those.  A limit that
    reads as 0 or as no number at all ("0", "abc") cuts nothing. *)
Theorem getLogs_filters_then_cuts (o : Logger.Options) (st : Logger.State) :
  Logger.getLogs StringToNumber dateOf (withoutLimit o) st =
    List.filter (passes dateOf o) (Logger.logs st) /\
  (Logger.given (Logger.o_limit o) = false ->
   Logger.getLogs StringToNumber dateOf o st =
     List.filter (passes dateOf o) (Logger.logs st)) /\
  (forall n,
     Logger.given (Logger.o_limit o) = true ->
     ToIntegerOrInfinity (StringToNumber (Logger.o_limit o)) = Fin n ->
     (0 < n ->
      Logger.getLogs StringToNumber dateOf o st =
        newest (Z.to_nat n) (List.filter (passes dateOf o) (Logger.logs st))) /\
     (n = 0 ->
      Logger.getLogs StringToNumber dateOf o st =
        List.filter (passes dateOf o) (Logger.logs st))).
Proof.
  pose proof (getLogs_unlimited o st) as Hu.
  split; [exact Hu|].
  assert (Hcut : Logger.getLogs StringToNumber dateOf o st =
                 if Logger.given (Logger.o_limit o)
                 then slice (ToIntegerOrInfinity (SFopp (StringToNumber (Logger.o_limit o))))
                        (Logger.getLogs StringToNumber dateOf (withoutLimit o) st)
                 else Logger.getLogs StringToNumber dateOf (withoutLimit o) st).
  { unfold Logger.getLogs, withoutLimit. cbn -[Logger.given Logger.notBefore slice].
    change (Logger.given "") with false. cbv iota. reflexivity. }
  rewrite Hcut, Hu. split.
  - intros ->. reflexivity.
  - intros n -> Hn. rewrite (ToIntegerOrInfinity_opp _ n Hn). split.
    + intros Hpos. rewrite <- (Z2Nat.id n) at 1 by lia. apply slice_negative. lia.
    + intros ->. unfold slice. simpl. rewrite Z.min_l by lia. reflexivity.
Qed.

End QueryFacts.

Lemma getLogs_filters_then_cuts_witness :
  Logger.getLogs Desk.read_number Desk.read_date Desk.by_user_42 Desk.three_logged =
    [logged Desk.first_call; logged Desk.third_call] /\
  Logger.getLogs Desk.read_number Desk.read_date Desk.last_two Desk.three_logged =
    [logged Desk.second_call; logged Desk.third_call].
Proof.
  destruct (getLogs_filters_then_cuts Desk.read_number Desk.read_date Desk.by_user_42
              Desk.three_logged) as (_ & Hno & _).
  destruct (getLogs_filters_then_cuts Desk.read_number Desk.read_date Desk.last_two
              Desk.three_logged) as (_ & _ & Hcut).
  destruct (Hcut 2 eq_refl eq_refl) as [Hpos _].
  split.
  - rewrite (Hno eq_refl). reflexivity.
  - rewrite Hpos by lia. reflexivity.
Defined.

(** ** The counts of [getStats] *)

Lemma filter_length_le {A} (p : A -> bool) (l : list A) :
  (length (List.filter p l) <= length l)%nat.
Proof.
  induction l as [|a l IH]; simpl; [lia|]. destruct (p a); simpl; lia.
Qed.

Lemma filter_length_mono {A} (p q : A -> bool) (l : list A) :
  (forall x, p x = true -> q x = true) ->
  (length (List.filter p l) <= length (List.filter q l))%nat.
Proof.
  intros H. induction l as [|a l IH]; simpl; [lia|].
  destruct (p a) eqn:Ep.
  - rewrite (H a Ep). simpl. lia.
  - destruct (q a); simpl; lia.
Qed.

Lemma filter_length_disjoint {A} (p q : A -> bool) (l : list A) :
  (forall x, p x = true -> q x = false) ->
  (length (List.filter p l) + length (List.filter q l) <= length l)%nat.
Proof.
  intros H. induction l as [|a l IH]; simpl; [lia|].
  destruct (p a) eqn:Ep.
  - rewrite (H a Ep). simpl. lia.
  - destruct (q a); simpl; lia.
Qed.

Lemma is_str_functional (v : JS.value) (s t : string) :
  JS.is_str v s = true -> JS.is_str v t = true -> s = t.
Proof.
  intros Hs Ht. apply is_str_true in Hs. apply is_str_true in Ht. congruence.
Qed.

Lemma four_way_split {A} (p1 p2 p3 p4 : A -> bool) (l : list A) :
  (forall x, p1 x = true -> p2 x = false /\ p3 x = false /\ p4 x = false) ->
  (forall x, p2 x = true -> p3 x = false /\ p4 x = false) ->
  (forall x, p3 x = true -> p4 x = false) ->
  (length (List.filter p1 l) + length (List.filter p2 l) +
   length (List.filter p3 l) + length (List.filter p4 l) <= length l)%nat.
Proof.
  intros H1 H2 H3. induction l as [|a l IH]; simpl; [lia|].
  destruct (p1 a) eqn:E1.
  - destruct (H1 a E1) as (-> & -> & ->). simpl. lia.
  - destruct (p2 a) eqn:E2.
    + destruct (H2 a E2) as (-> & ->). simpl. lia.
    + destruct (p3 a) eqn:E3.
      * rewrite (H3 a E3). simpl. lia.
      * destruct (p4 a); simpl; lia.
Qed.

Section StatsFacts.
Variable dateOf : JS.value -> option Z.

Lemma notBefore_earlier (s s' : Z) (l : gmap string JS.value) :
  s' <= s ->
  Logger.notBefore dateOf (Some s) l = true -> Logger.notBefore dateOf (Some s') l = true.
Proof.
  unfold Logger.notBefore. intros Hle.
  destruct (dateOf (property l "timestamp")) as [t|]; [|discriminate].
  rewrite !Z.leb_le. lia.
Qed.

Lemma window_mono_filter (now : Z) (p : gmap string JS.value -> bool) (st : Logger.State) :
  (length (List.filter p
             (List.filter (Logger.notBefore dateOf (Some (now - 24 * 60 * 60 * 1000)%Z))
                (Logger.logs st))) <=
   length (List.filter p
             (List.filter (Logger.notBefore dateOf (Some (now - 7 * 24 * 60 * 60 * 1000)%Z))
                (Logger.logs st))))%nat.
Proof.
  rewrite !filter_twice. apply filter_length_mono. intros x H.
  apply andb_true_iff in H as [Ht Hp]. apply andb_true_iff. split; [|exact Hp].
  eapply notBefore_earlier; [|exact Ht]. lia.
Qed.

(** X25: the counts of [getStats] fit together.  Whatever the memory holds
    and whatever the clock says, no count of the last 24 hours exceeds the
    same count of the last 7 days, and no window holds more than the memory.
    In each window the warnings, timeouts, kicks and ban requests together do
    not exceed the actions, and the actions together with the analyses,
    flagged or clean, do not exceed the total. *)
Theorem stats_counts_fit_together (now : Z) (st : Logger.State) :
  let day := Logger.last24h dateOf now st in
  let week := Logger.last7d dateOf now st in
  (Logger.total day <= Logger.total week <= length (Logger.logs st))%nat /\
  (Logger.actions day <= Logger.actions week)%nat /\
  (Logger.warns day <= Logger.warns week)%nat /\
  (Logger.timeouts day <= Logger.timeouts week)%nat /\
  (Logger.kicks day <= Logger.kicks week)%nat /\
  (Logger.banRequests day <= Logger.banRequests week)%nat /\
  (Logger.warns day + Logger.timeouts day + Logger.kicks day + Logger.banRequests day
   <= Logger.actions day)%nat /\
  (Logger.warns week + Logger.timeouts week + Logger.kicks week + Logger.banRequests week
   <= Logger.actions week)%nat /\
  (Logger.actions day + Logger.flagged day + Logger.clean day <= Logger.total day)%nat.
Proof.
  cbv zeta. unfold Logger.last24h, Logger.last7d, Logger.window. cbn [Logger.total
    Logger.actions Logger.warns Logger.timeouts Logger.kicks Logger.banRequests
    Logger.flagged Logger.clean].
  assert (Hkinds : forall l : list (gmap string JS.value),
            (length (List.filter (Logger.is_action "warn") l) +
             length (List.filter (Logger.is_action "timeout") l) +
             length (List.filter (Logger.is_action "kick") l) +
             length (List.filter (Logger.is_action "request_ban") l) <= length l)%nat).
  { intros l. apply four_way_split; unfold Logger.is_action; intros x Hx;
      repeat split;
      match goal with
      | |- JS.is_str ?v ?t = false =>
          destruct (JS.is_str v t) eqn:E; [|reflexivity];
          pose proof (is_str_functional _ _ _ Hx E); discriminate
      end. }
  split.
  { split.
    - apply filter_length_mono. intros x. apply notBefore_earlier. lia.
    - apply filter_length_le. }
  split; [apply window_mono_filter|].
  split; [rewrite !(filter_twice (Logger.is_type "mod_action")); apply window_mono_filter|].
  split; [rewrite !(filter_twice (Logger.is_type "mod_action")); apply window_mono_filter|].
  split; [rewrite !(filter_twice (Logger.is_type "mod_action")); apply window_mono_filter|].
  split; [rewrite !(filter_twice (Logger.is_type "mod_action")); apply window_mono_filter|].
  split; [apply Hkinds|]. split; [apply Hkinds|].
  set (recent := List.filter _ (Logger.logs st)).
  clear Hkinds. induction recent as [|a l IH]; simpl; [lia|].
  unfold Logger.is_type in *.
  destruct (JS.is_str (property a "type") "mod_action") eqn:Em.
  - assert (JS.is_str (property a "type") "ai_analysis" = false) as ->.
    { destruct (JS.is_str (property a "type") "ai_analysis") eqn:E; [|reflexivity].
      pose proof (is_str_functional _ _ _ Em E). discriminate. }
    simpl. lia.
  - destruct (JS.is_str (property a "type") "ai_analysis"); simpl; [|lia].
    destruct (JS.truthy (property a "flagged")); simpl; lia.
Qed.

End StatsFacts.

(** ** The listeners of the log *)

Lemma count_without_other (fn g : nat) (l : list nat) :
  g <> fn ->
  count_occ Nat.eq_dec (List.filter (fun x => negb (Nat.eqb x fn)) l) g =
    count_occ Nat.eq_dec l g.
Proof.
  intros Hne. induction l as [|a l IH]; simpl; [reflexivity|].
  destruct (Nat.eqb_spec a fn) as [->|Hn]; simpl.
  - destruct (Nat.eq_dec fn g); [congruence | exact IH].
  - destruct (Nat.eq_dec a g); now rewrite IH.
Qed.

Lemma count_without_self (fn : nat) (l : list nat) :
  count_occ Nat.eq_dec (List.filter (fun x => negb (Nat.eqb x fn)) l) fn = 0%nat.
Proof.
  induction l as [|a l IH]; simpl; [reflexivity|].
  destruct (Nat.eqb_spec a fn) as [->|Hn]; simpl; [exact IH|].
  destruct (Nat.eq_dec a fn); [contradiction | exact IH].
Qed.

Lemma without_twice (fn : nat) (l : list nat) :
  List.filter (fun x => negb (Nat.eqb x fn)) (List.filter (fun x => negb (Nat.eqb x fn)) l) =
    List.filter (fun x => negb (Nat.eqb x fn)) l.
Proof.
  induction l as [|a l IH]; simpl; [reflexivity|].
  destruct (Nat.eqb a fn) eqn:E; simpl; [exact IH|]. rewrite E. now f_equal.
Qed.

(** X26: unsubscribing silences a listener for good.  The function [onLog]
    returns removes every registration of the listener, also when it was
    registered more than once: the next [log] calls each remaining listener
    once per registration, in the order of registration, and does not call
    the removed one.  The memory and the file are what they would have been,
    and unsubscribing a second time changes nothing. *)
Theorem unsubscribe_silences_every_registration (fn : nat) (id timestamp day : string)
    (written : bool) (entry : gmap string JS.value) (st : Logger.State) :
  let e := Logger.stamped id timestamp entry in
  let before := snd (Logger.log id timestamp day written entry st) in
  let after := snd (Logger.log id timestamp day written entry (Logger.unsubscribe fn st)) in
  Logger.calls before = Logger.calls st ++ map (fun g => (g, e)) (Logger.listeners st) /\
  Logger.calls after =
    Logger.calls st ++
    List.filter (fun c => negb (Nat.eqb (fst c) fn))
      (map (fun g => (g, e)) (Logger.listeners st)) /\
  (forall c, In c (drop (length (Logger.calls st)) (Logger.calls after)) -> fst c <> fn) /\
  (forall g, g <> fn ->
     count_occ Nat.eq_dec (Logger.listeners (Logger.unsubscribe fn st)) g =
     count_occ Nat.eq_dec (Logger.listeners st) g) /\
  count_occ Nat.eq_dec (Logger.listeners (Logger.unsubscribe fn st)) fn = 0%nat /\
  Logger.logs after = Logger.logs before /\
  Logger.files after = Logger.files before /\
  Logger.unsubscribe fn (Logger.unsubscribe fn st) = Logger.unsubscribe fn st.
Proof.
  cbv zeta.
  assert (Hmap : forall l : list nat,
            map (fun g => (g, Logger.stamped id timestamp entry))
              (List.filter (fun l0 => negb (Nat.eqb l0 fn)) l) =
            List.filter (fun c => negb (Nat.eqb (fst c) fn))
              (map (fun g => (g, Logger.stamped id timestamp entry)) l)).
  { induction l as [|a l IH]; simpl; [reflexivity|].
    destruct (Nat.eqb a fn); simpl; now rewrite IH. }
  assert (Hcalls : Logger.calls
                     (snd (Logger.log id timestamp day written entry
                             (Logger.unsubscribe fn st))) =
                   Logger.calls st ++
                   List.filter (fun c => negb (Nat.eqb (fst c) fn))
                     (map (fun g => (g, Logger.stamped id timestamp entry))
                        (Logger.listeners st))).
  { unfold Logger.log, Logger.unsubscribe. cbn [snd Logger.calls Logger.listeners].
    now rewrite Hmap. }
  split; [reflexivity|]. split; [exact Hcalls|].
  split.
  { intros c. rewrite Hcalls, drop_app_length. intros Hin.
    apply List.filter_In in Hin as [_ Hc]. apply negb_true_iff, Nat.eqb_neq in Hc.
    exact Hc. }
  split; [intros g Hne; apply count_without_other, Hne|].
  split; [apply count_without_self|].
  split; [reflexivity|]. split; [reflexivity|].
  unfold Logger.unsubscribe. cbn [Logger.listeners Logger.logs Logger.files Logger.calls].
  f_equal. apply without_twice.
Qed.

Lemma unsubscribe_silences_every_registration_witness :
  Logger.listeners Desk.three_logged = [1; 2; 1]%nat /\
  Logger.listeners (Logger.unsubscribe 1 Desk.three_logged) = [2]%nat /\
  forall c,
    In c (drop (length (Logger.calls Desk.three_logged))
            (Logger.calls (snd (Logger.log "a4" "4000" "1970-01-01" true Desk.warn_entry
                                  (Logger.unsubscribe 1 Desk.three_logged))))) ->
    fst c <> 1%nat.
Proof.
  destruct (unsubscribe_silences_every_registration 1 "a4" "4000" "1970-01-01" true
              Desk.warn_entry Desk.three_logged) as (_ & _ & H & _).
  split; [reflexivity|]. split; [reflexivity | exact H].
Defined.

(** ** A ban request that cannot be written *)

(** X27: when the notice of a ban request cannot be built (the platform
    refuses an embed whose reasoning is too long, say), the request ends
    there: the failure is the last entry of the audit, "Ban request failed";
    nothing is delivered to anybody and no pending request is stored.  The
    restraint of step 1 has been applied by then and stays: the offender was
    kicked, or muted for seven days, with no request for a reviewer to
    resolve. *)
Theorem unbuildable_request_keeps_the_restraint (cfg : Config) (P : Platform) (g : Guild)
    (message : Message) (analysis : Verdict) (err : string) (w : World) :
  respond P EBuildEmbed = Some err ->
  exists searched logs w',
    _requestBan cfg P g message analysis w = (Ok tt, w') /\
    Forall is_search searched /\
    trace w' = trace w ++ restraintEvents P g message ++ searched ++ [EBuildEmbed] /\
    deliveries (restraintEvents P g message ++ searched ++ [EBuildEmbed]) = [] /\
    pendingBans w' = pendingBans w /\
    userWarnings w' = userWarnings w /\
    audit w' = audit w ++ logs ++ [LError err "Ban request failed"].
Proof.
  intros Hembed. unfold _requestBan.
  set (name := JS.str_or (banRequestUser (settings cfg)) "devloafyt").
  destruct (restrain_run P g message analysis w) as [Hk Ht1].
  destruct (restrain_safe P g message analysis w)
    as (_ & Hu1 & _ & _ & _ & Hp1 & _ & (l1 & Hl1)).
  destruct (restrain P g message analysis w) as [r1 w1] eqn:E1.
  cbn [fst snd] in *. subst r1.
  destruct (locateReviewer_safe P g name w1)
    as (Hok2 & Hu2 & _ & _ & _ & Hp2 & (searched & Ht2 & Hs2) & (l2 & Hl2)).
  destruct (locateReviewer P g name w1) as [r2 w2] eqn:E2. cbn [fst snd] in *.
  destruct (ok_inv r2 Hok2) as [admin ->].
  exists searched, (l1 ++ l2). eexists. split.
  { unfold_monad. rewrite E1. simpl. rewrite E2. simpl. rewrite Hembed. simpl.
    reflexivity. }
  simpl. split; [exact Hs2|].
  split; [rewrite Ht2, Ht1, <- !app_assoc; reflexivity|].
  split.
  { rewrite !deliveries_app, restraintEvents_no_delivery, (search_no_delivery _ Hs2).
    reflexivity. }
  split; [congruence|]. split; [congruence|].
  rewrite Hl2, Hl1, <- !app_assoc. reflexivity.
Qed.

Lemma unbuildable_request_keeps_the_restraint_witness :
  exists searched logs w',
    _requestBan (Scenario.config [Scenario.threats])
      (Scenario.platform Cases.no_embed Scenario.silent) Scenario.home Scenario.post
      (Scenario.verdict "threats" Scenario.seconds600) empty_world = (Ok tt, w') /\
    trace w' = [EKick "42"; EAnnounce AnnKickPendingBan] ++ searched ++ [EBuildEmbed] /\
    pendingBans w' = ∅ /\
    audit w' = logs ++ [LError "Invalid string length" "Ban request failed"].
Proof.
  destruct (unbuildable_request_keeps_the_restraint (Scenario.config [Scenario.threats])
              (Scenario.platform Cases.no_embed Scenario.silent) Scenario.home
              Scenario.post (Scenario.verdict "threats" Scenario.seconds600)
              "Invalid string length" empty_world eq_refl)
    as (searched & logs & w' & Hrun & _ & Ht & _ & Hp & _ & Ha).
  exists searched, logs, w'. repeat split; assumption.
Defined.
